(** * Repository tools of the Azure DevOps MCP server: a shallow embedding

    The handlers registered by [configureRepoTools] (src/tools/repositories.ts)
    are embedded as Rocq functions.  JavaScript numbers that the handlers use
    as counts, ids and line numbers are integers ([Z]); optional properties
    and optional parameters are [option]; strings are [string]; a thrown
    exception is the [Thrown] branch of [Outcome]. *)

From Stdlib Require Import ZArith List String Ascii Bool Lia.
From Stdlib Require Import Sorting.Sorted Sorting.Permutation.
From Stdlib Require Import Structures.OrderedTypeEx.
Import ListNotations.
Open Scope string_scope.
Open Scope list_scope.
Open Scope Z_scope.

(** ** The JavaScript runtime operations the handlers rely on *)

Module JS.

(** Truthiness of an optional string ([if (s)]): [undefined] and the empty
    string are falsy. *)
Definition truthy_string (s : option string) : bool :=
  match s with
  | Some EmptyString => false
  | Some _ => true
  | None => false
  end.

(** Truthiness of an optional number: [undefined] and [0] are falsy. *)
Definition truthy_number (n : option Z) : bool :=
  match n with
  | Some v => negb (v =? 0)
  | None => false
  end.

(** Truthiness of an optional boolean. *)
Definition truthy_bool (b : option bool) : bool :=
  match b with
  | Some v => v
  | None => false
  end.

(** [a ?? d] *)
Definition nullish {A : Type} (a : option A) (d : A) : A :=
  match a with
  | Some v => v
  | None => d
  end.

(** [a || d] on numbers. *)
Definition or_number (a : option Z) (d : Z) : Z :=
  match a with
  | Some v => if v =? 0 then d else v
  | None => d
  end.

(** The clamping of a relative index done by [Array.prototype.slice]: a
    negative index counts from the end of the array. *)
Definition clamp_index (len i : Z) : Z :=
  if i <? 0 then Z.max (len + i) 0 else Z.min i len.

(** [arr.slice(start, end)] *)
Definition slice {A : Type} (l : list A) (start stop : Z) : list A :=
  let len := Z.of_nat (List.length l) in
  let k := clamp_index len start in
  let final := clamp_index len stop in
  firstn (Z.to_nat (final - k)) (skipn (Z.to_nat k) l).

(** *** [Array.prototype.sort]

    The handlers run on Node.js.  Its engine sorts an array of fewer than 64
    elements in one run: [CountAndMakeRun] finds the longest prefix that is
    already ascending, or strictly descending (which it reverses), and
    [BinaryInsertionSort] inserts the remaining elements one by one at the
    position found by binary search.  [sort] below is that procedure.  The
    comparator returns a number, of which only the sign is used.  A longer
    array is sorted run by run and the runs are merged; for a consistent
    comparator that gives the same array, the stable sorted one. *)

Section Sort.
Context {A : Type}.
Variable cmp : A -> A -> Z.

(** The [while (left < right)] loop of [BinaryInsertionSort]: the insertion
    point of [pivot] in [l], searched between [left] and [right]. *)
Fixpoint insertion_point (fuel : nat) (pivot : A) (l : list A)
         (left right : nat) : nat :=
  match fuel with
  | O => left
  | S fuel' =>
      if (left <? right)%nat then
        let mid := (left + Nat.div2 (right - left))%nat in
        match nth_error l mid with
        | Some e =>
            if cmp pivot e <? 0
            then insertion_point fuel' pivot l left mid
            else insertion_point fuel' pivot l (S mid) right
        | None => left
        end
      else left
  end.

(** One iteration of the outer loop: the elements from the insertion point
    on move up by one and [pivot] takes the free place. *)
Definition binary_insert (sorted : list A) (pivot : A) : list A :=
  let k := insertion_point (List.length sorted) pivot sorted 0 (List.length sorted) in
  firstn k sorted ++ pivot :: skipn k sorted.

Definition BinaryInsertionSort (run rest : list A) : list A :=
  fold_left binary_insert rest run.

(** The loop of [CountAndMakeRun]: [run_rev] is the run found so far, last
    element first; the result is the run (still reversed) and the elements
    after it. *)
Fixpoint extend_run (isDescending : bool) (previous : A) (run_rev : list A)
         (l : list A) : list A * list A :=
  match l with
  | [] => (run_rev, [])
  | current :: l' =>
      let order := cmp current previous in
      if (if isDescending then 0 <=? order else order <? 0)
      then (run_rev, l)
      else extend_run isDescending current (current :: run_rev) l'
  end.

(** The run at the head of the array, in ascending order, and the rest. *)
Definition CountAndMakeRun (l : list A) : list A * list A :=
  match l with
  | [] => ([], [])
  | [x] => ([x], [])
  | elementHigh :: elementLow :: l' =>
      let isDescending := cmp elementLow elementHigh <? 0 in
      let '(run_rev, rest) :=
        extend_run isDescending elementLow [elementLow; elementHigh] l' in
      (if isDescending then run_rev else rev run_rev, rest)
  end.

Definition sort (l : list A) : list A :=
  let '(run, rest) := CountAndMakeRun l in
  BinaryInsertionSort run rest.

End Sort.

(** [s.startsWith(p)] *)
Definition startsWith (s p : string) : bool := String.prefix p s.

(** [s.replace(pat, empty)] with a string pattern and the empty string as
    replacement: the first occurrence of [pat] is removed. *)
Fixpoint remove_first (pat s : string) : string :=
  if String.prefix pat s
  then substring (String.length pat) (String.length s - String.length pat) s
  else match s with
       | EmptyString => EmptyString
       | String c s' => String c (remove_first pat s')
       end.

(** [s.includes(p)] *)
Fixpoint includes (s p : string) : bool :=
  String.prefix p s ||
  match s with
  | EmptyString => false
  | String _ s' => includes s' p
  end.

(** [c.toUpperCase()] and [c.toLowerCase()] on the ASCII letters; other
    characters are unchanged. *)
Definition upper_ascii (c : ascii) : ascii :=
  let n := nat_of_ascii c in
  if ((97 <=? n) && (n <=? 122))%nat then ascii_of_nat (n - 32) else c.

Definition lower_ascii (c : ascii) : ascii :=
  let n := nat_of_ascii c in
  if ((65 <=? n) && (n <=? 90))%nat then ascii_of_nat (n + 32) else c.

Fixpoint toUpperCase (s : string) : string :=
  match s with
  | EmptyString => EmptyString
  | String c s' => String (upper_ascii c) (toUpperCase s')
  end.

Fixpoint toLowerCase (s : string) : string :=
  match s with
  | EmptyString => EmptyString
  | String c s' => String (lower_ascii c) (toLowerCase s')
  end.

(** [s.charAt(0)] and [s.slice(1)] *)
Definition charAt0 (s : string) : string :=
  match s with
  | EmptyString => EmptyString
  | String c _ => String c EmptyString
  end.

Definition slice1 (s : string) : string :=
  match s with
  | EmptyString => EmptyString
  | String _ s' => s'
  end.

(** The order by code units, one collation a runtime can have; it agrees
    with the usual collations on words of lower-case ASCII letters. *)
Definition compare_code_units (a b : string) : Z :=
  match String.compare a b with
  | Lt => -1
  | Eq => 0
  | Gt => 1
  end.

End JS.

(** ** Backend entities

    The interfaces of azure-devops-node-api, with the properties the handlers
    read or write and a few they leave alone. *)

Record IdentityRef := {
  displayName : option string;
  uniqueName : option string
}.

Record GitRepository := {
  repo_id : option string;
  repo_name : option string;
  isDisabled : option bool;
  isFork : option bool;
  isInMaintenance : option bool;
  webUrl : option string;
  size : option Z;
  defaultBranch : option string;
  remoteUrl : option string
}.

Record GitRef := {
  ref_name : option string;
  objectId : option string;
  ref_creator : option IdentityRef
}.

Inductive PullRequestStatus :=
  NotSet | PRActive | Abandoned | Completed | All.

Record GitPullRequest := {
  pullRequestId : option Z;
  codeReviewId : option Z;
  pr_status : option PullRequestStatus;
  createdBy : option IdentityRef;
  creationDate : option string;
  title : option string;
  isDraft : option bool;
  sourceRefName : option string;
  targetRefName : option string;
  pr_repository : option GitRepository;
  description : option string
}.

Inductive CommentType := CommentTypeUnknown | Text | CodeChange | System.

Record Comment := {
  comment_id : option Z;
  author : option IdentityRef;
  content : option string;
  publishedDate : option string;
  lastUpdatedDate : option string;
  lastContentUpdatedDate : option string;
  isDeleted : option bool;
  commentType : option CommentType;
  parentCommentId : option Z
}.

Inductive CommentThreadStatus :=
  Unknown | Active | Fixed | WontFix | Closed | ByDesign | Pending.

Record CommentPosition := {
  line : option Z;
  offset : option Z
}.

Record CommentThreadContext := {
  filePath : option string;
  leftFileStart : option CommentPosition;
  leftFileEnd : option CommentPosition;
  rightFileStart : option CommentPosition;
  rightFileEnd : option CommentPosition
}.

Record CommentThread := {
  thread_id : option Z;
  thread_publishedDate : option string;
  thread_lastUpdatedDate : option string;
  thread_status : option CommentThreadStatus;
  threadContext : option CommentThreadContext;
  comments : option (list Comment);
  thread_isDeleted : option bool
}.

Inductive GitVersionType := Branch | Tag | Commit.

Record GitVersionDescriptor := {
  version : string;
  versionType : option GitVersionType
}.

(** The members of [GitQueryCommitsCriteria]; the handler sets the first
    five only. *)
Record GitQueryCommitsCriteria := {
  fromCommitId : option string;
  toCommitId : option string;
  includeLinks : bool;
  includeWorkItems : bool;
  itemVersion : option GitVersionDescriptor;
  criteria_author : option string;
  fromDate : option string;
  toDate : option string;
  itemPath : option string
}.

Record GitCommitRef := {
  commitId : option string;
  commit_comment : option string
}.

Inductive GitPullRequestQueryType := QueryNotSet | LastMergeCommit | QueryCommit.

Record GitPullRequestQueryInput := {
  items : list string;
  query_type : option GitPullRequestQueryType
}.

Record GitPullRequestQuery := {
  queries : list GitPullRequestQueryInput;
  results : option (list (string * list GitPullRequest))
}.

(** The object literal the two listing handlers pass as search criteria;
    [repositoryId] is set by [list_pull_requests_by_repo] only. *)
Record PullRequestSearchCriteria := {
  status : PullRequestStatus;
  repositoryId : option string;
  creatorId : option string;
  reviewerId : option string
}.

Record UserDetails := {
  authenticatedUser_id : string
}.

(** The arguments of [gitApi.getRefs] after the repository id. *)
Record RefsArguments := {
  refs_project : option string;
  refs_filter : option string;
  refs_includeLinks : option bool;
  refs_includeStatuses : option bool;
  refs_includeMyBranches : option bool;
  refs_latestStatusesOnly : option bool;
  refs_peelTags : option bool;
  refs_filterContains : option string
}.

(** ** Enumerations indexed by name

    The enumerations of azure-devops-node-api are not part of the sources;
    the spec names their members (section 3).  [Enum[key]] yields the member
    called [key], or [undefined]. *)

(** Modelled from the spec: [CommentThreadStatus[key]], the member of the
    thread-status enumeration called [key]. *)
Definition CommentThreadStatus_member (key : string) : option CommentThreadStatus :=
  if (key =? "Unknown")%string then Some Unknown
  else if (key =? "Active")%string then Some Active
  else if (key =? "Fixed")%string then Some Fixed
  else if (key =? "WontFix")%string then Some WontFix
  else if (key =? "Closed")%string then Some Closed
  else if (key =? "ByDesign")%string then Some ByDesign
  else if (key =? "Pending")%string then Some Pending
  else None.

(** Modelled from the spec: [GitVersionType[key]], the version kind called
    [key] (branch, tag or commit). *)
Definition GitVersionType_member (key : string) : option GitVersionType :=
  if (key =? "Branch")%string then Some Branch
  else if (key =? "Tag")%string then Some Tag
  else if (key =? "Commit")%string then Some Commit
  else None.

(** Modelled from the spec: [GitPullRequestQueryType[key]], the query type
    called [key]. *)
Definition GitPullRequestQueryType_member (key : string)
  : option GitPullRequestQueryType :=
  if (key =? "NotSet")%string then Some QueryNotSet
  else if (key =? "LastMergeCommit")%string then Some LastMergeCommit
  else if (key =? "Commit")%string then Some QueryCommit
  else None.

(** ** Results of an asynchronous call: a value or a thrown error *)

Inductive Outcome (A : Type) : Type :=
| Returned (a : A)
| Thrown (message : string).
Arguments Returned {A} a.
Arguments Thrown {A} message.

Definition bind {A B : Type} (m : Outcome A) (k : A -> Outcome B) : Outcome B :=
  match m with
  | Returned a => k a
  | Thrown message => Thrown message
  end.

(** [try { body } catch (error) { handler }] *)
Definition try_catch {A : Type} (body : Outcome A) (handler : string -> Outcome A)
  : Outcome A :=
  match body with
  | Returned a => Returned a
  | Thrown message => handler message
  end.

Notation "x <- m ;; k" := (bind m (fun x => k))
  (at level 61, m at next level, right associativity).

(** ** The collaborators: connection, Git client, identity lookup *)

Record GitApi := {
  getRepositories :
    string -> option bool -> option bool -> option bool ->
    Outcome (option (list GitRepository));
  getPullRequests :
    string -> PullRequestSearchCriteria -> Z -> Z ->
    Outcome (option (list GitPullRequest));
  getPullRequestsByProject :
    string -> PullRequestSearchCriteria -> Z -> Z ->
    Outcome (option (list GitPullRequest));
  getThreads :
    string -> Z -> option string -> option Z -> option Z ->
    Outcome (option (list CommentThread));
  getComments :
    string -> Z -> Z -> option string -> Outcome (option (list Comment));
  getRefs : string -> RefsArguments -> Outcome (option (list GitRef));
  getPullRequest : string -> Z -> bool -> Outcome GitPullRequest;
  getCommits :
    string -> GitQueryCommitsCriteria -> string -> Z -> Z ->
    Outcome (list GitCommitRef);
  getPullRequestQuery :
    GitPullRequestQuery -> string -> string -> Outcome GitPullRequestQuery;
  createComment :
    Comment -> string -> Z -> Z -> option string -> Outcome Comment;
  createThread :
    CommentThread -> string -> Z -> option string -> Outcome CommentThread
}.

Record WebApi := {
  getGitApi : Outcome GitApi
}.

Record Providers := {
  connectionProvider : Outcome WebApi;
  getUserIdFromEmail : string -> Outcome string;
  getCurrentUserDetails : Outcome UserDetails
}.

(** ** Tool responses

    [content[0].text] is [JSON.stringify] of a value, or a message.  The value
    is kept as it is before serialization. *)

Record TrimmedRepository := {
  tr_id : option string;
  tr_name : option string;
  tr_isDisabled : option bool;
  tr_isFork : option bool;
  tr_isInMaintenance : option bool;
  tr_webUrl : option string;
  tr_size : option Z
}.

Record TrimmedAuthor := {
  ta_displayName : option string;
  ta_uniqueName : option string
}.

Record TrimmedPullRequest := {
  tp_pullRequestId : option Z;
  tp_codeReviewId : option Z;
  tp_repository : option string;
  tp_status : option PullRequestStatus;
  tp_createdBy : TrimmedAuthor;
  tp_creationDate : option string;
  tp_title : option string;
  tp_isDraft : option bool;
  tp_sourceRefName : option string;
  tp_targetRefName : option string
}.

Record TrimmedComment := {
  tc_id : option Z;
  tc_author : TrimmedAuthor;
  tc_content : option string;
  tc_publishedDate : option string;
  tc_lastUpdatedDate : option string;
  tc_lastContentUpdatedDate : option string
}.

Record TrimmedThread := {
  tt_id : option Z;
  tt_publishedDate : option string;
  tt_lastUpdatedDate : option string;
  tt_status : option CommentThreadStatus;
  tt_threadContext : option CommentThreadContext;
  tt_comments : option (list TrimmedComment)
}.

Record CreatedComment := {
  cc_id : option Z;
  cc_author : TrimmedAuthor;
  cc_content : option string;
  cc_publishedDate : option string;
  cc_threadId : Z
}.

Record CreatedThread := {
  ct_id : option Z;
  ct_status : option CommentThreadStatus;
  ct_threadContext : option CommentThreadContext;
  ct_comments : option (list TrimmedComment)
}.

Inductive Json :=
| JRepositories (v : option (list TrimmedRepository))
| JPullRequests (v : option (list TrimmedPullRequest))
| JFullThreads (v : option (list CommentThread))
| JThreads (v : option (list TrimmedThread))
| JFullComments (v : option (list Comment))
| JComments (v : option (list TrimmedComment))
| JBranchNames (v : option (list string))
| JRepository (v : GitRepository)
| JBranch (v : GitRef)
| JPullRequest (v : GitPullRequest)
| JCommits (v : list GitCommitRef)
| JQueryResult (v : GitPullRequestQuery)
| JCreatedComment (v : CreatedComment)
| JCreatedThread (v : CreatedThread).

Inductive ContentText :=
| Stringified (v : Json)
| Message (text : string).

Record ToolResult := {
  result_text : ContentText;
  isError : bool
}.

Definition ok (v : Json) : ToolResult :=
  {| result_text := Stringified v; isError := false |}.

Definition error_result (text : string) : ToolResult :=
  {| result_text := Message text; isError := true |}.

(** ** Helpers of repositories.ts *)

Definition heads_prefix : string := "refs/heads/".

Section Tools.

(** [String.prototype.localeCompare] of the runtime. *)
Variable localeCompare : string -> string -> Z.

Definition branchesFilterOutIrrelevantProperties
           (branches : option (list GitRef)) (top : Z) : option (list string) :=
  option_map
    (fun branches =>
       JS.slice
         (JS.sort (fun a b => localeCompare b a)
            (map (JS.remove_first heads_prefix)
               (filter (fun branch => JS.startsWith branch heads_prefix)
                  (flat_map
                     (fun branch =>
                        if JS.truthy_string (ref_name branch)
                        then [JS.nullish (ref_name branch) EmptyString]
                        else [])
                     branches))))
         0 top)
    branches.

Definition trimAuthor (a : option IdentityRef) : TrimmedAuthor :=
  {| ta_displayName := match a with Some i => displayName i | None => None end;
     ta_uniqueName := match a with Some i => uniqueName i | None => None end |}.

Definition trimComment (comment : Comment) : TrimmedComment :=
  {| tc_id := comment_id comment;
     tc_author := trimAuthor (author comment);
     tc_content := content comment;
     tc_publishedDate := publishedDate comment;
     tc_lastUpdatedDate := lastUpdatedDate comment;
     tc_lastContentUpdatedDate := lastContentUpdatedDate comment |}.

Definition trimComments (comments : option (list Comment))
  : option (list TrimmedComment) :=
  option_map
    (fun comments =>
       map trimComment
         (filter (fun comment => negb (JS.truthy_bool (isDeleted comment)))
            comments))
    comments.

Definition pullRequestStatusStringToInt (status : string)
  : Outcome PullRequestStatus :=
  if (status =? "Abandoned")%string then Returned Abandoned
  else if (status =? "Active")%string then Returned PRActive
  else if (status =? "All")%string then Returned All
  else if (status =? "Completed")%string then Returned Completed
  else if (status =? "NotSet")%string then Returned NotSet
  else Thrown ("Unknown pull request status: " ++ status)%string.

Definition filterReposByName (repositories : option (list GitRepository))
           (repoNameFilter : string) : option (list GitRepository) :=
  let lowerCaseFilter := JS.toLowerCase repoNameFilter in
  option_map
    (filter (fun repo =>
               match repo_name repo with
               | Some name => JS.includes (JS.toLowerCase name) lowerCaseFilter
               | None => false
               end))
    repositories.

(** ** The handlers *)

Variable env : Providers.

(** [connectionProvider()] followed by [connection.getGitApi()], the first
    two statements of every handler. *)
Definition connect : Outcome GitApi :=
  connection <- connectionProvider env ;;
  getGitApi connection.

(** The comparator of [list_repos_by_project]:
    [a.name?.localeCompare(b.name ?? empty) ?? 0], with [empty] the empty
    string. *)
Definition compare_repo_names (a b : GitRepository) : Z :=
  match repo_name a with
  | Some name => localeCompare name (JS.nullish (repo_name b) EmptyString)
  | None => 0
  end.

Definition trimRepository (repo : GitRepository) : TrimmedRepository :=
  {| tr_id := repo_id repo;
     tr_name := repo_name repo;
     tr_isDisabled := isDisabled repo;
     tr_isFork := isFork repo;
     tr_isInMaintenance := isInMaintenance repo;
     tr_webUrl := webUrl repo;
     tr_size := size repo |}.

Definition paginate_repositories (filteredRepositories : option (list GitRepository))
           (skip top : Z) : option (list GitRepository) :=
  option_map
    (fun repos => JS.slice (JS.sort compare_repo_names repos) skip (skip + top))
    filteredRepositories.

Definition list_repos_by_project (project : string) (top skip : Z)
           (repoNameFilter : option string) : Outcome ToolResult :=
  gitApi <- connect ;;
  repositories <- getRepositories gitApi project (Some false) (Some false) (Some false) ;;
  let filteredRepositories :=
    if JS.truthy_string repoNameFilter
    then filterReposByName repositories (JS.nullish repoNameFilter EmptyString)
    else repositories in
  let paginatedRepositories := paginate_repositories filteredRepositories skip top in
  let trimmedRepositories := option_map (map trimRepository) paginatedRepositories in
  Returned (ok (JRepositories trimmedRepositories)).

(** [searchCriteria.creatorId = userId] and [searchCriteria.reviewerId =
    userId] *)
Definition set_creatorId (searchCriteria : PullRequestSearchCriteria)
           (userId : string) : PullRequestSearchCriteria :=
  {| status := status searchCriteria;
     repositoryId := repositoryId searchCriteria;
     creatorId := Some userId;
     reviewerId := reviewerId searchCriteria |}.

Definition set_reviewerId (searchCriteria : PullRequestSearchCriteria)
           (userId : string) : PullRequestSearchCriteria :=
  {| status := status searchCriteria;
     repositoryId := repositoryId searchCriteria;
     creatorId := creatorId searchCriteria;
     reviewerId := Some userId |}.

(** The block that both pull-request listings run on their criteria:
    [if (created_by_user) { try ... catch ... } else if (created_by_me ||
    i_am_reviewer) { ... }].  The result is the completed criteria, or the
    response the [catch] clause returns. *)
Definition resolve_identity_filters (searchCriteria : PullRequestSearchCriteria)
           (created_by_me : bool) (created_by_user : option string)
           (i_am_reviewer : bool)
  : Outcome (PullRequestSearchCriteria + ToolResult) :=
  if JS.truthy_string created_by_user then
    let email := JS.nullish created_by_user EmptyString in
    try_catch
      (userId <- getUserIdFromEmail env email ;;
       Returned (inl (set_creatorId searchCriteria userId)))
      (fun error =>
         Returned (inr (error_result
           ("Error finding user with email " ++ email ++ ": " ++ error)%string)))
  else if created_by_me || i_am_reviewer then
    data <- getCurrentUserDetails env ;;
    let userId := authenticatedUser_id data in
    let searchCriteria :=
      if created_by_me then set_creatorId searchCriteria userId
      else searchCriteria in
    let searchCriteria :=
      if i_am_reviewer then set_reviewerId searchCriteria userId
      else searchCriteria in
    Returned (inl searchCriteria)
  else Returned (inl searchCriteria).

Definition trimPullRequest (withRepository : bool) (pr : GitPullRequest)
  : TrimmedPullRequest :=
  {| tp_pullRequestId := pullRequestId pr;
     tp_codeReviewId := codeReviewId pr;
     tp_repository :=
       if withRepository
       then match pr_repository pr with Some r => repo_name r | None => None end
       else None;
     tp_status := pr_status pr;
     tp_createdBy := trimAuthor (createdBy pr);
     tp_creationDate := creationDate pr;
     tp_title := title pr;
     tp_isDraft := isDraft pr;
     tp_sourceRefName := sourceRefName pr;
     tp_targetRefName := targetRefName pr |}.

Definition list_pull_requests_by_repo (repositoryId : string) (top skip : Z)
           (created_by_me : bool) (created_by_user : option string)
           (i_am_reviewer : bool) (status : string) : Outcome ToolResult :=
  gitApi <- connect ;;
  statusValue <- pullRequestStatusStringToInt status ;;
  let searchCriteria :=
    {| status := statusValue; repositoryId := Some repositoryId;
       creatorId := None; reviewerId := None |} in
  resolved <- resolve_identity_filters searchCriteria created_by_me
                created_by_user i_am_reviewer ;;
  match resolved with
  | inr response => Returned response
  | inl searchCriteria =>
      pullRequests <- getPullRequests gitApi repositoryId searchCriteria skip top ;;
      Returned (ok (JPullRequests
                      (option_map (map (trimPullRequest false)) pullRequests)))
  end.

Definition list_pull_requests_by_project (project : string) (top skip : Z)
           (created_by_me : bool) (created_by_user : option string)
           (i_am_reviewer : bool) (status : string) : Outcome ToolResult :=
  gitApi <- connect ;;
  statusValue <- pullRequestStatusStringToInt status ;;
  let gitPullRequestSearchCriteria :=
    {| status := statusValue; repositoryId := None;
       creatorId := None; reviewerId := None |} in
  resolved <- resolve_identity_filters gitPullRequestSearchCriteria created_by_me
                created_by_user i_am_reviewer ;;
  match resolved with
  | inr response => Returned response
  | inl gitPullRequestSearchCriteria =>
      pullRequests <-
        getPullRequestsByProject gitApi project gitPullRequestSearchCriteria skip top ;;
      Returned (ok (JPullRequests
                      (option_map (map (trimPullRequest true)) pullRequests)))
  end.

(** The comparator of both thread and comment listings:
    [(a.id ?? 0) - (b.id ?? 0)]. *)
Definition compare_ids (a b : option Z) : Z := JS.nullish a 0 - JS.nullish b 0.

Definition paginate_threads (threads : option (list CommentThread)) (skip top : Z)
  : option (list CommentThread) :=
  option_map
    (fun threads =>
       JS.slice
         (JS.sort (fun a b => compare_ids (thread_id a) (thread_id b)) threads)
         skip (skip + top))
    threads.

Definition trimThread (thread : CommentThread) : TrimmedThread :=
  {| tt_id := thread_id thread;
     tt_publishedDate := thread_publishedDate thread;
     tt_lastUpdatedDate := thread_lastUpdatedDate thread;
     tt_status := thread_status thread;
     tt_threadContext := threadContext thread;
     tt_comments := trimComments (comments thread) |}.

Definition list_pull_request_threads (repositoryId : string) (pullRequestId : Z)
           (project : option string) (iteration baseIteration : option Z)
           (top skip : Z) (fullResponse : bool) : Outcome ToolResult :=
  gitApi <- connect ;;
  threads <- getThreads gitApi repositoryId pullRequestId project iteration
               baseIteration ;;
  let paginatedThreads := paginate_threads threads skip top in
  if fullResponse then Returned (ok (JFullThreads paginatedThreads))
  else
    let trimmedThreads := option_map (map trimThread) paginatedThreads in
    Returned (ok (JThreads trimmedThreads)).

Definition paginate_comments (comments : option (list Comment)) (skip top : Z)
  : option (list Comment) :=
  option_map
    (fun comments =>
       JS.slice
         (JS.sort (fun a b => compare_ids (comment_id a) (comment_id b)) comments)
         skip (skip + top))
    comments.

Definition list_pull_request_thread_comments (repositoryId : string)
           (pullRequestId threadId : Z) (project : option string)
           (top skip : Z) (fullResponse : bool) : Outcome ToolResult :=
  gitApi <- connect ;;
  comments <- getComments gitApi repositoryId pullRequestId threadId project ;;
  let paginatedComments := paginate_comments comments skip top in
  if fullResponse then Returned (ok (JFullComments paginatedComments))
  else
    let trimmedComments := trimComments paginatedComments in
    Returned (ok (JComments trimmedComments)).

Definition branch_listing_arguments (includeMyBranches : option bool)
           (filterContains : option string) : RefsArguments :=
  {| refs_project := None;
     refs_filter := Some "heads/";
     refs_includeLinks := None;
     refs_includeStatuses := None;
     refs_includeMyBranches := includeMyBranches;
     refs_latestStatusesOnly := None;
     refs_peelTags := None;
     refs_filterContains := filterContains |}.

Definition list_branches_by_repo (repositoryId : string) (top : Z)
           (filterContains : option string) : Outcome ToolResult :=
  gitApi <- connect ;;
  branches <- getRefs gitApi repositoryId (branch_listing_arguments None filterContains) ;;
  let filteredBranches := branchesFilterOutIrrelevantProperties branches top in
  Returned (ok (JBranchNames filteredBranches)).

Definition list_my_branches_by_repo (repositoryId : string) (top : Z)
           (filterContains : option string) : Outcome ToolResult :=
  gitApi <- connect ;;
  branches <- getRefs gitApi repositoryId
                (branch_listing_arguments (Some true) filterContains) ;;
  let filteredBranches := branchesFilterOutIrrelevantProperties branches top in
  Returned (ok (JBranchNames filteredBranches)).

Definition same_string (a : option string) (b : string) : bool :=
  match a with
  | Some a => (a =? b)%string
  | None => false
  end.

Definition get_repo_by_name_or_id (project repositoryNameOrId : string)
  : Outcome ToolResult :=
  gitApi <- connect ;;
  repositories <- getRepositories gitApi project None None None ;;
  let repository :=
    match repositories with
    | Some repositories =>
        find (fun repo => same_string (repo_name repo) repositoryNameOrId
                          || same_string (repo_id repo) repositoryNameOrId)
             repositories
    | None => None
    end in
  match repository with
  | None =>
      Thrown ("Repository " ++ repositoryNameOrId ++ " not found in project "
              ++ project)%string
  | Some repository => Returned (ok (JRepository repository))
  end.

Definition get_branch_by_name (repositoryId branchName : string)
  : Outcome ToolResult :=
  gitApi <- connect ;;
  branches <- getRefs gitApi repositoryId
                {| refs_project := None;
                   refs_filter := Some "heads/";
                   refs_includeLinks := Some false;
                   refs_includeStatuses := Some false;
                   refs_includeMyBranches := None;
                   refs_latestStatusesOnly := Some false;
                   refs_peelTags := None;
                   refs_filterContains := Some branchName |} ;;
  match branches with
  | None => Thrown "Cannot read properties of undefined (reading 'find')"
  | Some branches =>
      let branch :=
        find (fun branch =>
                same_string (ref_name branch) (heads_prefix ++ branchName)%string
                || same_string (ref_name branch) branchName)
             branches in
      match branch with
      | None =>
          Returned (error_result
            ("Branch " ++ branchName ++ " not found in repository "
             ++ repositoryId)%string)
      | Some branch => Returned (ok (JBranch branch))
      end
  end.

Definition get_pull_request_by_id (repositoryId : string) (pullRequestId : Z)
           (includeWorkItemRefs : bool) : Outcome ToolResult :=
  gitApi <- connect ;;
  pullRequest <- getPullRequest gitApi repositoryId pullRequestId includeWorkItemRefs ;;
  Returned (ok (JPullRequest pullRequest)).

(** [searchCriteria.itemVersion = itemVersion] *)
Definition set_itemVersion (searchCriteria : GitQueryCommitsCriteria)
           (v : GitVersionDescriptor) : GitQueryCommitsCriteria :=
  {| fromCommitId := fromCommitId searchCriteria;
     toCommitId := toCommitId searchCriteria;
     includeLinks := includeLinks searchCriteria;
     includeWorkItems := includeWorkItems searchCriteria;
     itemVersion := Some v;
     criteria_author := criteria_author searchCriteria;
     fromDate := fromDate searchCriteria;
     toDate := toDate searchCriteria;
     itemPath := itemPath searchCriteria |}.

(** The criteria [search_commits] builds before it calls [getCommits]. *)
Definition search_commits_criteria (fromCommit toCommit version : option string)
           (versionType : string) (includeLinks includeWorkItems : bool)
  : GitQueryCommitsCriteria :=
  let searchCriteria :=
    {| fromCommitId := fromCommit;
       toCommitId := toCommit;
       includeLinks := includeLinks;
       includeWorkItems := includeWorkItems;
       itemVersion := None;
       criteria_author := None;
       fromDate := None;
       toDate := None;
       itemPath := None |} in
  if JS.truthy_string version then
    let itemVersion :=
      {| version := JS.nullish version EmptyString;
         versionType := GitVersionType_member versionType |} in
    set_itemVersion searchCriteria itemVersion
  else searchCriteria.

(** The [try] block of [search_commits]. *)
Definition search_commits_try (project repository : string)
           (fromCommit toCommit version : option string) (versionType : string)
           (skip top : Z) (includeLinks includeWorkItems : bool)
  : Outcome ToolResult :=
  gitApi <- connect ;;
  let searchCriteria :=
    search_commits_criteria fromCommit toCommit version versionType
      includeLinks includeWorkItems in
  commits <- getCommits gitApi repository searchCriteria project skip top ;;
  Returned (ok (JCommits commits)).

Definition search_commits (project repository : string)
           (fromCommit toCommit version : option string) (versionType : string)
           (skip top : Z) (includeLinks includeWorkItems : bool)
  : Outcome ToolResult :=
  try_catch
    (search_commits_try project repository fromCommit toCommit version
       versionType skip top includeLinks includeWorkItems)
    (fun error =>
       Returned (error_result ("Error searching commits: " ++ error)%string)).

Definition list_pull_requests_by_commits_try (project repository : string)
           (commits : list string) (queryType : string) : Outcome ToolResult :=
  gitApi <- connect ;;
  let query :=
    {| queries := [ {| items := commits;
                       query_type := GitPullRequestQueryType_member queryType |} ];
       results := None |} in
  queryResult <- getPullRequestQuery gitApi query repository project ;;
  Returned (ok (JQueryResult queryResult)).

Definition list_pull_requests_by_commits (project repository : string)
           (commits : list string) (queryType : string) : Outcome ToolResult :=
  try_catch
    (list_pull_requests_by_commits_try project repository commits queryType)
    (fun error =>
       Returned (error_result
         ("Error querying pull requests by commits: " ++ error)%string)).

(** The key under which [create_pull_request_comment] looks the status up
    in [CommentThreadStatus]. *)
Definition thread_status_key (status : string) : string :=
  if (status =? "byDesign")%string then "ByDesign"
  else if (status =? "wontFix")%string then "WontFix"
  else (JS.toUpperCase (JS.charAt0 status) ++ JS.slice1 status)%string.

Definition new_comment (content : string) : Comment :=
  {| comment_id := None;
     author := None;
     content := Some content;
     publishedDate := None;
     lastUpdatedDate := None;
     lastContentUpdatedDate := None;
     isDeleted := None;
     commentType := Some Text;
     parentCommentId := None |}.

(** [threadData], as it is when [createThread] is called. *)
Definition new_thread_data (content status : string) (filePath : option string)
           (lineStart lineEnd : option Z) : CommentThread :=
  {| thread_id := None;
     thread_publishedDate := None;
     thread_lastUpdatedDate := None;
     thread_status := CommentThreadStatus_member (thread_status_key status);
     threadContext :=
       if JS.truthy_string filePath && JS.truthy_number lineStart
       then Some {| filePath := filePath;
                    leftFileStart := None;
                    leftFileEnd := None;
                    rightFileStart := Some {| line := lineStart; offset := Some 1 |};
                    rightFileEnd :=
                      Some {| line := Some (JS.or_number lineEnd
                                             (JS.nullish lineStart 0));
                              offset := Some 1 |} |}
       else None;
     comments := Some [new_comment content];
     thread_isDeleted := None |}.

(** The two objects [create_pull_request_comment] answers with. *)
Definition created_comment (result : Comment) (threadId : Z) : CreatedComment :=
  {| cc_id := comment_id result;
     cc_author := trimAuthor (author result);
     cc_content := content result;
     cc_publishedDate := publishedDate result;
     cc_threadId := threadId |}.

Definition created_thread (result : CommentThread) : CreatedThread :=
  {| ct_id := thread_id result;
     ct_status := thread_status result;
     ct_threadContext := threadContext result;
     ct_comments := trimComments (comments result) |}.

(** The [try] block of [create_pull_request_comment]. *)
Definition create_pull_request_comment_try (repositoryId : string)
           (pullRequestId : Z) (content : string) (threadId : option Z)
           (status : string) (filePath : option string)
           (lineStart lineEnd : option Z) (project : option string)
  : Outcome ToolResult :=
  gitApi <- connect ;;
  if JS.truthy_number threadId then
    let threadId := JS.nullish threadId 0 in
    let comment := new_comment content in
    result <- createComment gitApi comment repositoryId pullRequestId threadId project ;;
    Returned (ok (JCreatedComment (created_comment result threadId)))
  else
    let threadData := new_thread_data content status filePath lineStart lineEnd in
    result <- createThread gitApi threadData repositoryId pullRequestId project ;;
    Returned (ok (JCreatedThread (created_thread result))).

Definition create_pull_request_comment (repositoryId : string)
           (pullRequestId : Z) (content : string) (threadId : option Z)
           (status : string) (filePath : option string)
           (lineStart lineEnd : option Z) (project : option string)
  : Outcome ToolResult :=
  try_catch
    (create_pull_request_comment_try repositoryId pullRequestId content threadId
       status filePath lineStart lineEnd project)
    (fun error =>
       Returned (error_result ("Error creating comment: " ++ error)%string)).

End Tools.

(** ** The registry: one request per registered tool *)

Inductive Request :=
| ListReposByProject (project : string) (top skip : Z) (repoNameFilter : option string)
| ListPullRequestsByRepo (repositoryId : string) (top skip : Z) (created_by_me : bool)
    (created_by_user : option string) (i_am_reviewer : bool) (status : string)
| ListPullRequestsByProject (project : string) (top skip : Z) (created_by_me : bool)
    (created_by_user : option string) (i_am_reviewer : bool) (status : string)
| ListBranchesByRepo (repositoryId : string) (top : Z) (filterContains : option string)
| ListMyBranchesByRepo (repositoryId : string) (top : Z) (filterContains : option string)
| ListPullRequestThreads (repositoryId : string) (pullRequestId : Z)
    (project : option string) (iteration baseIteration : option Z) (top skip : Z)
    (fullResponse : bool)
| ListPullRequestThreadComments (repositoryId : string) (pullRequestId threadId : Z)
    (project : option string) (top skip : Z) (fullResponse : bool)
| GetRepoByNameOrId (project repositoryNameOrId : string)
| GetBranchByName (repositoryId branchName : string)
| GetPullRequestById (repositoryId : string) (pullRequestId : Z)
    (includeWorkItemRefs : bool)
| SearchCommits (project repository : string) (fromCommit toCommit version : option string)
    (versionType : string) (skip top : Z) (includeLinks includeWorkItems : bool)
| ListPullRequestsByCommits (project repository : string) (commits : list string)
    (queryType : string)
| CreatePullRequestComment (repositoryId : string) (pullRequestId : Z) (content : string)
    (threadId : option Z) (status : string) (filePath : option string)
    (lineStart lineEnd : option Z) (project : option string).

Definition call_tool (localeCompare : string -> string -> Z) (env : Providers)
           (request : Request) : Outcome ToolResult :=
  match request with
  | ListReposByProject project top skip repoNameFilter =>
      list_repos_by_project localeCompare env project top skip repoNameFilter
  | ListPullRequestsByRepo repositoryId top skip me user reviewer status =>
      list_pull_requests_by_repo env repositoryId top skip me user reviewer status
  | ListPullRequestsByProject project top skip me user reviewer status =>
      list_pull_requests_by_project env project top skip me user reviewer status
  | ListBranchesByRepo repositoryId top filterContains =>
      list_branches_by_repo localeCompare env repositoryId top filterContains
  | ListMyBranchesByRepo repositoryId top filterContains =>
      list_my_branches_by_repo localeCompare env repositoryId top filterContains
  | ListPullRequestThreads repositoryId pullRequestId project iteration baseIteration
      top skip fullResponse =>
      list_pull_request_threads env repositoryId pullRequestId project iteration
        baseIteration top skip fullResponse
  | ListPullRequestThreadComments repositoryId pullRequestId threadId project top skip
      fullResponse =>
      list_pull_request_thread_comments env repositoryId pullRequestId threadId project
        top skip fullResponse
  | GetRepoByNameOrId project repositoryNameOrId =>
      get_repo_by_name_or_id env project repositoryNameOrId
  | GetBranchByName repositoryId branchName =>
      get_branch_by_name env repositoryId branchName
  | GetPullRequestById repositoryId pullRequestId includeWorkItemRefs =>
      get_pull_request_by_id env repositoryId pullRequestId includeWorkItemRefs
  | SearchCommits project repository fromCommit toCommit version versionType skip top
      includeLinks includeWorkItems =>
      search_commits env project repository fromCommit toCommit version versionType
        skip top includeLinks includeWorkItems
  | ListPullRequestsByCommits project repository commits queryType =>
      list_pull_requests_by_commits env project repository commits queryType
  | CreatePullRequestComment repositoryId pullRequestId content threadId status filePath
      lineStart lineEnd project =>
      create_pull_request_comment env repositoryId pullRequestId content threadId status
        filePath lineStart lineEnd project
  end.

(** The tools whose handler body is wrapped in [try]/[catch]. *)
Definition wrapped_in_try (request : Request) : bool :=
  match request with
  | SearchCommits _ _ _ _ _ _ _ _ _ _ => true
  | ListPullRequestsByCommits _ _ _ _ => true
  | CreatePullRequestComment _ _ _ _ _ _ _ _ _ => true
  | _ => false
  end.

(** ** Comparators

    A comparator is consistent on a set of values when it orders them as a
    total preorder; this is the condition under which the language fixes the
    result of [sort]. *)

Record consistent_on {A : Type} (P : A -> Prop) (cmp : A -> A -> Z) : Prop := {
  cmp_antisym : forall a b, P a -> P b -> Z.sgn (cmp b a) = - Z.sgn (cmp a b);
  cmp_trans : forall a b c, P a -> P b -> P c ->
                            cmp a b <= 0 -> cmp b c <= 0 -> cmp a c <= 0
}.

Definition consistent {A : Type} (cmp : A -> A -> Z) : Prop :=
  consistent_on (fun _ => True) cmp.

(** Elements the comparator declares equal to [x]. *)
Definition tied {A : Type} (cmp : A -> A -> Z) (x y : A) : bool := cmp x y =? 0.

(** ** Vocabulary of the properties *)

(** A comment whose deletion flag is set. *)
Definition deleted (c : Comment) : Prop := isDeleted c = Some true.

(** The comments a response shows in trimmed form. *)
Definition trimmed_comments (r : ToolResult) : list TrimmedComment :=
  match result_text r with
  | Stringified (JComments (Some cs)) => cs
  | Stringified (JThreads (Some ts)) =>
      flat_map (fun t => JS.nullish (tt_comments t) []) ts
  | _ => []
  end.

(** The comments a response shows as the backend delivered them. *)
Definition full_comments (r : ToolResult) : list Comment :=
  match result_text r with
  | Stringified (JFullComments (Some cs)) => cs
  | Stringified (JFullThreads (Some ts)) =>
      flat_map (fun t => JS.nullish (comments t) []) ts
  | _ => []
  end.

(** The comments of a fetched collection of threads. *)
Definition thread_comments (threads : option (list CommentThread)) : list Comment :=
  flat_map (fun t => JS.nullish (comments t) []) (JS.nullish threads []).

(** ** A small backend for the examples *)

Definition sample_author : IdentityRef :=
  {| displayName := Some "Ada"; uniqueName := Some "ada@x.com" |}.

Definition sample_comment (id : Z) (text : string) (isDeleted : option bool)
  : Comment :=
  {| comment_id := Some id;
     author := Some sample_author;
     content := Some text;
     publishedDate := Some "2025-01-01T00:00:00Z";
     lastUpdatedDate := Some "2025-01-01T00:00:00Z";
     lastContentUpdatedDate := Some "2025-01-01T00:00:00Z";
     isDeleted := isDeleted;
     commentType := Some Text;
     parentCommentId := None |}.

Definition sample_thread (id : Z) (cs : list Comment) : CommentThread :=
  {| thread_id := Some id;
     thread_publishedDate := Some "2025-01-01T00:00:00Z";
     thread_lastUpdatedDate := Some "2025-01-01T00:00:00Z";
     thread_status := Some Active;
     threadContext := None;
     comments := Some cs;
     thread_isDeleted := None |}.

Definition sample_repository (id : string) (name : option string) : GitRepository :=
  {| repo_id := Some id;
     repo_name := name;
     isDisabled := Some false;
     isFork := Some false;
     isInMaintenance := Some false;
     webUrl := None;
     size := Some 0;
     defaultBranch := Some "refs/heads/main";
     remoteUrl := None |}.

Definition sample_ref (name : string) : GitRef :=
  {| ref_name := Some name; objectId := None; ref_creator := None |}.

Definition sample_pull_request : GitPullRequest :=
  {| pullRequestId := Some 1;
     codeReviewId := Some 1;
     pr_status := Some PRActive;
     createdBy := Some sample_author;
     creationDate := None;
     title := Some "Change";
     isDraft := Some false;
     sourceRefName := Some "refs/heads/dev";
     targetRefName := Some "refs/heads/main";
     pr_repository := None;
     description := None |}.

(** The pull request by which the sample client shows the criteria it was
    given: the creator filter as title, the reviewer filter as source ref. *)
Definition echo_criteria (criteria : PullRequestSearchCriteria) : GitPullRequest :=
  {| pullRequestId := Some 1;
     codeReviewId := Some 1;
     pr_status := Some (status criteria);
     createdBy := None;
     creationDate := None;
     title := creatorId criteria;
     isDraft := Some false;
     sourceRefName := reviewerId criteria;
     targetRefName := None;
     pr_repository := None;
     description := None |}.

(** A Git client that answers with the given collections, echoes the
    criteria of a pull-request listing, and returns what it is asked to
    create. *)
Definition sample_api (repositories : list GitRepository) (refs : list GitRef)
           (threads : list CommentThread) : GitApi :=
  {| getRepositories := fun _ _ _ _ => Returned (Some repositories);
     getPullRequests := fun _ criteria _ _ => Returned (Some [echo_criteria criteria]);
     getPullRequestsByProject :=
       fun _ criteria _ _ => Returned (Some [echo_criteria criteria]);
     getThreads := fun _ _ _ _ _ => Returned (Some threads);
     getComments := fun _ _ threadId _ =>
       Returned
         (match find (fun t => match thread_id t with
                               | Some id => id =? threadId
                               | None => false
                               end) threads with
          | Some t => comments t
          | None => None
          end);
     getRefs := fun _ _ => Returned (Some refs);
     getPullRequest := fun _ _ _ => Returned sample_pull_request;
     getCommits := fun _ _ _ _ _ => Returned [];
     getPullRequestQuery := fun query _ _ => Returned query;
     createComment := fun comment _ _ _ _ => Returned comment;
     createThread := fun thread _ _ _ => Returned thread |}.

Definition sample_env (api : GitApi) : Providers :=
  {| connectionProvider := Returned {| getGitApi := Returned api |};
     getUserIdFromEmail := fun email =>
       if (email =? "a@x.com")%string then Returned "id-of-a"
       else Thrown ("No user found with email/unique name: " ++ email)%string;
     getCurrentUserDetails := Returned {| authenticatedUser_id := "id-of-caller" |} |}.

Definition live_comment : Comment := sample_comment 1 "kept" None.
Definition deleted_comment : Comment := sample_comment 2 "removed" (Some true).

Definition review_env : Providers :=
  sample_env (sample_api [] [] [sample_thread 7 [live_comment; deleted_comment]]).

(** Providers whose connection cannot be established. *)
Definition offline_env : Providers :=
  {| connectionProvider := Thrown "offline";
     getUserIdFromEmail := fun _ => Thrown "offline";
     getCurrentUserDetails := Thrown "offline" |}.

Definition main_only_env : Providers :=
  sample_env (sample_api [] [sample_ref "refs/heads/main"] []).

(** The status strings the schema of [create_pull_request_comment] accepts. *)
Definition thread_status_inputs : list string :=
  ["active"; "byDesign"; "closed"; "fixed"; "pending"; "unknown"; "wontFix"].

(** A repository that has a name. *)
Definition named (r : GitRepository) : Prop := repo_name r <> None.

(** ** Proof tools *)

(** Case analysis on the sign of a comparator's answer. *)
Ltac sgn_cases x :=
  let H := fresh in
  destruct (Z.sgn_spec x) as [[? H]|[[? H]|[? H]]]; rewrite H in *.

(** ** More of the runtime: [trim] and [split]

    As with the case mappings, white space is the ASCII white space. *)

Module JSString.

Definition is_space (c : ascii) : bool :=
  let n := nat_of_ascii c in
  (((9 <=? n) && (n <=? 13)) || (n =? 32))%nat.

(** [s.trimStart()] *)
Fixpoint trimStart (s : string) : string :=
  match s with
  | EmptyString => EmptyString
  | String c s' => if is_space c then trimStart s' else s
  end.

(** [s.trimEnd()] *)
Fixpoint trimEnd (s : string) : string :=
  match s with
  | EmptyString => EmptyString
  | String c s' =>
      match trimEnd s' with
      | EmptyString => if is_space c then EmptyString else String c EmptyString
      | String d t => String c (String d t)
      end
  end.

(** [s.trim()] *)
Definition trim (s : string) : string := trimEnd (trimStart s).

(** [s.split(sep)] for a separator of one character. *)
Fixpoint split (sep : ascii) (s : string) : list string :=
  match s with
  | EmptyString => [EmptyString]
  | String c s' =>
      if Ascii.eqb c sep then EmptyString :: split sep s'
      else match split sep s' with
           | [] => [String c EmptyString]
           | piece :: pieces => String c piece :: pieces
           end
  end.

(** The number of occurrences of a character. *)
Fixpoint occurrences (sep : ascii) (s : string) : nat :=
  match s with
  | EmptyString => O
  | String c s' => ((if Ascii.eqb c sep then 1 else 0) + occurrences sep s')%nat
  end.

End JSString.

(** ** domains.ts: the domains manager *)

Module Domains.

(** [enum Domain] and [ALL_DOMAINS] *)
Definition REPOSITORIES : string := "repositories".
Definition ALL_DOMAINS : string := "all".

(** A [Set<string>], as the list of its elements in insertion order. *)
Record DomainsManager := {
  enabledDomains : list string
}.

(** The argument [domainsInput?: string | string[]]. *)
Definition DomainsInput : Type := option (string + list string).

(** [new DomainsManager(domainsInput)] *)
Definition constructor (domainsInput : DomainsInput) : DomainsManager :=
  {| enabledDomains := [REPOSITORIES] |}.

(** [this.enabledDomains.has(domain)] *)
Definition isDomainEnabled (manager : DomainsManager) (domain : string) : bool :=
  existsb (String.eqb domain) (enabledDomains manager).

(** [new Set(this.enabledDomains)] *)
Definition getEnabledDomains (manager : DomainsManager) : list string :=
  enabledDomains manager.

(** [Object.values(Domain)] *)
Definition getAvailableDomains : list string := [REPOSITORIES].

Definition normalize (d : string) : string := JS.toLowerCase (JSString.trim d).

Definition parseDomainsInput (domainsInput : DomainsInput) : list string :=
  match domainsInput with
  | None => []
  | Some (inl EmptyString) => []
  | Some (inl domains) => map normalize (JSString.split "," domains)
  | Some (inr domains) => map normalize domains
  end.

End Domains.

(** Two threads delivered out of order, the second with a deleted comment
    between two live ones. *)
Definition unordered_threads : list CommentThread :=
  [sample_thread 9 [live_comment];
   sample_thread 3 [sample_comment 6 "third" None; deleted_comment; live_comment]].

Definition threads_env : Providers := sample_env (sample_api [] [] unordered_threads).

(** Providers with a working connection whose caller cannot be resolved. *)
Definition anonymous_env : Providers :=
  {| connectionProvider := Returned {| getGitApi := Returned (sample_api [] [] []) |};
     getUserIdFromEmail := fun _ => Thrown "not signed in";
     getCurrentUserDetails := Thrown "not signed in" |}.

Definition three_repositories : list GitRepository :=
  [sample_repository "1" (Some "Web"); sample_repository "2" (Some "api");
   sample_repository "api" (Some "docs")].

(** ** Reading and writing tools *)

(** The one tool that calls [createComment] or [createThread]. *)
Definition is_write (request : Request) : bool :=
  match request with
  | CreatePullRequestComment _ _ _ _ _ _ _ _ _ => true
  | _ => false
  end.

(** The same client with other [createComment] and [createThread]. *)
Definition with_writers (api : GitApi)
           (newCreateComment :
              Comment -> string -> Z -> Z -> option string -> Outcome Comment)
           (newCreateThread :
              CommentThread -> string -> Z -> option string -> Outcome CommentThread)
  : GitApi :=
  {| getRepositories := getRepositories api;
     getPullRequests := getPullRequests api;
     getPullRequestsByProject := getPullRequestsByProject api;
     getThreads := getThreads api;
     getComments := getComments api;
     getRefs := getRefs api;
     getPullRequest := getPullRequest api;
     getCommits := getCommits api;
     getPullRequestQuery := getPullRequestQuery api;
     createComment := newCreateComment;
     createThread := newCreateThread |}.

(** The same providers, connected to [api]. *)
Definition with_api (env : Providers) (api : GitApi) : Providers :=
  {| connectionProvider := Returned {| getGitApi := Returned api |};
     getUserIdFromEmail := getUserIdFromEmail env;
     getCurrentUserDetails := getCurrentUserDetails env |}.

(** The refs of a collection that a branch listing takes for branches. *)
Definition head_refs (branches : list GitRef) : list GitRef :=
  filter (fun b => JS.startsWith (JS.nullish (ref_name b) EmptyString) heads_prefix)
    branches.

Definition mixed_refs : list GitRef :=
  [sample_ref "refs/heads/dev"; sample_ref "refs/tags/v1";
   sample_ref "refs/heads/main"; sample_ref "refs/heads/beta"].

(** A Git client every call of which fails, and providers connected to it. *)
Definition broken_api : GitApi :=
  {| getRepositories := fun _ _ _ _ => Thrown "backend down";
     getPullRequests := fun _ _ _ _ => Thrown "backend down";
     getPullRequestsByProject := fun _ _ _ _ => Thrown "backend down";
     getThreads := fun _ _ _ _ _ => Thrown "backend down";
     getComments := fun _ _ _ _ => Thrown "backend down";
     getRefs := fun _ _ => Thrown "backend down";
     getPullRequest := fun _ _ _ => Thrown "backend down";
     getCommits := fun _ _ _ _ _ => Thrown "backend down";
     getPullRequestQuery := fun _ _ _ => Thrown "backend down";
     createComment := fun _ _ _ _ _ => Thrown "backend down";
     createThread := fun _ _ _ _ => Thrown "backend down" |}.

Definition broken_env : Providers := sample_env broken_api.

(** Four comments with the ids 1 to 4, delivered in that order. *)
Definition four_comments : list Comment :=
  [sample_comment 1 "one" None; sample_comment 2 "two" None;
   sample_comment 3 "three" None; sample_comment 4 "four" None].

(** Repositories delivered out of order, with an unnamed one between. *)
Definition unordered_repositories : list GitRepository :=
  [sample_repository "1" (Some "beta"); sample_repository "2" None;
   sample_repository "3" (Some "gamma"); sample_repository "4" (Some "alpha")].

(** * Properties *)

Example sort_example :
  JS.sort Z.sub [3; 1; 2; 5; 4] = [1; 2; 3; 4; 5].
Proof. reflexivity. Qed.

Example sort_descending_run :
  JS.sort Z.sub [5; 4; 3; 7; 1] = [1; 3; 4; 5; 7].
Proof. reflexivity. Qed.

Example slice_example : JS.slice [1; 2; 3; 4] 1 3 = [2; 3].
Proof. reflexivity. Qed.

Example slice_negative : JS.slice [1; 2; 3; 4] 0 (-1) = [1; 2; 3].
Proof. reflexivity. Qed.

Example remove_first_example :
  JS.remove_first "refs/heads/" "refs/heads/main" = "main".
Proof. reflexivity. Qed.

(** ** Paging: [slice(skip, skip + top)] *)

Section Slice.
Context {A : Type}.
Implicit Types l : list A.

Lemma slice_window l (skip top : Z) :
  0 <= skip -> 0 <= top ->
  JS.slice l skip (skip + top)
  = firstn (Z.to_nat top) (skipn (Z.to_nat skip) l).
Proof.
  intros Hs Ht. unfold JS.slice, JS.clamp_index.
  destruct (Z.ltb_spec skip 0); [lia|].
  destruct (Z.ltb_spec (skip + top) 0); [lia|].
  set (len := Z.of_nat (List.length l)).
  destruct (Z_le_gt_dec len skip) as [Hle|Hgt].
  - rewrite (skipn_all2 l) by (subst len; lia).
    rewrite skipn_all2 by (subst len; lia).
    now rewrite !firstn_nil.
  - rewrite (Z.min_l skip len) by lia.
    destruct (Z_le_gt_dec (skip + top) len).
    + rewrite Z.min_l by lia. f_equal. lia.
    + rewrite Z.min_r by lia.
      assert (Hlen : List.length (skipn (Z.to_nat skip) l) = Z.to_nat (len - skip))
        by (rewrite length_skipn; subst len; lia).
      rewrite !firstn_all2; try reflexivity; rewrite Hlen; lia.
Qed.

Lemma slice_skip_past_end l (skip stop : Z) :
  Z.of_nat (List.length l) <= skip -> JS.slice l skip stop = [].
Proof.
  intros H. unfold JS.slice, JS.clamp_index.
  destruct (Z.ltb_spec skip 0); [lia|].
  rewrite (Z.min_r skip) by lia.
  rewrite skipn_all2 by lia. apply firstn_nil.
Qed.

Lemma slice_empty_window l (skip : Z) : JS.slice l skip skip = [].
Proof.
  unfold JS.slice. now rewrite Z.sub_diag.
Qed.

Lemma slice_from_start l (top : Z) :
  0 <= top -> JS.slice l 0 top = firstn (Z.to_nat top) l.
Proof.
  intros H. replace top with (0 + top) at 1 by lia.
  now rewrite slice_window by lia.
Qed.

Lemma slice_from_start_twice l (top : Z) :
  0 <= top -> JS.slice (JS.slice l 0 top) 0 top = JS.slice l 0 top.
Proof.
  intros H. rewrite !slice_from_start by assumption.
  rewrite firstn_firstn. now rewrite Nat.min_id.
Qed.

Lemma slice_length l (top : Z) :
  0 <= top -> Z.of_nat (List.length (JS.slice l 0 top)) <= top.
Proof.
  intros H. rewrite slice_from_start by assumption.
  rewrite length_firstn. lia.
Qed.

Lemma slice_incl l (start stop : Z) x : In x (JS.slice l start stop) -> In x l.
Proof.
  unfold JS.slice. intros H.
  set (k := Z.to_nat (JS.clamp_index (Z.of_nat (List.length l)) start)) in *.
  set (n := Z.to_nat _) in H.
  rewrite <- (firstn_skipn k l). apply in_or_app. right.
  rewrite <- (firstn_skipn n (skipn k l)). apply in_or_app. now left.
Qed.

End Slice.

(** ** [sort]: a permutation, sorted and stable for a consistent comparator *)

Lemma StronglySorted_nth {A : Type} (R : A -> A -> Prop) (l : list A) :
  StronglySorted R l ->
  forall i j a b, (i < j)%nat ->
    nth_error l i = Some a -> nth_error l j = Some b -> R a b.
Proof.
  induction 1 as [|x l Hs IH Hx]; intros i j a b Hij Ha Hb.
  - destruct i; discriminate.
  - destruct j as [|j]; [lia|]. destruct i as [|i]; simpl in *.
    + injection Ha as <-. rewrite Forall_forall in Hx.
      apply Hx. eapply nth_error_In; eauto.
    + apply (IH i j a b); [lia | assumption | assumption].
Qed.

Lemma StronglySorted_app_inv {A : Type} (R : A -> A -> Prop) (l1 l2 : list A) :
  StronglySorted R (l1 ++ l2) ->
  StronglySorted R l1 /\ StronglySorted R l2 /\
  (forall a b, In a l1 -> In b l2 -> R a b).
Proof.
  induction l1 as [|x l1 IH]; simpl; intros H.
  - repeat split; [constructor | assumption | contradiction].
  - apply StronglySorted_inv in H as [Hs Hx].
    destruct (IH Hs) as (H1 & H2 & H12).
    rewrite Forall_app in Hx. destruct Hx as [Hx1 Hx2].
    repeat split; auto.
    + now constructor.
    + intros a b [<-|Ha] Hb; [|now auto].
      rewrite Forall_forall in Hx2. now apply Hx2.
Qed.

Lemma StronglySorted_app_intro {A : Type} (R : A -> A -> Prop) (l1 l2 : list A) :
  StronglySorted R l1 -> StronglySorted R l2 ->
  (forall a b, In a l1 -> In b l2 -> R a b) ->
  StronglySorted R (l1 ++ l2).
Proof.
  induction 1 as [|x l1 Hs IH Hx]; simpl; intros H2 H12; [assumption|].
  constructor.
  - apply IH; auto.
  - rewrite Forall_app. split; [assumption|].
    rewrite Forall_forall. intros b Hb. apply H12; auto.
Qed.

Lemma StronglySorted_weaken {A : Type} (R S : A -> A -> Prop) (l : list A) :
  (forall a b, In a l -> In b l -> R a b -> S a b) ->
  StronglySorted R l -> StronglySorted S l.
Proof.
  intros HRS H. induction H as [|x l Hs IH Hx]; constructor.
  - apply IH. intros a b Ha Hb. apply HRS; now right.
  - rewrite Forall_forall in *. intros b Hb.
    apply HRS; [now left | now right | now apply Hx].
Qed.

Lemma StronglySorted_rev {A : Type} (R : A -> A -> Prop) (l : list A) :
  StronglySorted R l -> StronglySorted (fun a b => R b a) (rev l).
Proof.
  induction 1 as [|x l Hs IH Hx]; simpl; [constructor|].
  apply StronglySorted_app_intro; auto.
  - repeat constructor.
  - intros a b Ha [<-|[]]. rewrite Forall_forall in Hx.
    apply Hx. now apply in_rev.
Qed.

Lemma In_firstn_nth {A : Type} (k : nat) (l : list A) (x : A) :
  In x (firstn k l) -> exists i, (i < k)%nat /\ nth_error l i = Some x.
Proof.
  intros H. apply In_nth_error in H as [i Hi].
  rewrite nth_error_firstn in Hi.
  destruct (Nat.ltb_spec i k); [eauto | discriminate].
Qed.

Lemma In_skipn_nth {A : Type} (k : nat) (l : list A) (x : A) :
  In x (skipn k l) -> exists i, (k <= i)%nat /\ nth_error l i = Some x.
Proof.
  intros H. apply In_nth_error in H as [i Hi].
  rewrite nth_error_skipn in Hi. exists (k + i)%nat. split; [lia | assumption].
Qed.

Section SortPermutation.
Context {A : Type}.
Variable cmp : A -> A -> Z.

Lemma binary_insert_Permutation (sorted : list A) (pivot : A) :
  Permutation (JS.binary_insert cmp sorted pivot) (sorted ++ [pivot]).
Proof.
  unfold JS.binary_insert.
  set (k := JS.insertion_point _ _ _ _ _ _).
  rewrite <- Permutation_middle, firstn_skipn.
  apply Permutation_cons_append.
Qed.

Lemma BinaryInsertionSort_Permutation (rest run : list A) :
  Permutation (JS.BinaryInsertionSort cmp run rest) (run ++ rest).
Proof.
  unfold JS.BinaryInsertionSort. revert run.
  induction rest as [|x rest IH]; intros run; simpl.
  - now rewrite app_nil_r.
  - rewrite IH, binary_insert_Permutation, <- app_assoc. reflexivity.
Qed.

Lemma extend_run_split (isDescending : bool) (l : list A) :
  forall previous run_rev,
    rev (fst (JS.extend_run cmp isDescending previous run_rev l))
    ++ snd (JS.extend_run cmp isDescending previous run_rev l)
    = rev run_rev ++ l.
Proof.
  induction l as [|x l IH]; intros previous run_rev; simpl; [reflexivity|].
  destruct (if isDescending then _ else _); simpl; [reflexivity|].
  rewrite IH. simpl. now rewrite <- app_assoc.
Qed.

Lemma CountAndMakeRun_Permutation (l : list A) :
  Permutation (fst (JS.CountAndMakeRun cmp l) ++ snd (JS.CountAndMakeRun cmp l)) l.
Proof.
  destruct l as [|x [|y l]]; simpl; try reflexivity.
  pose proof (extend_run_split (cmp y x <? 0) l y [y; x]) as H.
  destruct (JS.extend_run _ _ _ _ _) as [run_rev rest]. simpl in *.
  rewrite <- H.
  destruct (cmp y x <? 0); simpl; [|reflexivity].
  apply Permutation_app_tail, Permutation_rev.
Qed.

Lemma sort_Permutation (l : list A) : Permutation (JS.sort cmp l) l.
Proof.
  unfold JS.sort.
  pose proof (CountAndMakeRun_Permutation l) as H.
  destruct (JS.CountAndMakeRun cmp l) as [run rest]. simpl in H.
  now rewrite BinaryInsertionSort_Permutation.
Qed.

Lemma sort_In (l : list A) (x : A) : In x (JS.sort cmp l) <-> In x l.
Proof.
  split; apply Permutation_in;
    [apply sort_Permutation | symmetry; apply sort_Permutation].
Qed.

Lemma sort_length (l : list A) : List.length (JS.sort cmp l) = List.length l.
Proof. apply Permutation_length, sort_Permutation. Qed.

End SortPermutation.

Section SortConsistent.
Context {A : Type}.
Variable cmp : A -> A -> Z.
Variable P : A -> Prop.
Hypothesis Hcmp : consistent_on P cmp.

Lemma cmp_flip_le a b : P a -> P b -> 0 <= cmp a b -> cmp b a <= 0.
Proof.
  intros Pa Pb H. pose proof (cmp_antisym P cmp Hcmp a b Pa Pb).
  sgn_cases (cmp a b); sgn_cases (cmp b a); lia.
Qed.

Lemma cmp_flip_lt a b : P a -> P b -> cmp a b <= 0 -> 0 <= cmp b a.
Proof.
  intros Pa Pb H. pose proof (cmp_antisym P cmp Hcmp a b Pa Pb).
  sgn_cases (cmp a b); sgn_cases (cmp b a); lia.
Qed.

Lemma cmp_lt_le_trans a b c :
  P a -> P b -> P c -> cmp a b < 0 -> cmp b c <= 0 -> cmp a c < 0.
Proof.
  intros Pa Pb Pc Hab Hbc.
  destruct (Z_lt_ge_dec (cmp a c) 0) as [|Hge]; [assumption|exfalso].
  assert (Hca : cmp c a <= 0) by (apply cmp_flip_le; auto; lia).
  pose proof (cmp_trans P cmp Hcmp b c a Pb Pc Pa Hbc Hca) as Hba.
  apply cmp_flip_lt in Hba; auto. lia.
Qed.

Lemma cmp_le_lt_trans a b c :
  P a -> P b -> P c -> cmp a b <= 0 -> cmp b c < 0 -> cmp a c < 0.
Proof.
  intros Pa Pb Pc Hab Hbc.
  destruct (Z_lt_ge_dec (cmp a c) 0) as [|Hge]; [assumption|exfalso].
  assert (Hca : cmp c a <= 0) by (apply cmp_flip_le; auto; lia).
  pose proof (cmp_trans P cmp Hcmp c a b Pc Pa Pb Hca Hab) as Hcb.
  apply cmp_flip_lt in Hcb; auto. lia.
Qed.

Lemma tied_not_below x a b :
  P x -> P a -> P b -> cmp a b < 0 -> cmp x a = 0 -> cmp x b <> 0.
Proof.
  intros Px Pa Pb Hab Hxa Hxb.
  assert (Hbx : cmp b x <= 0) by (apply cmp_flip_le; auto; lia).
  assert (Hxa' : cmp x a <= 0) by lia.
  pose proof (cmp_trans P cmp Hcmp b x a Pb Px Pa Hbx Hxa') as Hba.
  apply cmp_flip_lt in Hba; auto. lia.
Qed.

(** The invariants of the binary search, as stated in its source. *)
Lemma insertion_point_spec (pivot : A) (l : list A) :
  StronglySorted (fun a b => cmp a b <= 0) l -> Forall P l -> P pivot ->
  forall fuel left right,
    (right - left <= fuel)%nat -> (left <= right <= List.length l)%nat ->
    (forall i e, (i < left)%nat -> nth_error l i = Some e -> 0 <= cmp pivot e) ->
    (forall i e, (right <= i)%nat -> nth_error l i = Some e -> cmp pivot e < 0) ->
    let k := JS.insertion_point cmp fuel pivot l left right in
    (left <= k <= right)%nat /\
    (forall i e, (i < k)%nat -> nth_error l i = Some e -> 0 <= cmp pivot e) /\
    (forall i e, (k <= i)%nat -> nth_error l i = Some e -> cmp pivot e < 0).
Proof.
  intros Hsorted HP Ppivot. rewrite Forall_forall in HP.
  induction fuel as [|fuel IH]; intros left right Hfuel Hrange Hleft Hright; simpl.
  - assert (left = right) by lia. subst. repeat split; auto; lia.
  - destruct (Nat.ltb_spec left right) as [Hlt|Hge].
    2:{ assert (left = right) by lia. subst. repeat split; auto; lia. }
    set (mid := (left + Nat.div2 (right - left))%nat).
    assert (Hmid : (left <= mid < right)%nat).
    { subst mid. rewrite Nat.div2_div.
      pose proof (Nat.div_lt (right - left) 2). lia. }
    destruct (nth_error l mid) as [e|] eqn:He.
    2:{ apply nth_error_None in He. lia. }
    assert (Pe : P e) by (apply HP; eapply nth_error_In; eauto).
    destruct (Z.ltb_spec (cmp pivot e) 0) as [Hlow|Hhigh].
    + destruct (IH left mid) as (Hk & Hbelow & Habove); try lia; auto.
      { intros i x Hi Hx.
        destruct (Nat.eq_dec i mid) as [->|Hne]; [congruence|].
        assert (Px : P x) by (apply HP; eapply nth_error_In; eauto).
        apply (cmp_lt_le_trans pivot e x); auto.
        apply (StronglySorted_nth _ l Hsorted mid i); auto. lia. }
      repeat split; auto; lia.
    + destruct (IH (S mid) right) as (Hk & Hbelow & Habove); try lia; auto.
      { intros i x Hi Hx.
        destruct (Nat.eq_dec i mid) as [->|Hne]; [congruence|].
        assert (Px : P x) by (apply HP; eapply nth_error_In; eauto).
        apply (cmp_flip_lt x pivot); auto.
        apply (cmp_trans P cmp Hcmp x e pivot); auto.
        - apply (StronglySorted_nth _ l Hsorted i mid); auto. lia.
        - apply cmp_flip_le; auto. }
      repeat split; auto; lia.
Qed.

Lemma binary_insert_split (sorted : list A) (pivot : A) :
  StronglySorted (fun a b => cmp a b <= 0) sorted -> Forall P sorted -> P pivot ->
  exists before after,
    sorted = before ++ after /\
    JS.binary_insert cmp sorted pivot = before ++ pivot :: after /\
    Forall (fun e => cmp e pivot <= 0) before /\
    Forall (fun e => cmp pivot e < 0) after.
Proof.
  intros Hsorted HP Ppivot. unfold JS.binary_insert.
  destruct (insertion_point_spec pivot sorted Hsorted HP Ppivot
              (List.length sorted) 0%nat (List.length sorted))
    as (Hk & Hbelow & Habove); try lia.
  { intros i e Hi He.
    assert (i < List.length sorted)%nat by (apply nth_error_Some; congruence).
    lia. }
  set (k := JS.insertion_point _ _ _ _ _ _) in *.
  exists (firstn k sorted), (skipn k sorted).
  rewrite Forall_forall in HP.
  repeat split.
  - now rewrite firstn_skipn.
  - rewrite Forall_forall. intros e He.
    apply In_firstn_nth in He as (i & Hi & He).
    apply cmp_flip_le; auto.
    + apply HP. eapply nth_error_In; eauto.
    + eapply Hbelow; eauto.
  - rewrite Forall_forall. intros e He.
    apply In_skipn_nth in He as (i & Hi & He). eapply Habove; eauto.
Qed.

Lemma binary_insert_sorted (sorted : list A) (pivot : A) :
  StronglySorted (fun a b => cmp a b <= 0) sorted -> Forall P sorted -> P pivot ->
  StronglySorted (fun a b => cmp a b <= 0) (JS.binary_insert cmp sorted pivot).
Proof.
  intros Hsorted HP Ppivot.
  destruct (binary_insert_split sorted pivot Hsorted HP Ppivot)
    as (before & after & -> & -> & Hbefore & Hafter).
  apply StronglySorted_app_inv in Hsorted as (Hs1 & Hs2 & H12).
  rewrite Forall_forall in Hbefore, Hafter.
  apply StronglySorted_app_intro; auto.
  - constructor; auto. rewrite Forall_forall. intros e He.
    specialize (Hafter e He). lia.
  - intros a b Ha [<-|Hb]; auto.
Qed.

Lemma binary_insert_tied (sorted : list A) (pivot x : A) :
  StronglySorted (fun a b => cmp a b <= 0) sorted -> Forall P sorted -> P pivot ->
  P x ->
  filter (tied cmp x) (JS.binary_insert cmp sorted pivot)
  = filter (tied cmp x) (sorted ++ [pivot]).
Proof.
  intros Hsorted HP Ppivot Px.
  destruct (binary_insert_split sorted pivot Hsorted HP Ppivot)
    as (before & after & -> & -> & Hbefore & Hafter).
  rewrite !filter_app. simpl.
  destruct (tied cmp x pivot) eqn:Hx.
  2:{ now rewrite app_nil_r. }
  replace (filter (tied cmp x) after) with (@nil A);
    [now rewrite app_nil_r|].
  symmetry. rewrite Forall_app in HP. destruct HP as [_ HPa].
  unfold tied in *. apply Z.eqb_eq in Hx. clear Hsorted.
  induction after as [|e after IH]; [reflexivity|]. simpl.
  apply Forall_cons_iff in Hafter as [He Hafter].
  apply Forall_cons_iff in HPa as [Pe HPa].
  destruct (Z.eqb_spec (cmp x e) 0) as [Hxe|_]; [exfalso|now apply IH].
  exact (tied_not_below x pivot e Px Ppivot Pe He Hx Hxe).
Qed.

End SortConsistent.

Section SortCorrect.
Context {A : Type}.
Variable cmp : A -> A -> Z.
Variable P : A -> Prop.
Hypothesis Hcmp : consistent_on P cmp.

Let ascending (a b : A) : Prop := cmp a b <= 0.

Lemma binary_insert_Forall (sorted : list A) (pivot : A) :
  Forall P sorted -> P pivot -> Forall P (JS.binary_insert cmp sorted pivot).
Proof.
  intros HP Ppivot.
  eapply Permutation_Forall.
  - symmetry. apply binary_insert_Permutation.
  - apply Forall_app. split; auto.
Qed.

Lemma BinaryInsertionSort_sorted (rest : list A) :
  forall run, StronglySorted ascending run -> Forall P run -> Forall P rest ->
              StronglySorted ascending (JS.BinaryInsertionSort cmp run rest).
Proof.
  unfold JS.BinaryInsertionSort.
  induction rest as [|x rest IH]; intros run Hsorted HP Hrest; simpl; auto.
  apply Forall_cons_iff in Hrest as [Px Hrest].
  apply IH; auto.
  - now apply (binary_insert_sorted cmp P Hcmp).
  - now apply binary_insert_Forall.
Qed.

Lemma BinaryInsertionSort_tied (x : A) (rest : list A) :
  P x ->
  forall run, StronglySorted ascending run -> Forall P run -> Forall P rest ->
              filter (tied cmp x) (JS.BinaryInsertionSort cmp run rest)
              = filter (tied cmp x) (run ++ rest).
Proof.
  intros Px. unfold JS.BinaryInsertionSort.
  induction rest as [|y rest IH]; intros run Hsorted HP Hrest; simpl.
  - now rewrite app_nil_r.
  - apply Forall_cons_iff in Hrest as [Py Hrest].
    rewrite IH; auto.
    + rewrite filter_app, (binary_insert_tied cmp P Hcmp); auto.
      now rewrite <- filter_app, <- app_assoc.
    + now apply (binary_insert_sorted cmp P Hcmp).
    + now apply binary_insert_Forall.
Qed.

(** While the run is ascending, every element is at least its
    predecessors; [run_rev] holds the run last element first. *)
Lemma extend_run_ascending (l : list A) :
  forall previous run_rev,
    StronglySorted (fun newer older => cmp older newer <= 0) (previous :: run_rev) ->
    Forall P (previous :: run_rev) -> Forall P l ->
    StronglySorted (fun newer older => cmp older newer <= 0)
      (fst (JS.extend_run cmp false previous (previous :: run_rev) l)).
Proof.
  induction l as [|current l IH]; intros previous run_rev Hsorted HP Hl; simpl; auto.
  apply Forall_cons_iff in Hl as [Pc Hl].
  destruct (Z.ltb_spec (cmp current previous) 0) as [|Hge]; simpl; auto.
  apply IH; auto. constructor; auto.
  pose proof HP as HP'. apply Forall_cons_iff in HP' as [Pp HPr].
  assert (Hpc : cmp previous current <= 0) by (apply (cmp_flip_le cmp P Hcmp); auto).
  constructor; auto.
  apply StronglySorted_inv in Hsorted as [_ Hprev].
  rewrite Forall_forall in *. intros older Ho.
  apply (cmp_trans P cmp Hcmp older previous current); auto.
Qed.

(** While the run is descending, every element is strictly below its
    predecessors. *)
Lemma extend_run_descending (l : list A) :
  forall previous run_rev,
    StronglySorted (fun newer older => cmp newer older < 0) (previous :: run_rev) ->
    Forall P (previous :: run_rev) -> Forall P l ->
    StronglySorted (fun newer older => cmp newer older < 0)
      (fst (JS.extend_run cmp true previous (previous :: run_rev) l)).
Proof.
  induction l as [|current l IH]; intros previous run_rev Hsorted HP Hl; simpl; auto.
  apply Forall_cons_iff in Hl as [Pc Hl].
  destruct (Z.leb_spec 0 (cmp current previous)) as [|Hlt]; simpl; auto.
  apply IH; auto. constructor; auto.
  pose proof HP as HP'. apply Forall_cons_iff in HP' as [Pp HPr].
  constructor; auto.
  apply StronglySorted_inv in Hsorted as [_ Hprev].
  rewrite Forall_forall in *. intros older Ho.
  apply (cmp_lt_le_trans cmp P Hcmp current previous older); auto.
  specialize (Hprev older Ho). lia.
Qed.

Lemma descending_run_tied (x : A) (l : list A) :
  P x -> StronglySorted (fun newer older => cmp newer older < 0) l -> Forall P l ->
  filter (tied cmp x) (rev l) = filter (tied cmp x) l.
Proof.
  intros Px Hsorted HP.
  induction Hsorted as [|a l Hs IH Ha]; [reflexivity|].
  apply Forall_cons_iff in HP as [Pa HP].
  simpl. rewrite filter_app, IH by assumption. simpl.
  destruct (tied cmp x a) eqn:Hxa; [|now rewrite app_nil_r].
  replace (filter (tied cmp x) l) with (@nil A); [reflexivity|].
  symmetry. unfold tied in *. apply Z.eqb_eq in Hxa. clear IH Hs.
  induction l as [|b l IHl]; [reflexivity|]. simpl.
  apply Forall_cons_iff in Ha as [Hab Ha].
  apply Forall_cons_iff in HP as [Pb HP].
  destruct (Z.eqb_spec (cmp x b) 0) as [Hxb|_]; [exfalso|now apply IHl].
  exact (tied_not_below cmp P Hcmp x a b Px Pa Pb Hab Hxa Hxb).
Qed.

Lemma CountAndMakeRun_Forall (l : list A) :
  Forall P l ->
  Forall P (fst (JS.CountAndMakeRun cmp l)) /\
  Forall P (snd (JS.CountAndMakeRun cmp l)).
Proof.
  intros HP. rewrite <- Forall_app.
  eapply Permutation_Forall; [|exact HP].
  symmetry. apply CountAndMakeRun_Permutation.
Qed.

Lemma CountAndMakeRun_sorted (l : list A) :
  Forall P l -> StronglySorted ascending (fst (JS.CountAndMakeRun cmp l)).
Proof.
  intros HP. destruct l as [|x [|y l]]; simpl.
  - constructor.
  - repeat constructor.
  - apply Forall_cons_iff in HP as [Px HP].
    apply Forall_cons_iff in HP as [Py HP].
    destruct (Z.ltb_spec (cmp y x) 0) as [Hlt|Hge].
    + pose proof (extend_run_descending l y [x]) as H.
      destruct (JS.extend_run cmp true y [y; x] l) as [run_rev rest]. simpl in *.
      eapply StronglySorted_weaken; [|apply H; repeat constructor; auto].
      unfold ascending. intros; lia.
    + pose proof (extend_run_ascending l y [x]) as H.
      destruct (JS.extend_run cmp false y [y; x] l) as [run_rev rest]. simpl in *.
      apply (StronglySorted_rev (fun newer older => cmp older newer <= 0)).
      apply H; repeat constructor; auto.
      apply (cmp_flip_le cmp P Hcmp); auto.
Qed.

Lemma CountAndMakeRun_tied (x : A) (l : list A) :
  P x -> Forall P l ->
  filter (tied cmp x)
    (fst (JS.CountAndMakeRun cmp l) ++ snd (JS.CountAndMakeRun cmp l))
  = filter (tied cmp x) l.
Proof.
  intros Px HP. destruct l as [|a [|b l]]; try reflexivity.
  pose proof (extend_run_split cmp (cmp b a <? 0) l b [b; a]) as Hsplit.
  change (rev [b; a] ++ l) with (a :: b :: l) in Hsplit.
  apply Forall_cons_iff in HP as [Pa HP].
  apply Forall_cons_iff in HP as [Pb HP].
  unfold JS.CountAndMakeRun.
  destruct (Z.ltb_spec (cmp b a) 0) as [Hlt|Hge].
  - pose proof (extend_run_descending l b [a]) as H.
    assert (HF : Forall P (fst (JS.extend_run cmp true b [b; a] l))).
    { assert (HF : Forall P (a :: b :: l)) by (repeat constructor; auto).
      rewrite <- Hsplit in HF. apply Forall_app in HF as [HF _].
      apply Forall_rev in HF. now rewrite rev_involutive in HF. }
    destruct (JS.extend_run cmp true b [b; a] l) as [run_rev rest].
    cbn [fst snd] in *.
    rewrite <- Hsplit, !filter_app. f_equal.
    symmetry. apply descending_run_tied; auto.
    apply H; repeat constructor; auto.
  - destruct (JS.extend_run cmp false b [b; a] l) as [run_rev rest].
    cbn [fst snd] in *. now rewrite Hsplit.
Qed.

(** The result of [sort] is ordered by the comparator. *)
Lemma sort_sorted (l : list A) :
  Forall P l -> StronglySorted (fun a b => cmp a b <= 0) (JS.sort cmp l).
Proof.
  intros HP. unfold JS.sort.
  pose proof (CountAndMakeRun_sorted l HP) as Hrun.
  destruct (CountAndMakeRun_Forall l HP) as [H1 H2].
  destruct (JS.CountAndMakeRun cmp l) as [run rest]. simpl in *.
  now apply BinaryInsertionSort_sorted.
Qed.

(** [sort] is stable: the elements tied with [x] keep their order. *)
Lemma sort_stable (x : A) (l : list A) :
  P x -> Forall P l ->
  filter (tied cmp x) (JS.sort cmp l) = filter (tied cmp x) l.
Proof.
  intros Px HP. unfold JS.sort.
  pose proof (CountAndMakeRun_sorted l HP) as Hrun.
  pose proof (CountAndMakeRun_tied x l Px HP) as Htied.
  destruct (CountAndMakeRun_Forall l HP) as [H1 H2].
  destruct (JS.CountAndMakeRun cmp l) as [run rest]. simpl in *.
  now rewrite BinaryInsertionSort_tied.
Qed.

End SortCorrect.

(** * The claims *)

(** ** C9: paging *)

(** The window that [slice(skip, skip + top)] cuts out of an array. *)
Lemma slice_paging {A : Type} (l : list A) (skip top : Z) :
  (0 <= skip -> 0 <= top ->
   JS.slice l skip (skip + top) = firstn (Z.to_nat top) (skipn (Z.to_nat skip) l)) /\
  (Z.of_nat (List.length l) <= skip -> JS.slice l skip (skip + top) = []) /\
  (top = 0 -> JS.slice l skip (skip + top) = []) /\
  (skip = 0 -> 0 <= top ->
   JS.slice (JS.slice l skip (skip + top)) skip (skip + top)
   = JS.slice l skip (skip + top)).
Proof.
  split; [|split; [|split]].
  - apply slice_window.
  - apply slice_skip_past_end.
  - intros ->. rewrite Z.add_0_r. apply slice_empty_window.
  - intros -> Htop. simpl. now apply slice_from_start_twice.
Qed.

(** C9, as stated, fails: the page of comments at skip 1 of size 2, out of
    four comments with the ids 1 to 4, holds the comments 2 and 3; the same
    slice applied to that page leaves comment 3 only, and paging the page
    again does the same. *)
Lemma paging_twice_differs :
  paginate_comments (Some four_comments) 1 2
  = Some [sample_comment 2 "two" None; sample_comment 3 "three" None] /\
  JS.slice [sample_comment 2 "two" None; sample_comment 3 "three" None] 1 (1 + 2)
  = [sample_comment 3 "three" None] /\
  paginate_comments (paginate_comments (Some four_comments) 1 2) 1 2
  = Some [sample_comment 3 "three" None] /\
  paginate_comments (paginate_comments (Some four_comments) 1 2) 1 2
  <> paginate_comments (Some four_comments) 1 2.
Proof.
  split; [reflexivity|]. split; [reflexivity|]. split; [reflexivity|].
  discriminate.
Qed.

(** C9 (amended): the listings of repositories, threads and comments page
    alike.  For non-negative skip and top the page is the window
    [[skip, skip + top)] of the sorted collection; a skip at or past the
    length gives the empty page and no error; top 0 gives the empty page;
    and applying the same slice to the page again leaves it unchanged when
    skip is 0. *)
Theorem listings_page_by_window
        (localeCompare : string -> string -> Z)
        (repositories : list GitRepository) (threads : list CommentThread)
        (cs : list Comment) (skip top : Z) :
  (exists page,
      paginate_repositories localeCompare (Some repositories) skip top = Some page /\
      (0 <= skip -> 0 <= top ->
       page = firstn (Z.to_nat top)
                (skipn (Z.to_nat skip)
                   (JS.sort (compare_repo_names localeCompare) repositories))) /\
      (Z.of_nat (List.length repositories) <= skip -> page = []) /\
      (top = 0 -> page = []) /\
      (skip = 0 -> 0 <= top -> JS.slice page skip (skip + top) = page)) /\
  (exists page,
      paginate_threads (Some threads) skip top = Some page /\
      (0 <= skip -> 0 <= top ->
       page = firstn (Z.to_nat top)
                (skipn (Z.to_nat skip)
                   (JS.sort (fun a b => compare_ids (thread_id a) (thread_id b))
                      threads))) /\
      (Z.of_nat (List.length threads) <= skip -> page = []) /\
      (top = 0 -> page = []) /\
      (skip = 0 -> 0 <= top -> JS.slice page skip (skip + top) = page)) /\
  (exists page,
      paginate_comments (Some cs) skip top = Some page /\
      (0 <= skip -> 0 <= top ->
       page = firstn (Z.to_nat top)
                (skipn (Z.to_nat skip)
                   (JS.sort (fun a b => compare_ids (comment_id a) (comment_id b))
                      cs))) /\
      (Z.of_nat (List.length cs) <= skip -> page = []) /\
      (top = 0 -> page = []) /\
      (skip = 0 -> 0 <= top -> JS.slice page skip (skip + top) = page)).
Proof.
  split; [|split]; (eexists; split; [reflexivity|]);
    match goal with
    | |- context [JS.slice (JS.sort ?cmp ?l) _ _] =>
        destruct (slice_paging (JS.sort cmp l) skip top) as (H1 & H2 & H3 & H4)
    end;
    (split; [exact H1|]; split; [|split; [exact H3 | exact H4]]);
    intros Hlen; apply H2; rewrite sort_length; exact Hlen.
Qed.

Lemma listings_page_by_window_witness :
  (exists page,
      paginate_comments (Some four_comments) 1 2 = Some page /\
      page = firstn (Z.to_nat 2)
               (skipn (Z.to_nat 1)
                  (JS.sort (fun a b => compare_ids (comment_id a) (comment_id b))
                     four_comments))) /\
  (exists page,
      paginate_threads (Some unordered_threads) 2 5 = Some page /\ page = []) /\
  (exists page,
      paginate_repositories JS.compare_code_units (Some three_repositories) 1 0
      = Some page /\ page = []) /\
  (exists page,
      paginate_comments (Some four_comments) 0 3 = Some page /\
      JS.slice page 0 (0 + 3) = page).
Proof.
  split; [|split; [|split]].
  - destruct (listings_page_by_window JS.compare_code_units three_repositories
                unordered_threads four_comments 1 2)
      as (_ & _ & page & Hpage & Hwindow & _).
    exists page. split; [exact Hpage|]. apply Hwindow; lia.
  - destruct (listings_page_by_window JS.compare_code_units three_repositories
                unordered_threads four_comments 2 5)
      as (_ & (page & Hpage & _ & Hpast & _) & _).
    exists page. split; [exact Hpage|]. apply Hpast. simpl. lia.
  - destruct (listings_page_by_window JS.compare_code_units three_repositories
                unordered_threads four_comments 1 0)
      as ((page & Hpage & _ & _ & Hzero & _) & _).
    exists page. split; [exact Hpage|]. apply Hzero. reflexivity.
  - destruct (listings_page_by_window JS.compare_code_units three_repositories
                unordered_threads four_comments 0 3)
      as (_ & _ & page & Hpage & _ & _ & _ & Hagain).
    exists page. split; [exact Hpage|]. apply Hagain; [reflexivity | lia].
Defined.

(** ** C1: deleted comments *)

Lemma trimComments_source (cs : option (list Comment)) (tc : TrimmedComment) :
  In tc (JS.nullish (trimComments cs) []) ->
  exists c, In c (JS.nullish cs []) /\ ~ deleted c /\ tc = trimComment c.
Proof.
  destruct cs as [cs|]; simpl; [|contradiction].
  intros H. apply in_map_iff in H as (c & <- & Hc).
  apply filter_In in Hc as [Hin Hlive].
  exists c. repeat split; auto.
  unfold deleted. intros Hdel. rewrite Hdel in Hlive. discriminate.
Qed.

Lemma paginate_threads_incl (threads : option (list CommentThread)) (skip top : Z)
      (th : CommentThread) :
  In th (JS.nullish (paginate_threads threads skip top) []) ->
  In th (JS.nullish threads []).
Proof.
  destruct threads as [ts|]; simpl; [|contradiction].
  intros H. apply slice_incl in H. now apply sort_In in H.
Qed.

Lemma paginate_comments_incl (cs : option (list Comment)) (skip top : Z) (c : Comment) :
  In c (JS.nullish (paginate_comments cs skip top) []) -> In c (JS.nullish cs []).
Proof.
  destruct cs as [cs|]; simpl; [|contradiction].
  intros H. apply slice_incl in H. now apply sort_In in H.
Qed.

Lemma trimmed_threads_source (threads : option (list CommentThread)) (skip top : Z)
      (tc : TrimmedComment) :
  In tc (trimmed_comments
           (ok (JThreads (option_map (map trimThread)
                            (paginate_threads threads skip top))))) ->
  exists c, In c (thread_comments threads) /\ ~ deleted c /\ tc = trimComment c.
Proof.
  unfold trimmed_comments, thread_comments. simpl.
  pose proof (paginate_threads_incl threads skip top) as Hincl.
  destruct (paginate_threads threads skip top) as [page|]; simpl in *; [|contradiction].
  intros H. apply in_flat_map in H as (tt & Htt & Htc).
  apply in_map_iff in Htt as (th & <- & Hth). simpl in Htc.
  apply trimComments_source in Htc as (c & Hc & Hlive & ->).
  exists c. repeat split; auto.
  apply in_flat_map. exists th. split; auto.
Qed.

(** C1, as stated, fails on the full-response path: with [fullResponse]
    set, both listings answer with the page of backend objects, and the
    comment whose deletion flag is set is on it. *)
Lemma full_response_shows_deleted_comment :
  deleted deleted_comment /\
  list_pull_request_threads review_env "R" 1 None None None 100 0 true
  = Returned (ok (JFullThreads
                    (Some [sample_thread 7 [live_comment; deleted_comment]]))) /\
  list_pull_request_thread_comments review_env "R" 1 7 None 100 0 true
  = Returned (ok (JFullComments (Some [live_comment; deleted_comment]))) /\
  In deleted_comment
     (full_comments (ok (JFullComments (Some [live_comment; deleted_comment])))).
Proof.
  split; [reflexivity|]. split; [reflexivity|]. split; [reflexivity|].
  simpl. right. now left.
Qed.

(** C1 (amended): once the fetch has succeeded, the trimmed answer of
    [list_pull_request_threads] and of [list_pull_request_thread_comments]
    shows only projections of fetched comments whose deletion flag is not
    set; with [fullResponse] the answer is the sorted page of backend
    objects as fetched, whatever their deletion flags. *)
Theorem trimmed_listings_omit_deleted_comments
        (env : Providers) (api : GitApi) (repositoryId : string)
        (pullRequestId threadId : Z) (project : option string)
        (iteration baseIteration : option Z) (top skip : Z)
        (threads : option (list CommentThread)) (cs : option (list Comment)) :
  connect env = Returned api ->
  getThreads api repositoryId pullRequestId project iteration baseIteration
  = Returned threads ->
  getComments api repositoryId pullRequestId threadId project = Returned cs ->
  (exists r,
      list_pull_request_threads env repositoryId pullRequestId project iteration
        baseIteration top skip false = Returned r /\
      isError r = false /\
      forall tc, In tc (trimmed_comments r) ->
                 exists c, In c (thread_comments threads) /\ ~ deleted c /\
                           tc = trimComment c) /\
  (exists r,
      list_pull_request_thread_comments env repositoryId pullRequestId threadId
        project top skip false = Returned r /\
      isError r = false /\
      forall tc, In tc (trimmed_comments r) ->
                 exists c, In c (JS.nullish cs []) /\ ~ deleted c /\
                           tc = trimComment c) /\
  list_pull_request_threads env repositoryId pullRequestId project iteration
    baseIteration top skip true
  = Returned (ok (JFullThreads (paginate_threads threads skip top))) /\
  list_pull_request_thread_comments env repositoryId pullRequestId threadId
    project top skip true
  = Returned (ok (JFullComments (paginate_comments cs skip top))).
Proof.
  intros Hconnect Hthreads Hcomments.
  unfold list_pull_request_threads, list_pull_request_thread_comments.
  rewrite Hconnect. simpl. rewrite Hthreads, Hcomments. simpl.
  split; [|split; [|split; reflexivity]].
  - eexists. split; [reflexivity|]. split; [reflexivity|].
    apply trimmed_threads_source.
  - eexists. split; [reflexivity|]. split; [reflexivity|].
    intros tc Htc. unfold trimmed_comments in Htc. simpl in Htc.
    assert (H : In tc (JS.nullish (trimComments (paginate_comments cs skip top)) [])).
    { destruct (trimComments (paginate_comments cs skip top)); assumption. }
    apply trimComments_source in H as (c & Hc & Hlive & ->).
    exists c. repeat split; auto. now apply paginate_comments_incl in Hc.
Qed.

Lemma trimmed_listings_omit_deleted_comments_witness :
  (exists r,
      list_pull_request_threads review_env "R" 1 None None None 100 0 false
      = Returned r /\
      isError r = false /\
      forall tc, In tc (trimmed_comments r) ->
                 exists c,
                   In c (thread_comments
                           (Some [sample_thread 7 [live_comment; deleted_comment]])) /\
                   ~ deleted c /\ tc = trimComment c) /\
  (exists r,
      list_pull_request_thread_comments review_env "R" 1 7 None 100 0 false
      = Returned r /\
      isError r = false /\
      forall tc, In tc (trimmed_comments r) ->
                 exists c,
                   In c (JS.nullish (Some [live_comment; deleted_comment]) []) /\
                   ~ deleted c /\ tc = trimComment c) /\
  list_pull_request_threads review_env "R" 1 None None None 100 0 true
  = Returned (ok (JFullThreads
       (paginate_threads (Some [sample_thread 7 [live_comment; deleted_comment]])
          0 100))) /\
  list_pull_request_thread_comments review_env "R" 1 7 None 100 0 true
  = Returned (ok (JFullComments
       (paginate_comments (Some [live_comment; deleted_comment]) 0 100))).
Proof.
  apply (trimmed_listings_omit_deleted_comments review_env
           (sample_api [] [] [sample_thread 7 [live_comment; deleted_comment]])
           "R" 1 7 None None None 100 0);
    reflexivity.
Defined.

Example trimmed_listing_example :
  list_pull_request_thread_comments review_env "R" 1 7 None 100 0 false
  = Returned (ok (JComments (Some [trimComment live_comment]))).
Proof. reflexivity. Qed.

(** ** C3 and C4: identity filters of the pull-request listings *)

Lemma truthy_string_nonempty (s : string) :
  s <> EmptyString -> JS.truthy_string (Some s) = true.
Proof. destruct s; [congruence | reflexivity]. Qed.

Lemma resolve_named_creator (env : Providers) (criteria : PullRequestSearchCriteria)
      (email : string) (created_by_me i_am_reviewer : bool) :
  email <> EmptyString ->
  resolve_identity_filters env criteria created_by_me (Some email) i_am_reviewer
  = match getUserIdFromEmail env email with
    | Returned userId => Returned (inl (set_creatorId criteria userId))
    | Thrown error =>
        Returned (inr (error_result
          ("Error finding user with email " ++ email ++ ": " ++ error)%string))
    end.
Proof.
  intros Hne. unfold resolve_identity_filters.
  rewrite (truthy_string_nonempty email Hne). simpl.
  now destruct (getUserIdFromEmail env email).
Qed.

(** Without a named creator the two flags are independent: each sets its
    own field to the caller's id. *)
Lemma resolve_caller_flags (env : Providers) (criteria : PullRequestSearchCriteria)
      (created_by_user : option string) (created_by_me i_am_reviewer : bool)
      (me : UserDetails) :
  JS.truthy_string created_by_user = false ->
  getCurrentUserDetails env = Returned me ->
  exists completed,
    resolve_identity_filters env criteria created_by_me created_by_user i_am_reviewer
    = Returned (inl completed) /\
    (i_am_reviewer = true -> reviewerId completed = Some (authenticatedUser_id me)) /\
    (created_by_me = true -> creatorId completed = Some (authenticatedUser_id me)) /\
    (i_am_reviewer = false -> reviewerId completed = reviewerId criteria) /\
    (created_by_me = false -> creatorId completed = creatorId criteria).
Proof.
  intros Hnone Hme. unfold resolve_identity_filters. rewrite Hnone.
  destruct created_by_me, i_am_reviewer; simpl; rewrite ?Hme; simpl;
    eexists; (split; [reflexivity|]); repeat split; intros; congruence.
Qed.

(** C3, at the failing input [created_by_user = "a@x.com"],
    [i_am_reviewer = true]: the criteria sent to the backend carry the
    creator filter only; no reviewer filter is set, in either listing. *)
Theorem reviewer_filter_lost_with_named_creator :
  resolve_identity_filters (sample_env (sample_api [] [] []))
    {| status := PRActive; repositoryId := Some "R";
       creatorId := None; reviewerId := None |}
    false (Some "a@x.com") true
  = Returned (inl {| status := PRActive; repositoryId := Some "R";
                     creatorId := Some "id-of-a"; reviewerId := None |}) /\
  list_pull_requests_by_repo (sample_env (sample_api [] [] []))
    "R" 100 0 false (Some "a@x.com") true "Active"
  = Returned (ok (JPullRequests (Some [
      trimPullRequest false
        (echo_criteria {| status := PRActive; repositoryId := Some "R";
                          creatorId := Some "id-of-a"; reviewerId := None |})]))) /\
  list_pull_requests_by_project (sample_env (sample_api [] [] []))
    "P" 100 0 false (Some "a@x.com") true "Active"
  = Returned (ok (JPullRequests (Some [
      trimPullRequest true
        (echo_criteria {| status := PRActive; repositoryId := None;
                          creatorId := Some "id-of-a"; reviewerId := None |})]))).
Proof. repeat split. Qed.

Example reviewer_filter_without_named_creator :
  resolve_identity_filters (sample_env (sample_api [] [] []))
    {| status := PRActive; repositoryId := Some "R";
       creatorId := None; reviewerId := None |}
    true None true
  = Returned (inl {| status := PRActive; repositoryId := Some "R";
                     creatorId := Some "id-of-caller";
                     reviewerId := Some "id-of-caller" |}).
Proof. reflexivity. Qed.

(** C4: when [created_by_user] names a user and [created_by_me] is set,
    the listing queries the backend with the creator filter set to the id
    resolved from [created_by_user], and it answers exactly as it does with
    [created_by_me] unset: the flag is ignored and raises nothing. *)
Theorem named_creator_takes_precedence
        (env : Providers) (api : GitApi) (repositoryId project email status : string)
        (top skip : Z) (i_am_reviewer : bool) (statusValue : PullRequestStatus)
        (userId : string) :
  email <> EmptyString ->
  connect env = Returned api ->
  pullRequestStatusStringToInt status = Returned statusValue ->
  getUserIdFromEmail env email = Returned userId ->
  (exists criteria,
      creatorId criteria = Some userId /\
      list_pull_requests_by_repo env repositoryId top skip true (Some email)
        i_am_reviewer status
      = (pullRequests <- getPullRequests api repositoryId criteria skip top ;;
         Returned (ok (JPullRequests
                         (option_map (map (trimPullRequest false)) pullRequests))))) /\
  (exists criteria,
      creatorId criteria = Some userId /\
      list_pull_requests_by_project env project top skip true (Some email)
        i_am_reviewer status
      = (pullRequests <- getPullRequestsByProject api project criteria skip top ;;
         Returned (ok (JPullRequests
                         (option_map (map (trimPullRequest true)) pullRequests))))) /\
  list_pull_requests_by_repo env repositoryId top skip true (Some email)
    i_am_reviewer status
  = list_pull_requests_by_repo env repositoryId top skip false (Some email)
      i_am_reviewer status /\
  list_pull_requests_by_project env project top skip true (Some email)
    i_am_reviewer status
  = list_pull_requests_by_project env project top skip false (Some email)
      i_am_reviewer status.
Proof.
  intros Hne Hconnect Hstatus Hid.
  unfold list_pull_requests_by_repo, list_pull_requests_by_project.
  rewrite Hconnect, Hstatus. simpl.
  rewrite !(resolve_named_creator env _ email) by assumption.
  rewrite Hid. simpl.
  split; [|split; [|split; reflexivity]];
    eexists; (split; [|reflexivity]); reflexivity.
Qed.

Lemma named_creator_takes_precedence_witness :
  (exists criteria,
      creatorId criteria = Some "id-of-a" /\
      list_pull_requests_by_repo (sample_env (sample_api [] [] [])) "R" 100 0 true
        (Some "a@x.com") false "Active"
      = (pullRequests <- getPullRequests (sample_api [] [] []) "R" criteria 0 100 ;;
         Returned (ok (JPullRequests
                         (option_map (map (trimPullRequest false)) pullRequests))))) /\
  (exists criteria,
      creatorId criteria = Some "id-of-a" /\
      list_pull_requests_by_project (sample_env (sample_api [] [] [])) "P" 100 0 true
        (Some "a@x.com") false "Active"
      = (pullRequests <-
           getPullRequestsByProject (sample_api [] [] []) "P" criteria 0 100 ;;
         Returned (ok (JPullRequests
                         (option_map (map (trimPullRequest true)) pullRequests))))) /\
  list_pull_requests_by_repo (sample_env (sample_api [] [] [])) "R" 100 0 true
    (Some "a@x.com") false "Active"
  = list_pull_requests_by_repo (sample_env (sample_api [] [] [])) "R" 100 0 false
      (Some "a@x.com") false "Active" /\
  list_pull_requests_by_project (sample_env (sample_api [] [] [])) "P" 100 0 true
    (Some "a@x.com") false "Active"
  = list_pull_requests_by_project (sample_env (sample_api [] [] [])) "P" 100 0 false
      (Some "a@x.com") false "Active".
Proof.
  apply (named_creator_takes_precedence (sample_env (sample_api [] [] []))
           (sample_api [] [] []) "R" "P" "a@x.com" "Active" 100 0 false PRActive
           "id-of-a").
  - discriminate.
  - reflexivity.
  - reflexivity.
  - reflexivity.
Defined.

Example named_creator_example :
  list_pull_requests_by_repo (sample_env (sample_api [] [] []))
    "R" 100 0 true (Some "a@x.com") false "Active"
  = Returned (ok (JPullRequests (Some [
      trimPullRequest false
        (echo_criteria {| status := PRActive; repositoryId := Some "R";
                          creatorId := Some "id-of-a"; reviewerId := None |})]))).
Proof. reflexivity. Qed.

(** ** C2: which errors a handler turns into an error response *)

Lemma find_no_match {A : Type} (f : A -> bool) (l : list A) :
  (forall x, In x l -> f x = false) -> find f l = None.
Proof.
  induction l as [|a l IH]; intros H; simpl; [reflexivity|].
  rewrite (H a) by now left. apply IH. intros x Hx. apply H. now right.
Qed.

Lemma same_string_false (a : option string) (b : string) :
  a <> Some b -> same_string a b = false.
Proof.
  destruct a as [a|]; simpl; [|reflexivity].
  intros H. destruct (String.eqb_spec a b); [congruence | reflexivity].
Qed.

Lemma try_catch_returns {A : Type} (body : Outcome A) (handler : string -> A) :
  exists r, try_catch body (fun error => Returned (handler error)) = Returned r.
Proof. destruct body; simpl; eauto. Qed.

(** C2, as stated, fails: [get_repo_by_name_or_id] throws when no repository
    matches, and nothing in the handler catches it. *)
Lemma repository_not_found_is_thrown :
  get_repo_by_name_or_id (sample_env (sample_api [] [] [])) "P" "X"
  = Thrown "Repository X not found in project P" /\
  ~ (exists r, call_tool JS.compare_code_units (sample_env (sample_api [] [] []))
                 (GetRepoByNameOrId "P" "X") = Returned r /\ isError r = true).
Proof.
  split; [reflexivity|]. intros (r & H & _). discriminate H.
Qed.

(** C2 (amended): [search_commits], [list_pull_requests_by_commits] and
    [create_pull_request_comment] never throw: whatever error their body
    raises comes back as an error-flagged response carrying its message.
    The two pull-request listings answer with an error-flagged response when
    the lookup of [created_by_user] fails, and [get_branch_by_name] does when
    no branch matches.  [get_repo_by_name_or_id] throws when no repository
    matches, and in each of the ten handlers without [try]/[catch] an error
    of the connection, of the caller's lookup or of the backend fetch leaves
    the handler as it was thrown. *)
Theorem errors_turned_into_responses (localeCompare : string -> string -> Z)
        (env : Providers) :
  (forall request, wrapped_in_try request = true ->
                   exists r, call_tool localeCompare env request = Returned r) /\
  (forall project repository fromCommit toCommit version versionType skip top
          includeLinks includeWorkItems error,
      search_commits_try env project repository fromCommit toCommit version
        versionType skip top includeLinks includeWorkItems = Thrown error ->
      search_commits env project repository fromCommit toCommit version
        versionType skip top includeLinks includeWorkItems
      = Returned (error_result ("Error searching commits: " ++ error)%string)) /\
  (forall project repository commits queryType error,
      list_pull_requests_by_commits_try env project repository commits queryType
      = Thrown error ->
      list_pull_requests_by_commits env project repository commits queryType
      = Returned (error_result
                    ("Error querying pull requests by commits: " ++ error)%string)) /\
  (forall repositoryId pullRequestId content threadId status filePath lineStart
          lineEnd project error,
      create_pull_request_comment_try env repositoryId pullRequestId content threadId
        status filePath lineStart lineEnd project = Thrown error ->
      create_pull_request_comment env repositoryId pullRequestId content threadId
        status filePath lineStart lineEnd project
      = Returned (error_result ("Error creating comment: " ++ error)%string)) /\
  (forall api repositoryId project top skip created_by_me email i_am_reviewer status
          statusValue error,
      connect env = Returned api ->
      pullRequestStatusStringToInt status = Returned statusValue ->
      email <> EmptyString ->
      getUserIdFromEmail env email = Thrown error ->
      list_pull_requests_by_repo env repositoryId top skip created_by_me
        (Some email) i_am_reviewer status
      = Returned (error_result
          ("Error finding user with email " ++ email ++ ": " ++ error)%string) /\
      list_pull_requests_by_project env project top skip created_by_me
        (Some email) i_am_reviewer status
      = Returned (error_result
          ("Error finding user with email " ++ email ++ ": " ++ error)%string)) /\
  (forall api repositoryId branchName branches,
      connect env = Returned api ->
      getRefs api repositoryId
        {| refs_project := None; refs_filter := Some "heads/";
           refs_includeLinks := Some false; refs_includeStatuses := Some false;
           refs_includeMyBranches := None; refs_latestStatusesOnly := Some false;
           refs_peelTags := None; refs_filterContains := Some branchName |}
      = Returned (Some branches) ->
      (forall b, In b branches ->
                 ref_name b <> Some (heads_prefix ++ branchName)%string /\
                 ref_name b <> Some branchName) ->
      get_branch_by_name env repositoryId branchName
      = Returned (error_result
          ("Branch " ++ branchName ++ " not found in repository "
           ++ repositoryId)%string)) /\
  (forall api project repositoryNameOrId repositories,
      connect env = Returned api ->
      getRepositories api project None None None = Returned repositories ->
      (forall r, In r (JS.nullish repositories []) ->
                 repo_name r <> Some repositoryNameOrId /\
                 repo_id r <> Some repositoryNameOrId) ->
      get_repo_by_name_or_id env project repositoryNameOrId
      = Thrown ("Repository " ++ repositoryNameOrId ++ " not found in project "
                ++ project)%string) /\
  (forall request error,
      wrapped_in_try request = false ->
      connect env = Thrown error ->
      call_tool localeCompare env request = Thrown error) /\
  (forall api error,
      connect env = Returned api ->
      (forall project top skip repoNameFilter,
          getRepositories api project (Some false) (Some false) (Some false)
          = Thrown error ->
          list_repos_by_project localeCompare env project top skip repoNameFilter
          = Thrown error) /\
      (forall repositoryId top skip created_by_me created_by_user i_am_reviewer
              status statusValue,
          pullRequestStatusStringToInt status = Returned statusValue ->
          (resolve_identity_filters env
             {| status := statusValue; repositoryId := Some repositoryId;
                creatorId := None; reviewerId := None |}
             created_by_me created_by_user i_am_reviewer = Thrown error ->
           list_pull_requests_by_repo env repositoryId top skip created_by_me
             created_by_user i_am_reviewer status = Thrown error) /\
          (forall criteria,
              resolve_identity_filters env
                {| status := statusValue; repositoryId := Some repositoryId;
                   creatorId := None; reviewerId := None |}
                created_by_me created_by_user i_am_reviewer
              = Returned (inl criteria) ->
              getPullRequests api repositoryId criteria skip top = Thrown error ->
              list_pull_requests_by_repo env repositoryId top skip created_by_me
                created_by_user i_am_reviewer status = Thrown error)) /\
      (forall project top skip created_by_me created_by_user i_am_reviewer
              status statusValue,
          pullRequestStatusStringToInt status = Returned statusValue ->
          (resolve_identity_filters env
             {| status := statusValue; repositoryId := None;
                creatorId := None; reviewerId := None |}
             created_by_me created_by_user i_am_reviewer = Thrown error ->
           list_pull_requests_by_project env project top skip created_by_me
             created_by_user i_am_reviewer status = Thrown error) /\
          (forall criteria,
              resolve_identity_filters env
                {| status := statusValue; repositoryId := None;
                   creatorId := None; reviewerId := None |}
                created_by_me created_by_user i_am_reviewer
              = Returned (inl criteria) ->
              getPullRequestsByProject api project criteria skip top
              = Thrown error ->
              list_pull_requests_by_project env project top skip created_by_me
                created_by_user i_am_reviewer status = Thrown error)) /\
      (forall repositoryId pullRequestId project iteration baseIteration top skip
              fullResponse,
          getThreads api repositoryId pullRequestId project iteration baseIteration
          = Thrown error ->
          list_pull_request_threads env repositoryId pullRequestId project
            iteration baseIteration top skip fullResponse = Thrown error) /\
      (forall repositoryId pullRequestId threadId project top skip fullResponse,
          getComments api repositoryId pullRequestId threadId project
          = Thrown error ->
          list_pull_request_thread_comments env repositoryId pullRequestId threadId
            project top skip fullResponse = Thrown error) /\
      (forall repositoryId top filterContains,
          getRefs api repositoryId (branch_listing_arguments None filterContains)
          = Thrown error ->
          list_branches_by_repo localeCompare env repositoryId top filterContains
          = Thrown error) /\
      (forall repositoryId top filterContains,
          getRefs api repositoryId
            (branch_listing_arguments (Some true) filterContains) = Thrown error ->
          list_my_branches_by_repo localeCompare env repositoryId top filterContains
          = Thrown error) /\
      (forall project repositoryNameOrId,
          getRepositories api project None None None = Thrown error ->
          get_repo_by_name_or_id env project repositoryNameOrId = Thrown error) /\
      (forall repositoryId branchName,
          getRefs api repositoryId
            {| refs_project := None; refs_filter := Some "heads/";
               refs_includeLinks := Some false; refs_includeStatuses := Some false;
               refs_includeMyBranches := None; refs_latestStatusesOnly := Some false;
               refs_peelTags := None; refs_filterContains := Some branchName |}
          = Thrown error ->
          get_branch_by_name env repositoryId branchName = Thrown error) /\
      (forall repositoryId pullRequestId includeWorkItemRefs,
          getPullRequest api repositoryId pullRequestId includeWorkItemRefs
          = Thrown error ->
          get_pull_request_by_id env repositoryId pullRequestId includeWorkItemRefs
          = Thrown error)).
Proof.
  split; [|split; [|split; [|split; [|split; [|split; [|split; [|split]]]]]]].
  - intros [] Hwrapped; try discriminate Hwrapped; simpl; apply try_catch_returns.
  - intros * H. unfold search_commits. now rewrite H.
  - intros * H. unfold list_pull_requests_by_commits. now rewrite H.
  - intros * H. unfold create_pull_request_comment. now rewrite H.
  - intros * Hconnect Hstatus Hne Hid.
    unfold list_pull_requests_by_repo, list_pull_requests_by_project.
    rewrite Hconnect, Hstatus. simpl.
    rewrite !(resolve_named_creator env _ email) by assumption.
    rewrite Hid. split; reflexivity.
  - intros * Hconnect Hrefs Hnone. unfold get_branch_by_name.
    rewrite Hconnect. simpl. rewrite Hrefs. simpl.
    rewrite find_no_match; [reflexivity|].
    intros b Hb. destruct (Hnone b Hb) as [H1 H2].
    now rewrite !same_string_false.
  - intros * Hconnect Hrepos Hnone. unfold get_repo_by_name_or_id.
    rewrite Hconnect. simpl. rewrite Hrepos. simpl.
    destruct repositories as [repositories|]; [|reflexivity].
    rewrite find_no_match; [reflexivity|].
    intros r Hr. destruct (Hnone r Hr) as [H1 H2].
    now rewrite !same_string_false.
  - intros [] error Hwrapped Hconnect; try discriminate Hwrapped; simpl;
      unfold list_repos_by_project, list_pull_requests_by_repo,
        list_pull_requests_by_project, list_branches_by_repo,
        list_my_branches_by_repo, list_pull_request_threads,
        list_pull_request_thread_comments, get_repo_by_name_or_id,
        get_branch_by_name, get_pull_request_by_id;
      now rewrite Hconnect.
  - intros api error Hconnect.
    unfold list_repos_by_project, list_pull_requests_by_repo,
      list_pull_requests_by_project, list_branches_by_repo,
      list_my_branches_by_repo, list_pull_request_threads,
      list_pull_request_thread_comments, get_repo_by_name_or_id,
      get_branch_by_name, get_pull_request_by_id.
    rewrite Hconnect. simpl.
    split; [|split; [|split; [|split; [|split; [|split; [|split; [|split;
      [|split]]]]]]]].
    + intros * H. now rewrite H.
    + intros * Hstatus. rewrite Hstatus. simpl. split.
      * intros H. now rewrite H.
      * intros criteria Hresolved H. rewrite Hresolved. simpl. now rewrite H.
    + intros * Hstatus. rewrite Hstatus. simpl. split.
      * intros H. now rewrite H.
      * intros criteria Hresolved H. rewrite Hresolved. simpl. now rewrite H.
    + intros * H. now rewrite H.
    + intros * H. now rewrite H.
    + intros * H. now rewrite H.
    + intros * H. now rewrite H.
    + intros * H. now rewrite H.
    + intros * H. now rewrite H.
    + intros * H. now rewrite H.
Qed.

Lemma errors_turned_into_responses_witness :
  (exists r, call_tool JS.compare_code_units offline_env
               (SearchCommits "P" "R" None None None "Branch" 0 10 false false)
             = Returned r) /\
  search_commits offline_env "P" "R" None None None "Branch" 0 10 false false
  = Returned (error_result "Error searching commits: offline") /\
  list_pull_requests_by_commits offline_env "P" "R" ["abc"] "LastMergeCommit"
  = Returned (error_result "Error querying pull requests by commits: offline") /\
  create_pull_request_comment offline_env "R" 1 "hi" None "active" None None None None
  = Returned (error_result "Error creating comment: offline") /\
  (list_pull_requests_by_repo main_only_env "R" 100 0 true (Some "b@x.com") false
     "Active"
   = Returned (error_result
       "Error finding user with email b@x.com: No user found with email/unique name: b@x.com") /\
   list_pull_requests_by_project main_only_env "P" 100 0 true (Some "b@x.com") false
     "Active"
   = Returned (error_result
       "Error finding user with email b@x.com: No user found with email/unique name: b@x.com")) /\
  get_branch_by_name main_only_env "R" "dev"
  = Returned (error_result "Branch dev not found in repository R") /\
  get_repo_by_name_or_id main_only_env "P" "X"
  = Thrown "Repository X not found in project P" /\
  (call_tool JS.compare_code_units offline_env (GetPullRequestById "R" 1 false)
   = Thrown "offline" /\
   call_tool JS.compare_code_units offline_env (ListBranchesByRepo "R" 10 None)
   = Thrown "offline") /\
  (list_repos_by_project JS.compare_code_units broken_env "P" 100 0 None
   = Thrown "backend down" /\
   list_pull_requests_by_repo anonymous_env "R" 100 0 true None false "Active"
   = Thrown "not signed in" /\
   list_pull_requests_by_repo broken_env "R" 100 0 false None false "Active"
   = Thrown "backend down" /\
   list_pull_requests_by_project anonymous_env "P" 100 0 false None true "Active"
   = Thrown "not signed in" /\
   list_pull_requests_by_project broken_env "P" 100 0 false None false "Active"
   = Thrown "backend down" /\
   list_pull_request_threads broken_env "R" 1 None None None 100 0 false
   = Thrown "backend down" /\
   list_pull_request_thread_comments broken_env "R" 1 7 None 100 0 true
   = Thrown "backend down" /\
   list_branches_by_repo JS.compare_code_units broken_env "R" 10 None
   = Thrown "backend down" /\
   list_my_branches_by_repo JS.compare_code_units broken_env "R" 10 None
   = Thrown "backend down" /\
   get_repo_by_name_or_id broken_env "P" "X" = Thrown "backend down" /\
   get_branch_by_name broken_env "R" "main" = Thrown "backend down" /\
   get_pull_request_by_id broken_env "R" 1 false = Thrown "backend down").
Proof.
  pose proof (errors_turned_into_responses JS.compare_code_units offline_env)
    as (H1 & H2 & H3 & H4 & _ & _ & _ & H8 & _).
  pose proof (errors_turned_into_responses JS.compare_code_units main_only_env)
    as (_ & _ & _ & _ & H5 & H6 & H7 & _).
  pose proof (proj2 (proj2 (proj2 (proj2 (proj2 (proj2 (proj2 (proj2
                (errors_turned_into_responses JS.compare_code_units broken_env))))))))
                broken_api "backend down" eq_refl)
    as (B1 & B2 & B3 & B4 & B5 & B6 & B7 & B8 & B9 & B10).
  pose proof (proj2 (proj2 (proj2 (proj2 (proj2 (proj2 (proj2 (proj2
                (errors_turned_into_responses JS.compare_code_units
                   anonymous_env))))))))
                (sample_api [] [] []) "not signed in" eq_refl)
    as (_ & A2 & A3 & _).
  split; [|split; [|split; [|split; [|split; [|split; [|split; [|split]]]]]]].
  - apply H1. reflexivity.
  - apply H2. reflexivity.
  - apply H3. reflexivity.
  - apply H4. reflexivity.
  - apply (H5 (sample_api [] [sample_ref "refs/heads/main"] []) "R" "P" 100 0 true
              "b@x.com" false "Active" PRActive
              "No user found with email/unique name: b@x.com");
      [reflexivity | reflexivity | discriminate | reflexivity].
  - apply (H6 (sample_api [] [sample_ref "refs/heads/main"] []) "R" "dev"
              [sample_ref "refs/heads/main"]); [reflexivity | reflexivity |].
    intros b [<-|[]]. split; discriminate.
  - apply (H7 (sample_api [] [sample_ref "refs/heads/main"] []) "P" "X" (Some []));
      [reflexivity | reflexivity |].
    intros r [].
  - split; apply H8; reflexivity.
  - split; [|split; [|split; [|split; [|split; [|split; [|split; [|split; [|split;
      [|split; [|split]]]]]]]]]].
    + apply B1. reflexivity.
    + apply (proj1 (A2 "R" 100 0 true None false "Active" PRActive eq_refl)).
      reflexivity.
    + apply (proj2 (B2 "R" 100 0 false None false "Active" PRActive eq_refl)
               {| status := PRActive; repositoryId := Some "R";
                  creatorId := None; reviewerId := None |});
        reflexivity.
    + apply (proj1 (A3 "P" 100 0 false None true "Active" PRActive eq_refl)).
      reflexivity.
    + apply (proj2 (B3 "P" 100 0 false None false "Active" PRActive eq_refl)
               {| status := PRActive; repositoryId := None;
                  creatorId := None; reviewerId := None |});
        reflexivity.
    + apply B4. reflexivity.
    + apply B5. reflexivity.
    + apply B6. reflexivity.
    + apply B7. reflexivity.
    + apply B8. reflexivity.
    + apply B9. reflexivity.
    + apply B10. reflexivity.
Defined.

Example branch_found_example :
  get_branch_by_name main_only_env "R" "main"
  = Returned (ok (JBranch (sample_ref "refs/heads/main"))).
Proof. reflexivity. Qed.

Example listing_propagates_connection_error :
  list_repos_by_project JS.compare_code_units offline_env "P" 100 0 None
  = Thrown "offline".
Proof. reflexivity. Qed.

(** ** C6: thread status *)

(** C6: "byDesign" is looked up as ByDesign and "wontFix" as WontFix; every
    other accepted status ("active", "closed", "fixed", "pending", "unknown")
    is looked up under its name with the first letter in upper case, so
    "closed" as Closed; every key so formed names the member of the
    backend enumeration that the status stands for; and that member is the
    status of the thread which [create_pull_request_comment] hands to
    [createThread]. *)
Theorem thread_status_mapping :
  thread_status_key "byDesign" = "ByDesign" /\
  thread_status_key "wontFix" = "WontFix" /\
  (forall status,
      In status ["active"; "closed"; "fixed"; "pending"; "unknown"] ->
      exists c rest, status = String c rest /\
                     thread_status_key status = String (JS.upper_ascii c) rest) /\
  thread_status_key "closed" = "Closed" /\
  map (fun status => CommentThreadStatus_member (thread_status_key status))
      thread_status_inputs
  = [Some Active; Some ByDesign; Some Closed; Some Fixed; Some Pending;
     Some Unknown; Some WontFix] /\
  (forall status member,
      In (status, member)
         [("active", Active); ("byDesign", ByDesign); ("closed", Closed);
          ("fixed", Fixed); ("pending", Pending); ("unknown", Unknown);
          ("wontFix", WontFix)] ->
      (forall content path lineStart lineEnd,
          thread_status (new_thread_data content status path lineStart lineEnd)
          = Some member) /\
      (forall env api repositoryId pullRequestId content path lineStart lineEnd
              project,
          connect env = Returned api ->
          exists thread,
            thread_status thread = Some member /\
            create_pull_request_comment env repositoryId pullRequestId content None
              status path lineStart lineEnd project
            = try_catch
                (result <- createThread api thread repositoryId pullRequestId
                             project ;;
                 Returned (ok (JCreatedThread (created_thread result))))
                (fun error =>
                   Returned (error_result
                               ("Error creating comment: " ++ error)%string)))).
Proof.
  split; [reflexivity|]. split; [reflexivity|].
  split; [|split; [reflexivity|split; [reflexivity|]]].
  - intros status Hin. simpl in Hin.
    repeat (destruct Hin as [<-|Hin]); try contradiction;
      eexists; eexists; split; reflexivity.
  - intros status member Hin.
    assert (Hstatus : forall content path lineStart lineEnd,
               thread_status (new_thread_data content status path lineStart lineEnd)
               = Some member).
    { simpl in Hin.
      repeat (destruct Hin as [[= <- <-]|Hin]); try contradiction; reflexivity. }
    split; [exact Hstatus|].
    intros env api repositoryId pullRequestId content path lineStart lineEnd project
           Hconnect.
    exists (new_thread_data content status path lineStart lineEnd).
    split; [apply Hstatus|].
    unfold create_pull_request_comment, create_pull_request_comment_try.
    now rewrite Hconnect.
Qed.

Lemma thread_status_mapping_witness :
  (exists c rest, "pending" = String c rest /\
                  thread_status_key "pending" = String (JS.upper_ascii c) rest) /\
  thread_status (new_thread_data "note" "byDesign" None None None) = Some ByDesign /\
  exists thread,
    thread_status thread = Some WontFix /\
    create_pull_request_comment (sample_env (sample_api [] [] [])) "R" 1 "note" None
      "wontFix" None None None None
    = try_catch
        (result <- createThread (sample_api [] [] []) thread "R" 1 None ;;
         Returned (ok (JCreatedThread (created_thread result))))
        (fun error =>
           Returned (error_result ("Error creating comment: " ++ error)%string)).
Proof.
  split; [|split].
  - apply (proj1 (proj2 (proj2 thread_status_mapping))).
    simpl. right. right. right. now left.
  - apply (proj1 (proj2 (proj2 (proj2 (proj2 (proj2 thread_status_mapping))))
                    "byDesign" ByDesign ltac:(simpl; right; now left))).
  - apply (proj2 (proj2 (proj2 (proj2 (proj2 (proj2 thread_status_mapping))))
                    "wontFix" WontFix
                    ltac:(simpl; do 6 right; now left))
             (sample_env (sample_api [] [] [])) (sample_api [] [] []) "R" 1 "note"
             None None None None).
    reflexivity.
Defined.

Example new_thread_status_example :
  create_pull_request_comment (sample_env (sample_api [] [] [])) "R" 1 "note" None
    "byDesign" None None None None
  = Returned (ok (JCreatedThread
      {| ct_id := None;
         ct_status := Some ByDesign;
         ct_threadContext := None;
         ct_comments := Some [trimComment (new_comment "note")] |})).
Proof. reflexivity. Qed.

Example thread_status_table :
  map thread_status_key thread_status_inputs
  = ["Active"; "ByDesign"; "Closed"; "Fixed"; "Pending"; "Unknown"; "WontFix"].
Proof. reflexivity. Qed.

(** ** C7: file context of a new thread *)

Lemma truthy_string_iff (s : option string) :
  JS.truthy_string s = true <-> exists v, s = Some v /\ v <> EmptyString.
Proof.
  split.
  - destruct s as [[|c v]|]; simpl; try discriminate.
    intros _. eexists. split; [reflexivity | discriminate].
  - intros (v & -> & Hv). now apply truthy_string_nonempty.
Qed.

Lemma truthy_number_iff (n : option Z) :
  JS.truthy_number n = true <-> exists v, n = Some v /\ v <> 0.
Proof.
  split.
  - destruct n as [v|]; simpl; try discriminate.
    destruct (Z.eqb_spec v 0); try discriminate. intros _. eauto.
  - intros (v & -> & Hv). simpl. now destruct (Z.eqb_spec v 0).
Qed.

(** C7, as stated, fails: the context of a new thread has positions on the
    right side of the diff only.  With [filePath = "a.ts"], [lineStart = 10]
    and no [lineEnd], the thread handed to [createThread] spans line 10 to
    line 10 on the right and has no left positions. *)
Lemma new_thread_context_is_right_side_only :
  threadContext (new_thread_data "note" "active" (Some "a.ts") (Some 10) None)
  = Some {| filePath := Some "a.ts";
            leftFileStart := None;
            leftFileEnd := None;
            rightFileStart := Some {| line := Some 10; offset := Some 1 |};
            rightFileEnd := Some {| line := Some 10; offset := Some 1 |} |} /\
  create_pull_request_comment (sample_env (sample_api [] [] []))
    "R" 1 "note" None "active" (Some "a.ts") (Some 10) None None
  = Returned (ok (JCreatedThread
      {| ct_id := None;
         ct_status := Some Active;
         ct_threadContext :=
           Some {| filePath := Some "a.ts";
                   leftFileStart := None;
                   leftFileEnd := None;
                   rightFileStart := Some {| line := Some 10; offset := Some 1 |};
                   rightFileEnd := Some {| line := Some 10; offset := Some 1 |} |};
         ct_comments := Some [trimComment (new_comment "note")] |})).
Proof. split; reflexivity. Qed.

(** C7 (amended): a new thread carries file context if and only if a
    non-empty [filePath] and a non-zero [lineStart] are both supplied; the
    context names the file and spans, on the right side of the diff only,
    from [lineStart] to [lineEnd], or to [lineStart] when [lineEnd] is
    omitted; without [lineStart] the thread has no context and is created
    all the same. *)
Theorem new_thread_file_context
        (content status : string) (path : option string) (lineStart lineEnd : option Z) :
  let thread := new_thread_data content status path lineStart lineEnd in
  (threadContext thread <> None <->
   exists file start, path = Some file /\ file <> EmptyString /\
                      lineStart = Some start /\ start <> 0) /\
  (forall context,
      threadContext thread = Some context ->
      filePath context = path /\
      rightFileStart context = Some {| line := lineStart; offset := Some 1 |} /\
      (exists stop,
          rightFileEnd context = Some {| line := Some stop; offset := Some 1 |} /\
          (lineEnd = None -> lineStart = Some stop) /\
          (forall e, lineEnd = Some e -> e <> 0 -> stop = e)) /\
      leftFileStart context = None /\
      leftFileEnd context = None) /\
  (lineStart = None -> threadContext thread = None) /\
  (forall env api repositoryId pullRequestId project,
      connect env = Returned api ->
      create_pull_request_comment env repositoryId pullRequestId content None status
        path lineStart lineEnd project
      = try_catch
          (result <- createThread api thread repositoryId pullRequestId project ;;
           Returned (ok (JCreatedThread (created_thread result))))
          (fun error =>
             Returned (error_result ("Error creating comment: " ++ error)%string))).
Proof.
  intros thread. subst thread. unfold new_thread_data. simpl.
  split; [|split; [|split]].
  - destruct (JS.truthy_string path) eqn:Hp, (JS.truthy_number lineStart) eqn:Hl;
      simpl; split; try congruence.
    + intros _. apply truthy_string_iff in Hp as (file & -> & Hf).
      apply truthy_number_iff in Hl as (start & -> & Hs).
      exists file, start. auto.
    + intros (file & start & -> & Hf & -> & Hs).
      assert (H : JS.truthy_number (Some start) = true)
        by (apply truthy_number_iff; eauto). congruence.
    + intros (file & start & -> & Hf & -> & Hs).
      assert (H : JS.truthy_string (Some file) = true)
        by (apply truthy_string_iff; eauto). congruence.
    + intros (file & start & -> & Hf & -> & Hs).
      assert (H : JS.truthy_string (Some file) = true)
        by (apply truthy_string_iff; eauto). congruence.
  - intros context.
    destruct (JS.truthy_string path) eqn:Hp, (JS.truthy_number lineStart) eqn:Hl;
      simpl; try discriminate.
    intros [= <-]. simpl.
    apply truthy_number_iff in Hl as (start & -> & Hs).
    repeat split. eexists. split; [reflexivity|]. split.
    + now intros ->.
    + intros e -> He. simpl. now destruct (Z.eqb_spec e 0).
  - intros ->. simpl. now rewrite andb_false_r.
  - intros * Hconnect. unfold create_pull_request_comment,
      create_pull_request_comment_try. rewrite Hconnect. reflexivity.
Qed.

Lemma new_thread_file_context_witness :
  (exists stop,
      rightFileEnd {| filePath := Some "a.ts";
                      leftFileStart := None;
                      leftFileEnd := None;
                      rightFileStart := Some {| line := Some 10; offset := Some 1 |};
                      rightFileEnd := Some {| line := Some 10; offset := Some 1 |} |}
      = Some {| line := Some stop; offset := Some 1 |} /\
      (@None Z = None -> Some 10 = Some stop) /\
      (forall e, @None Z = Some e -> e <> 0 -> stop = e)) /\
  threadContext (new_thread_data "note" "active" (Some "a.ts") None None) = None /\
  create_pull_request_comment (sample_env (sample_api [] [] []))
    "R" 1 "note" None "active" (Some "a.ts") None None None
  = try_catch
      (result <- createThread (sample_api [] [] [])
                   (new_thread_data "note" "active" (Some "a.ts") None None)
                   "R" 1 None ;;
       Returned (ok (JCreatedThread (created_thread result))))
      (fun error =>
         Returned (error_result ("Error creating comment: " ++ error)%string)).
Proof.
  split; [|split].
  - apply (proj1 (proj2 (new_thread_file_context "note" "active" (Some "a.ts")
                           (Some 10) None))).
    reflexivity.
  - apply (proj1 (proj2 (proj2 (new_thread_file_context "note" "active"
                                  (Some "a.ts") None None)))).
    reflexivity.
  - apply (proj2 (proj2 (proj2 (new_thread_file_context "note" "active"
                                  (Some "a.ts") None None)))).
    reflexivity.
Defined.

Example general_thread_example :
  create_pull_request_comment (sample_env (sample_api [] [] []))
    "R" 1 "note" None "active" (Some "a.ts") None None None
  = Returned (ok (JCreatedThread
      {| ct_id := None;
         ct_status := Some Active;
         ct_threadContext := None;
         ct_comments := Some [trimComment (new_comment "note")] |})).
Proof. reflexivity. Qed.

(** ** C10: criteria of [search_commits] *)

(** C10: the criteria that [search_commits] hands to [getCommits] hold a
    version descriptor if and only if [version] is supplied (a non-empty
    string), and then it is that version with the kind named by
    [versionType]; when [version] is absent the criteria are
    [fromCommit], [toCommit], [includeLinks] and [includeWorkItems] and
    nothing else, whatever [versionType] is. *)
Theorem commit_criteria_version
        (fromCommit toCommit version : option string) (versionType : string)
        (links workItems : bool) :
  let criteria :=
    search_commits_criteria fromCommit toCommit version versionType links workItems in
  (itemVersion criteria <> None <-> exists v, version = Some v /\ v <> EmptyString) /\
  (forall v, version = Some v -> v <> EmptyString ->
             itemVersion criteria
             = Some {| version := v;
                       versionType := GitVersionType_member versionType |}) /\
  (version = None ->
   criteria = {| fromCommitId := fromCommit;
                 toCommitId := toCommit;
                 includeLinks := links;
                 includeWorkItems := workItems;
                 itemVersion := None;
                 criteria_author := None;
                 fromDate := None;
                 toDate := None;
                 itemPath := None |} /\
   forall otherType,
     search_commits_criteria fromCommit toCommit version otherType links workItems
     = criteria) /\
  (fromCommitId criteria = fromCommit /\ toCommitId criteria = toCommit /\
   includeLinks criteria = links /\ includeWorkItems criteria = workItems) /\
  (forall env api project repository skip top,
      connect env = Returned api ->
      search_commits env project repository fromCommit toCommit version versionType
        skip top links workItems
      = try_catch
          (commits <- getCommits api repository criteria project skip top ;;
           Returned (ok (JCommits commits)))
          (fun error =>
             Returned (error_result ("Error searching commits: " ++ error)%string))).
Proof.
  intros criteria. subst criteria. unfold search_commits_criteria.
  split; [|split; [|split; [|split]]].
  - destruct (JS.truthy_string version) eqn:Hv; simpl; split; try congruence.
    + intros _. now apply truthy_string_iff.
    + intros H. apply truthy_string_iff in H. congruence.
  - intros v -> Hv. now rewrite truthy_string_nonempty.
  - intros ->. simpl. split; reflexivity.
  - destruct (JS.truthy_string version); simpl; repeat split.
  - intros * Hconnect. unfold search_commits, search_commits_try.
    rewrite Hconnect. reflexivity.
Qed.

Lemma commit_criteria_version_witness :
  itemVersion (search_commits_criteria None None (Some "main") "Branch" false false)
  = Some {| version := "main"; versionType := Some Branch |} /\
  (search_commits_criteria (Some "c1") (Some "c2") None "Tag" true false
   = {| fromCommitId := Some "c1";
        toCommitId := Some "c2";
        includeLinks := true;
        includeWorkItems := false;
        itemVersion := None;
        criteria_author := None;
        fromDate := None;
        toDate := None;
        itemPath := None |} /\
   forall otherType,
     search_commits_criteria (Some "c1") (Some "c2") None otherType true false
     = search_commits_criteria (Some "c1") (Some "c2") None "Tag" true false) /\
  search_commits (sample_env (sample_api [] [] [])) "P" "R" None None (Some "main")
    "Branch" 0 10 false false
  = try_catch
      (commits <- getCommits (sample_api [] [] []) "R"
                    (search_commits_criteria None None (Some "main") "Branch"
                       false false) "P" 0 10 ;;
       Returned (ok (JCommits commits)))
      (fun error =>
         Returned (error_result ("Error searching commits: " ++ error)%string)).
Proof.
  split; [|split].
  - apply (proj1 (proj2 (commit_criteria_version None None (Some "main") "Branch"
                           false false)) "main");
      [reflexivity | discriminate].
  - apply (proj1 (proj2 (proj2 (commit_criteria_version (Some "c1") (Some "c2") None
                                  "Tag" true false)))).
    reflexivity.
  - apply (proj2 (proj2 (proj2 (proj2
             (commit_criteria_version None None (Some "main") "Branch" false false))))).
    reflexivity.
Defined.

(** ** C5: branch listings *)

Lemma substring_whole (s : string) : substring 0 (String.length s) s = s.
Proof. induction s as [|c s IH]; simpl; [reflexivity | now rewrite IH]. Qed.

Lemma prefix_split (p : string) :
  forall s, String.prefix p s = true ->
            (p ++ substring (String.length p) (String.length s - String.length p) s)%string
            = s.
Proof.
  induction p as [|c p IH]; intros s H; simpl.
  - rewrite Nat.sub_0_r. apply substring_whole.
  - destruct s as [|d s]; simpl in *; [discriminate|].
    destruct (ascii_dec c d) as [->|]; [|discriminate].
    now rewrite IH.
Qed.

Lemma remove_first_unfold (p s : string) :
  JS.remove_first p s
  = if String.prefix p s
    then substring (String.length p) (String.length s - String.length p) s
    else match s with
         | EmptyString => EmptyString
         | String c s' => String c (JS.remove_first p s')
         end.
Proof. destruct s; reflexivity. Qed.

Lemma remove_first_at_start (p s : string) :
  JS.startsWith s p = true -> (p ++ JS.remove_first p s)%string = s.
Proof.
  unfold JS.startsWith. intros H.
  rewrite remove_first_unfold, H. now apply prefix_split.
Qed.

Lemma consistent_flip {A : Type} (P : A -> Prop) (cmp : A -> A -> Z) :
  consistent_on P cmp -> consistent_on P (fun a b => cmp b a).
Proof.
  intros [Hanti Htrans]. split.
  - intros a b Pa Pb. apply (Hanti b a); assumption.
  - intros a b c Pa Pb Pc Hab Hbc. apply (Htrans c b a); assumption.
Qed.

Lemma Forall_True {A : Type} (l : list A) : Forall (fun _ => True) l.
Proof. induction l; constructor; auto. Qed.

Lemma slice_sorted {A : Type} (R : A -> A -> Prop) (l : list A) (start stop : Z) :
  StronglySorted R l -> StronglySorted R (JS.slice l start stop).
Proof.
  unfold JS.slice. intros H.
  set (k := Z.to_nat (JS.clamp_index (Z.of_nat (List.length l)) start)).
  set (n := Z.to_nat _).
  rewrite <- (firstn_skipn k l) in H.
  apply StronglySorted_app_inv in H as (_ & H & _).
  rewrite <- (firstn_skipn n (skipn k l)) in H.
  now apply StronglySorted_app_inv in H as (H & _ & _).
Qed.

Lemma branch_names_spec (localeCompare : string -> string -> Z)
      (branches : list GitRef) (top : Z) :
  consistent localeCompare -> 0 <= top ->
  exists names,
    branchesFilterOutIrrelevantProperties localeCompare (Some branches) top
    = Some names /\
    (forall n, In n names ->
               exists b, In b branches /\ ref_name b = Some (heads_prefix ++ n)%string) /\
    StronglySorted (fun earlier later => localeCompare later earlier <= 0) names /\
    Z.of_nat (List.length names) <= top.
Proof.
  intros Hlc Htop. eexists. split; [reflexivity|]. split; [|split].
  - intros n Hn. apply slice_incl in Hn. apply sort_In in Hn.
    apply in_map_iff in Hn as (full & <- & Hfull).
    apply filter_In in Hfull as [Hfull Hstart].
    apply in_flat_map in Hfull as (b & Hb & Hname).
    exists b. split; [assumption|].
    rewrite (remove_first_at_start _ _ Hstart).
    destruct (ref_name b) as [[|c name]|]; simpl in Hname; try contradiction.
    destruct Hname as [<-|[]]. reflexivity.
  - apply slice_sorted.
    apply (sort_sorted (fun a b => localeCompare b a) (fun _ => True)).
    + now apply consistent_flip.
    + apply Forall_True.
  - now apply slice_length.
Qed.

(** C5: both branch listings answer with what
    [branchesFilterOutIrrelevantProperties] makes of the fetched refs; for a
    consistent collation and a non-negative [top], each returned name is
    the name of a fetched ref that starts with [refs/heads/], with that
    prefix removed; the names are in descending order of the collation; and
    there are at most [top] of them.  With refs/heads/main, refs/heads/dev
    and refs/heads/beta and [top = 2], in a collation that puts beta before
    dev before main, the answer is main, dev. *)
Theorem branch_names_listed (localeCompare : string -> string -> Z)
        (branches : list GitRef) (top : Z) :
  consistent localeCompare -> 0 <= top ->
  (exists names,
      branchesFilterOutIrrelevantProperties localeCompare (Some branches) top
      = Some names /\
      (forall n, In n names ->
                 exists b, In b branches /\
                           ref_name b = Some (heads_prefix ++ n)%string) /\
      StronglySorted (fun earlier later => localeCompare later earlier <= 0) names /\
      Z.of_nat (List.length names) <= top) /\
  (forall env api repositoryId filterContains,
      connect env = Returned api ->
      getRefs api repositoryId (branch_listing_arguments None filterContains)
      = Returned (Some branches) ->
      list_branches_by_repo localeCompare env repositoryId top filterContains
      = Returned (ok (JBranchNames
          (branchesFilterOutIrrelevantProperties localeCompare (Some branches) top)))) /\
  (forall env api repositoryId filterContains,
      connect env = Returned api ->
      getRefs api repositoryId (branch_listing_arguments (Some true) filterContains)
      = Returned (Some branches) ->
      list_my_branches_by_repo localeCompare env repositoryId top filterContains
      = Returned (ok (JBranchNames
          (branchesFilterOutIrrelevantProperties localeCompare (Some branches) top)))) /\
  (0 < localeCompare "main" "dev" -> 0 < localeCompare "dev" "beta" ->
   branchesFilterOutIrrelevantProperties localeCompare
     (Some [sample_ref "refs/heads/main"; sample_ref "refs/heads/dev";
            sample_ref "refs/heads/beta"]) 2
   = Some ["main"; "dev"]).
Proof.
  intros Hlc Htop. split; [|split; [|split]].
  - now apply branch_names_spec.
  - intros * Hconnect Hrefs. unfold list_branches_by_repo.
    rewrite Hconnect. simpl. now rewrite Hrefs.
  - intros * Hconnect Hrefs. unfold list_my_branches_by_repo.
    rewrite Hconnect. simpl. now rewrite Hrefs.
  - intros Hmd Hdb. unfold branchesFilterOutIrrelevantProperties. simpl.
    unfold JS.sort. simpl.
    destruct (Z.ltb_spec (localeCompare "main" "dev") 0); [lia|]. simpl.
    destruct (Z.ltb_spec (localeCompare "dev" "beta") 0); [lia|]. reflexivity.
Qed.

Lemma compare_code_units_consistent : consistent JS.compare_code_units.
Proof.
  split; unfold JS.compare_code_units.
  - intros a b _ _. rewrite (String.compare_antisym a b).
    now destruct (String.compare b a).
  - intros a b c _ _ _.
    destruct (String.compare a b) eqn:Hab; try (intros H; simpl in H; lia);
      destruct (String.compare b c) eqn:Hbc; try (intros _ H; simpl in H; lia);
      intros _ _.
    + apply String_as_OT.cmp_eq in Hab as ->. rewrite Hbc. lia.
    + apply String_as_OT.cmp_eq in Hab as ->. rewrite Hbc. lia.
    + apply String_as_OT.cmp_eq in Hbc as <-. rewrite Hab. lia.
    + apply String_as_OT.cmp_lt in Hab, Hbc.
      pose proof (String_as_OT.lt_trans _ _ _ Hab Hbc) as Hac.
      apply String_as_OT.cmp_lt in Hac. unfold String_as_OT.cmp in Hac.
      rewrite Hac. lia.
Qed.

Lemma branch_names_listed_witness :
  (exists names,
      branchesFilterOutIrrelevantProperties JS.compare_code_units
        (Some [sample_ref "refs/heads/dev"; sample_ref "refs/tags/v1";
               sample_ref "refs/heads/main"; sample_ref "refs/heads/beta"]) 2
      = Some names /\
      (forall n, In n names ->
                 exists b,
                   In b [sample_ref "refs/heads/dev"; sample_ref "refs/tags/v1";
                         sample_ref "refs/heads/main"; sample_ref "refs/heads/beta"] /\
                   ref_name b = Some (heads_prefix ++ n)%string) /\
      StronglySorted (fun earlier later => JS.compare_code_units later earlier <= 0)
        names /\
      Z.of_nat (List.length names) <= 2) /\
  branchesFilterOutIrrelevantProperties JS.compare_code_units
    (Some [sample_ref "refs/heads/main"; sample_ref "refs/heads/dev";
           sample_ref "refs/heads/beta"]) 2
  = Some ["main"; "dev"].
Proof.
  pose proof (branch_names_listed JS.compare_code_units
                [sample_ref "refs/heads/dev"; sample_ref "refs/tags/v1";
                 sample_ref "refs/heads/main"; sample_ref "refs/heads/beta"] 2
                compare_code_units_consistent ltac:(lia)) as (H1 & _ & _ & H4).
  split; [exact H1|]. apply H4; reflexivity.
Defined.

Example branch_names_example :
  list_branches_by_repo JS.compare_code_units
    (sample_env (sample_api []
       [sample_ref "refs/heads/dev"; sample_ref "refs/tags/v1";
        sample_ref "refs/heads/main"; sample_ref "refs/heads/beta"] []))
    "R" 2 None
  = Returned (ok (JBranchNames (Some ["main"; "dev"]))).
Proof. reflexivity. Qed.

(** ** C8: order of the repositories *)

(** C8, at the failing input: a repository without a name that follows a
    named one stays behind it, in every collation, because the comparator
    answers 0 whenever its first argument has no name. *)
Theorem unnamed_repository_stays_behind (localeCompare : string -> string -> Z) :
  paginate_repositories localeCompare
    (Some [sample_repository "1" (Some "b"); sample_repository "2" None]) 0 100
  = Some [sample_repository "1" (Some "b"); sample_repository "2" None] /\
  list_repos_by_project localeCompare
    (sample_env (sample_api
       [sample_repository "1" (Some "b"); sample_repository "2" None] [] []))
    "P" 100 0 None
  = Returned (ok (JRepositories (Some [
      trimRepository (sample_repository "1" (Some "b"));
      trimRepository (sample_repository "2" None)]))).
Proof. split; reflexivity. Qed.

Lemma compare_repo_names_consistent (localeCompare : string -> string -> Z) :
  consistent localeCompare -> consistent_on named (compare_repo_names localeCompare).
Proof.
  intros [Hanti Htrans]. unfold named, compare_repo_names. split.
  - intros a b Ha Hb.
    destruct (repo_name a) as [na|], (repo_name b) as [nb|]; try congruence.
    simpl. now apply Hanti.
  - intros a b c Ha Hb Hc.
    destruct (repo_name a) as [na|], (repo_name b) as [nb|], (repo_name c) as [nc|];
      try congruence.
    simpl. now apply Htrans.
Qed.

(** What holds of C8: when every fetched repository has a name, the sorted
    collection is a rearrangement of the fetched one in ascending order of
    the names, and repositories whose names tie keep their order. *)
Lemma named_repositories_sorted (localeCompare : string -> string -> Z)
      (repositories : list GitRepository) :
  consistent localeCompare -> Forall named repositories ->
  let sorted := JS.sort (compare_repo_names localeCompare) repositories in
  Permutation sorted repositories /\
  StronglySorted
    (fun a b => localeCompare (JS.nullish (repo_name a) EmptyString)
                              (JS.nullish (repo_name b) EmptyString) <= 0) sorted /\
  (forall x, named x ->
             filter (tied (compare_repo_names localeCompare) x) sorted
             = filter (tied (compare_repo_names localeCompare) x) repositories).
Proof.
  intros Hlc Hnamed sorted. subst sorted.
  pose proof (compare_repo_names_consistent localeCompare Hlc) as Hcmp.
  split; [apply sort_Permutation|]. split.
  - eapply StronglySorted_weaken;
      [|apply (sort_sorted _ named Hcmp); assumption].
    intros a b Ha _. unfold compare_repo_names.
    assert (Hna : named a).
    { rewrite Forall_forall in Hnamed. apply Hnamed. now apply sort_In in Ha. }
    unfold named in Hna. now destruct (repo_name a); [|congruence].
  - intros x Hx. now apply (sort_stable _ named Hcmp).
Qed.

Example named_repositories_example :
  paginate_repositories JS.compare_code_units
    (Some [sample_repository "1" (Some "web"); sample_repository "2" (Some "api");
           sample_repository "3" (Some "docs")]) 0 2
  = Some [sample_repository "2" (Some "api"); sample_repository "3" (Some "docs")].
Proof. reflexivity. Qed.

(** An unnamed repository between two named ones hides them from each
    other: the array counts as one ascending run and is left as it is. *)
Example unnamed_repository_breaks_order :
  paginate_repositories JS.compare_code_units
    (Some [sample_repository "1" (Some "c"); sample_repository "2" None;
           sample_repository "3" (Some "a")]) 0 100
  = Some [sample_repository "1" (Some "c"); sample_repository "2" None;
          sample_repository "3" (Some "a")].
Proof. reflexivity. Qed.

(** * Further properties *)

(** ** Order and paging of threads and comments *)

Lemma compare_ids_consistent {A : Type} (id : A -> option Z) :
  consistent (fun a b => compare_ids (id a) (id b)).
Proof.
  unfold compare_ids. split.
  - intros a b _ _.
    sgn_cases (JS.nullish (id b) 0 - JS.nullish (id a) 0);
      sgn_cases (JS.nullish (id a) 0 - JS.nullish (id b) 0); lia.
  - intros a b c _ _ _. lia.
Qed.

Lemma sorted_by_id {A : Type} (id : A -> option Z) (l : list A) :
  StronglySorted (fun a b => JS.nullish (id a) 0 <= JS.nullish (id b) 0)
    (JS.sort (fun a b => compare_ids (id a) (id b)) l).
Proof.
  eapply StronglySorted_weaken;
    [|apply (sort_sorted _ (fun _ => True) (compare_ids_consistent id)),
        Forall_True].
  unfold compare_ids. intros a b _ _ H. simpl in H. lia.
Qed.

Lemma slice_length_bound {A : Type} (l : list A) (skip top : Z) :
  0 <= top -> Z.of_nat (List.length (JS.slice l skip (skip + top))) <= top.
Proof.
  intros Htop. unfold JS.slice, JS.clamp_index. rewrite length_firstn.
  destruct (Z.ltb_spec skip 0), (Z.ltb_spec (skip + top) 0); lia.
Qed.

Lemma firstn_then_firstn {A : Type} (a b : nat) :
  forall l : list A, firstn a l ++ firstn b (skipn a l) = firstn (a + b) l.
Proof.
  induction a as [|a IH]; intros l; [reflexivity|].
  destruct l as [|x l]; simpl.
  - now rewrite firstn_nil.
  - now rewrite IH.
Qed.

Lemma slice_pages_join {A : Type} (l : list A) (skip top more : Z) :
  0 <= skip -> 0 <= top -> 0 <= more ->
  JS.slice l skip (skip + top) ++ JS.slice l (skip + top) (skip + top + more)
  = JS.slice l skip (skip + (top + more)).
Proof.
  intros Hs Ht Hm. rewrite !slice_window by lia.
  replace (Z.to_nat (skip + top)) with (Z.to_nat top + Z.to_nat skip)%nat by lia.
  rewrite <- skipn_skipn, firstn_then_firstn. f_equal. lia.
Qed.

Lemma slice_everything {A : Type} (l : list A) (top : Z) :
  Z.of_nat (List.length l) <= top -> JS.slice l 0 (0 + top) = l.
Proof.
  intros H. rewrite slice_window by lia. simpl. apply firstn_all2. lia.
Qed.

(** X1: The threads of a full response are in ascending order of their ids, a
    missing id counting as 0; each is a fetched thread; for a non-negative
    [top] there are at most [top] of them; and when the first page is large
    enough to take every thread, it is a rearrangement of the fetched
    collection in which threads of equal id keep their order. *)
Theorem thread_listing_order
        (env : Providers) (api : GitApi) (repositoryId : string) (pullRequestId : Z)
        (project : option string) (iteration baseIteration : option Z)
        (top skip : Z) (threads : list CommentThread) :
  connect env = Returned api ->
  getThreads api repositoryId pullRequestId project iteration baseIteration
  = Returned (Some threads) ->
  exists page,
    list_pull_request_threads env repositoryId pullRequestId project iteration
      baseIteration top skip true
    = Returned (ok (JFullThreads (Some page))) /\
    StronglySorted
      (fun a b => JS.nullish (thread_id a) 0 <= JS.nullish (thread_id b) 0) page /\
    (forall t, In t page -> In t threads) /\
    (0 <= top -> Z.of_nat (List.length page) <= top) /\
    (skip = 0 -> Z.of_nat (List.length threads) <= top ->
     Permutation page threads /\
     forall x,
       filter (fun t => JS.nullish (thread_id t) 0 =? JS.nullish (thread_id x) 0) page
       = filter (fun t => JS.nullish (thread_id t) 0 =? JS.nullish (thread_id x) 0)
           threads).
Proof.
  intros Hconnect Hthreads. unfold list_pull_request_threads.
  rewrite Hconnect. simpl. rewrite Hthreads. simpl.
  eexists. split; [reflexivity|]. split; [|split; [|split]].
  - apply slice_sorted, (sorted_by_id thread_id).
  - intros t Ht. apply slice_incl in Ht. now apply sort_In in Ht.
  - apply slice_length_bound.
  - intros -> Hall. rewrite slice_everything by (rewrite sort_length; lia).
    split; [apply sort_Permutation|]. intros x.
    pose proof (sort_stable _ (fun _ => True) (compare_ids_consistent thread_id)
                  x threads I (Forall_True threads)) as Hstable.
    unfold tied, compare_ids in Hstable.
    erewrite (filter_ext _ (fun t => JS.nullish (thread_id x) 0
                                     - JS.nullish (thread_id t) 0 =? 0)),
      (filter_ext (fun t => JS.nullish (thread_id t) 0
                            =? JS.nullish (thread_id x) 0)
                  (fun t => JS.nullish (thread_id x) 0
                            - JS.nullish (thread_id t) 0 =? 0));
      [exact Hstable| |];
      intros t; destruct (Z.eqb_spec (JS.nullish (thread_id t) 0)
                                     (JS.nullish (thread_id x) 0));
      destruct (Z.eqb_spec (JS.nullish (thread_id x) 0
                            - JS.nullish (thread_id t) 0) 0); lia || reflexivity.
Qed.

Lemma thread_listing_order_witness :
  exists page,
    list_pull_request_threads threads_env "R" 1 None None None 100 0 true
    = Returned (ok (JFullThreads (Some page))) /\
    StronglySorted
      (fun a b => JS.nullish (thread_id a) 0 <= JS.nullish (thread_id b) 0) page /\
    (forall t, In t page -> In t unordered_threads) /\
    (0 <= 100 -> Z.of_nat (List.length page) <= 100) /\
    (0 = 0 -> Z.of_nat (List.length unordered_threads) <= 100 ->
     Permutation page unordered_threads /\
     forall x,
       filter (fun t => JS.nullish (thread_id t) 0 =? JS.nullish (thread_id x) 0) page
       = filter (fun t => JS.nullish (thread_id t) 0 =? JS.nullish (thread_id x) 0)
           unordered_threads).
Proof.
  apply (thread_listing_order threads_env (sample_api [] [] unordered_threads)
           "R" 1 None None None 100 0 unordered_threads); reflexivity.
Defined.

Lemma StronglySorted_filter {A : Type} (R : A -> A -> Prop) (f : A -> bool)
      (l : list A) :
  StronglySorted R l -> StronglySorted R (filter f l).
Proof.
  induction 1 as [|x l Hs IH Hx]; simpl; [constructor|].
  destruct (f x); [|assumption]. constructor; [assumption|].
  rewrite Forall_forall in *. intros y Hy. apply Hx.
  now apply filter_In in Hy.
Qed.

Lemma StronglySorted_map {A B : Type} (R : B -> B -> Prop) (g : A -> B)
      (l : list A) :
  StronglySorted (fun a b => R (g a) (g b)) l -> StronglySorted R (map g l).
Proof.
  induction 1 as [|x l Hs IH Hx]; simpl; constructor; [assumption|].
  rewrite Forall_forall in *. intros y Hy.
  apply in_map_iff in Hy as (a & <- & Ha). now apply Hx.
Qed.

(** X2: The trimmed listing of comments is the page of the full listing with the
    deleted comments taken out and the others trimmed: the page is cut before
    the deleted comments are removed.  The trimmed comments are in ascending
    order of their ids and, for a non-negative [top], at most [top]. *)
Theorem comment_listing_pages_then_filters
        (env : Providers) (api : GitApi) (repositoryId : string)
        (pullRequestId threadId : Z) (project : option string) (top skip : Z)
        (cs : list Comment) :
  connect env = Returned api ->
  getComments api repositoryId pullRequestId threadId project = Returned (Some cs) ->
  exists page,
    list_pull_request_thread_comments env repositoryId pullRequestId threadId project
      top skip true
    = Returned (ok (JFullComments (Some page))) /\
    list_pull_request_thread_comments env repositoryId pullRequestId threadId project
      top skip false
    = Returned (ok (JComments (Some
        (map trimComment
           (filter (fun c => negb (JS.truthy_bool (isDeleted c))) page))))) /\
    StronglySorted
      (fun a b => JS.nullish (tc_id a) 0 <= JS.nullish (tc_id b) 0)
      (map trimComment (filter (fun c => negb (JS.truthy_bool (isDeleted c))) page)) /\
    (0 <= top ->
     Z.of_nat (List.length
       (map trimComment (filter (fun c => negb (JS.truthy_bool (isDeleted c))) page)))
     <= top).
Proof.
  intros Hconnect Hcomments. unfold list_pull_request_thread_comments.
  rewrite Hconnect. simpl. rewrite Hcomments. simpl.
  eexists. split; [reflexivity|]. split; [reflexivity|]. split.
  - apply StronglySorted_map. simpl. apply StronglySorted_filter.
    apply slice_sorted, (sorted_by_id comment_id).
  - intros Htop. rewrite length_map.
    pose proof (filter_length_le (fun c => negb (JS.truthy_bool (isDeleted c)))
                  (JS.slice (JS.sort (fun a b => compare_ids (comment_id a)
                                                   (comment_id b)) cs)
                            skip (skip + top))) as Hle.
    pose proof (slice_length_bound
                  (JS.sort (fun a b => compare_ids (comment_id a) (comment_id b)) cs)
                  skip top Htop).
    lia.
Qed.

Lemma comment_listing_pages_then_filters_witness :
  exists page,
    list_pull_request_thread_comments threads_env "R" 1 3 None 2 0 true
    = Returned (ok (JFullComments (Some page))) /\
    list_pull_request_thread_comments threads_env "R" 1 3 None 2 0 false
    = Returned (ok (JComments (Some
        (map trimComment
           (filter (fun c => negb (JS.truthy_bool (isDeleted c))) page))))) /\
    StronglySorted
      (fun a b => JS.nullish (tc_id a) 0 <= JS.nullish (tc_id b) 0)
      (map trimComment (filter (fun c => negb (JS.truthy_bool (isDeleted c))) page)) /\
    (0 <= 2 ->
     Z.of_nat (List.length
       (map trimComment (filter (fun c => negb (JS.truthy_bool (isDeleted c))) page)))
     <= 2).
Proof.
  apply (comment_listing_pages_then_filters threads_env
           (sample_api [] [] unordered_threads) "R" 1 3 None 2 0
           [sample_comment 6 "third" None; deleted_comment; live_comment]);
    reflexivity.
Defined.

(** With three comments of which the second by id is deleted, a page of two
    shows one comment, though two live comments exist. *)
Example page_of_two_shows_one :
  list_pull_request_thread_comments threads_env "R" 1 3 None 2 0 false
  = Returned (ok (JComments (Some [trimComment live_comment]))).
Proof. reflexivity. Qed.

(** X3: Consecutive pages join: the page at [skip] of size [top] followed by the
    page at [skip + top] of size [more] is the page at [skip] of size
    [top + more], for repositories, threads and comments alike. *)
Theorem consecutive_pages_join
        (localeCompare : string -> string -> Z)
        (repositories : option (list GitRepository))
        (threads : option (list CommentThread)) (cs : option (list Comment))
        (skip top more : Z) :
  0 <= skip -> 0 <= top -> 0 <= more ->
  (JS.nullish (paginate_repositories localeCompare repositories skip top) []
   ++ JS.nullish (paginate_repositories localeCompare repositories (skip + top) more) []
   = JS.nullish (paginate_repositories localeCompare repositories skip (top + more)) [])
  /\
  (JS.nullish (paginate_threads threads skip top) []
   ++ JS.nullish (paginate_threads threads (skip + top) more) []
   = JS.nullish (paginate_threads threads skip (top + more)) []) /\
  (JS.nullish (paginate_comments cs skip top) []
   ++ JS.nullish (paginate_comments cs (skip + top) more) []
   = JS.nullish (paginate_comments cs skip (top + more)) []).
Proof.
  intros Hs Ht Hm.
  split; [|split];
    [destruct repositories as [l|] | destruct threads as [l|] | destruct cs as [l|]];
    simpl; try reflexivity; now apply slice_pages_join.
Qed.

Lemma consecutive_pages_join_witness :
  (JS.nullish (paginate_repositories JS.compare_code_units
                 (Some [sample_repository "1" (Some "web");
                        sample_repository "2" (Some "api");
                        sample_repository "3" (Some "docs")]) 0 1) []
   ++ JS.nullish (paginate_repositories JS.compare_code_units
                    (Some [sample_repository "1" (Some "web");
                           sample_repository "2" (Some "api");
                           sample_repository "3" (Some "docs")]) (0 + 1) 1) []
   = JS.nullish (paginate_repositories JS.compare_code_units
                   (Some [sample_repository "1" (Some "web");
                          sample_repository "2" (Some "api");
                          sample_repository "3" (Some "docs")]) 0 (1 + 1)) [])
  /\
  (JS.nullish (paginate_threads (Some unordered_threads) 0 1) []
   ++ JS.nullish (paginate_threads (Some unordered_threads) (0 + 1) 1) []
   = JS.nullish (paginate_threads (Some unordered_threads) 0 (1 + 1)) []) /\
  (JS.nullish (paginate_comments (Some [deleted_comment; live_comment]) 0 1) []
   ++ JS.nullish (paginate_comments (Some [deleted_comment; live_comment]) (0 + 1) 1) []
   = JS.nullish (paginate_comments (Some [deleted_comment; live_comment]) 0 (1 + 1)) []).
Proof.
  apply (consecutive_pages_join JS.compare_code_units
           (Some [sample_repository "1" (Some "web");
                  sample_repository "2" (Some "api");
                  sample_repository "3" (Some "docs")])
           (Some unordered_threads) (Some [deleted_comment; live_comment]) 0 1 1);
    lia.
Defined.

(** X4: The trimmed and the full listing of threads show the same threads in
    the same order, with the same status and file context: trimming drops no
    thread, whatever flags it carries. *)
Theorem trimmed_threads_match_full
        (env : Providers) (api : GitApi) (repositoryId : string) (pullRequestId : Z)
        (project : option string) (iteration baseIteration : option Z)
        (top skip : Z) (threads : option (list CommentThread)) :
  connect env = Returned api ->
  getThreads api repositoryId pullRequestId project iteration baseIteration
  = Returned threads ->
  exists full trimmed,
    list_pull_request_threads env repositoryId pullRequestId project iteration
      baseIteration top skip true = Returned (ok (JFullThreads full)) /\
    list_pull_request_threads env repositoryId pullRequestId project iteration
      baseIteration top skip false = Returned (ok (JThreads trimmed)) /\
    option_map (map tt_id) trimmed = option_map (map thread_id) full /\
    option_map (map tt_status) trimmed = option_map (map thread_status) full /\
    option_map (map tt_threadContext) trimmed = option_map (map threadContext) full.
Proof.
  intros Hconnect Hthreads. unfold list_pull_request_threads.
  rewrite Hconnect. simpl. rewrite Hthreads. simpl.
  eexists. eexists. split; [reflexivity|]. split; [reflexivity|].
  destruct (paginate_threads threads skip top) as [page|]; simpl;
    [|repeat split].
  rewrite !map_map. repeat split.
Qed.

Lemma trimmed_threads_match_full_witness :
  exists full trimmed,
    list_pull_request_threads threads_env "R" 1 None None None 100 0 true
    = Returned (ok (JFullThreads full)) /\
    list_pull_request_threads threads_env "R" 1 None None None 100 0 false
    = Returned (ok (JThreads trimmed)) /\
    option_map (map tt_id) trimmed = option_map (map thread_id) full /\
    option_map (map tt_status) trimmed = option_map (map thread_status) full /\
    option_map (map tt_threadContext) trimmed = option_map (map threadContext) full.
Proof.
  apply (trimmed_threads_match_full threads_env (sample_api [] [] unordered_threads)
           "R" 1 None None None 100 0 (Some unordered_threads)); reflexivity.
Defined.

(** ** Status and identity filters of the pull-request listings *)

Lemma resolve_without_named_creator
      (env : Providers) (criteria : PullRequestSearchCriteria)
      (created_by_user : option string) (created_by_me i_am_reviewer : bool) :
  JS.truthy_string created_by_user = false ->
  resolve_identity_filters env criteria created_by_me created_by_user i_am_reviewer
  = if created_by_me || i_am_reviewer
    then data <- getCurrentUserDetails env ;;
         Returned (inl {| status := status criteria;
                          repositoryId := repositoryId criteria;
                          creatorId := if created_by_me
                                       then Some (authenticatedUser_id data)
                                       else creatorId criteria;
                          reviewerId := if i_am_reviewer
                                        then Some (authenticatedUser_id data)
                                        else reviewerId criteria |})
    else Returned (inl criteria).
Proof.
  intros Hnone. unfold resolve_identity_filters. rewrite Hnone.
  destruct created_by_me, i_am_reviewer; simpl; try reflexivity;
    destruct (getCurrentUserDetails env); simpl; try reflexivity;
    now destruct criteria.
Qed.

(** X5: The status is accepted exactly when it is one of the five names of the
    enumeration; with any other status both listings throw
    [Unknown pull request status] as soon as the connection is made, before
    any identity lookup and before the backend is queried. *)
Theorem unknown_status_is_thrown
        (env : Providers) (api : GitApi) (repositoryId project : string)
        (top skip : Z) (created_by_me : bool) (created_by_user : option string)
        (i_am_reviewer : bool) (status : string) :
  connect env = Returned api ->
  (In status ["Abandoned"; "Active"; "All"; "Completed"; "NotSet"] <->
   exists value, pullRequestStatusStringToInt status = Returned value) /\
  (~ In status ["Abandoned"; "Active"; "All"; "Completed"; "NotSet"] ->
   list_pull_requests_by_repo env repositoryId top skip created_by_me
     created_by_user i_am_reviewer status
   = Thrown ("Unknown pull request status: " ++ status)%string /\
   list_pull_requests_by_project env project top skip created_by_me
     created_by_user i_am_reviewer status
   = Thrown ("Unknown pull request status: " ++ status)%string).
Proof.
  intros Hconnect.
  assert (Hcases :
    In status ["Abandoned"; "Active"; "All"; "Completed"; "NotSet"] /\
    (exists value, pullRequestStatusStringToInt status = Returned value) \/
    ~ In status ["Abandoned"; "Active"; "All"; "Completed"; "NotSet"] /\
    pullRequestStatusStringToInt status
    = Thrown ("Unknown pull request status: " ++ status)%string).
  { unfold pullRequestStatusStringToInt. simpl.
    destruct (String.eqb_spec status "Abandoned"); [left; eauto 6|].
    destruct (String.eqb_spec status "Active"); [left; eauto 6|].
    destruct (String.eqb_spec status "All"); [left; eauto 7|].
    destruct (String.eqb_spec status "Completed"); [left; eauto 8|].
    destruct (String.eqb_spec status "NotSet"); [left; eauto 9|].
    right. split; [|reflexivity]. intuition congruence. }
  split.
  - destruct Hcases as [[Hin Hex]|[Hout Hthrown]]; split; auto.
    + intros Hin. contradiction.
    + intros [value Hv]. congruence.
  - intros Hout. destruct Hcases as [[Hin _]|[_ Hthrown]]; [contradiction|].
    unfold list_pull_requests_by_repo, list_pull_requests_by_project.
    rewrite Hconnect. simpl. rewrite Hthrown. split; reflexivity.
Qed.

Lemma unknown_status_is_thrown_witness :
  list_pull_requests_by_repo (sample_env (sample_api [] [] [])) "R" 100 0 false None
    false "Merged"
  = Thrown "Unknown pull request status: Merged" /\
  list_pull_requests_by_project (sample_env (sample_api [] [] [])) "P" 100 0 false
    None false "Merged"
  = Thrown "Unknown pull request status: Merged".
Proof.
  apply (proj2 (unknown_status_is_thrown (sample_env (sample_api [] [] []))
                  (sample_api [] [] []) "R" "P" 100 0 false None false "Merged"
                  eq_refl)).
  simpl. intuition discriminate.
Defined.

(** X6: Without [created_by_user], each of [created_by_me] and [i_am_reviewer]
    sets its own filter to the caller's id and leaves the other alone: the
    backend is queried with the creator filter exactly when [created_by_me]
    is set and with the reviewer filter exactly when [i_am_reviewer] is. *)
Theorem caller_filters_are_independent
        (env : Providers) (api : GitApi) (repositoryId project : string)
        (top skip : Z) (created_by_me : bool) (created_by_user : option string)
        (i_am_reviewer : bool) (status : string) (statusValue : PullRequestStatus)
        (me : UserDetails) :
  connect env = Returned api ->
  pullRequestStatusStringToInt status = Returned statusValue ->
  JS.truthy_string created_by_user = false ->
  getCurrentUserDetails env = Returned me ->
  list_pull_requests_by_repo env repositoryId top skip created_by_me
    created_by_user i_am_reviewer status
  = (pullRequests <-
       getPullRequests api repositoryId
         {| status := statusValue;
            repositoryId := Some repositoryId;
            creatorId := if created_by_me then Some (authenticatedUser_id me)
                         else None;
            reviewerId := if i_am_reviewer then Some (authenticatedUser_id me)
                          else None |} skip top ;;
     Returned (ok (JPullRequests
                     (option_map (map (trimPullRequest false)) pullRequests)))) /\
  list_pull_requests_by_project env project top skip created_by_me
    created_by_user i_am_reviewer status
  = (pullRequests <-
       getPullRequestsByProject api project
         {| status := statusValue;
            repositoryId := None;
            creatorId := if created_by_me then Some (authenticatedUser_id me)
                         else None;
            reviewerId := if i_am_reviewer then Some (authenticatedUser_id me)
                          else None |} skip top ;;
     Returned (ok (JPullRequests
                     (option_map (map (trimPullRequest true)) pullRequests)))).
Proof.
  intros Hconnect Hstatus Hnone Hme.
  unfold list_pull_requests_by_repo, list_pull_requests_by_project.
  rewrite Hconnect, Hstatus. simpl.
  rewrite !(resolve_without_named_creator env _ created_by_user) by assumption.
  rewrite Hme. destruct created_by_me, i_am_reviewer; split; reflexivity.
Qed.

Lemma caller_filters_are_independent_witness :
  list_pull_requests_by_repo (sample_env (sample_api [] [] [])) "R" 100 0 false
    (Some EmptyString) true "Active"
  = (pullRequests <-
       getPullRequests (sample_api [] [] []) "R"
         {| status := PRActive;
            repositoryId := Some "R";
            creatorId := None;
            reviewerId := Some "id-of-caller" |} 0 100 ;;
     Returned (ok (JPullRequests
                     (option_map (map (trimPullRequest false)) pullRequests)))) /\
  list_pull_requests_by_project (sample_env (sample_api [] [] [])) "P" 100 0 false
    (Some EmptyString) true "Active"
  = (pullRequests <-
       getPullRequestsByProject (sample_api [] [] []) "P"
         {| status := PRActive;
            repositoryId := None;
            creatorId := None;
            reviewerId := Some "id-of-caller" |} 0 100 ;;
     Returned (ok (JPullRequests
                     (option_map (map (trimPullRequest true)) pullRequests)))).
Proof.
  apply (caller_filters_are_independent (sample_env (sample_api [] [] []))
           (sample_api [] [] []) "R" "P" 100 0 false (Some EmptyString) true "Active"
           PRActive {| authenticatedUser_id := "id-of-caller" |});
    reflexivity.
Defined.

(** X7: When a listing needs the caller's identity ([created_by_me] or
    [i_am_reviewer] without [created_by_user]) and the lookup fails, the
    error leaves the handler as it is; when it needs none, the identity
    providers are not consulted and their failure changes nothing. *)
Theorem caller_lookup_failure_is_thrown
        (env : Providers) (api : GitApi) (repositoryId project : string)
        (top skip : Z) (created_by_me : bool) (created_by_user : option string)
        (i_am_reviewer : bool) (status : string) (statusValue : PullRequestStatus)
        (error : string) :
  connect env = Returned api ->
  pullRequestStatusStringToInt status = Returned statusValue ->
  JS.truthy_string created_by_user = false ->
  getCurrentUserDetails env = Thrown error ->
  (created_by_me || i_am_reviewer = true ->
   list_pull_requests_by_repo env repositoryId top skip created_by_me
     created_by_user i_am_reviewer status = Thrown error /\
   list_pull_requests_by_project env project top skip created_by_me
     created_by_user i_am_reviewer status = Thrown error) /\
  (created_by_me || i_am_reviewer = false ->
   list_pull_requests_by_repo env repositoryId top skip created_by_me
     created_by_user i_am_reviewer status
   = (pullRequests <-
        getPullRequests api repositoryId
          {| status := statusValue; repositoryId := Some repositoryId;
             creatorId := None; reviewerId := None |} skip top ;;
      Returned (ok (JPullRequests
                      (option_map (map (trimPullRequest false)) pullRequests)))) /\
   list_pull_requests_by_project env project top skip created_by_me
     created_by_user i_am_reviewer status
   = (pullRequests <-
        getPullRequestsByProject api project
          {| status := statusValue; repositoryId := None;
             creatorId := None; reviewerId := None |} skip top ;;
      Returned (ok (JPullRequests
                      (option_map (map (trimPullRequest true)) pullRequests))))).
Proof.
  intros Hconnect Hstatus Hnone Hme.
  unfold list_pull_requests_by_repo, list_pull_requests_by_project.
  rewrite Hconnect, Hstatus. simpl.
  rewrite !(resolve_without_named_creator env _ created_by_user) by assumption.
  rewrite Hme. split; intros ->; split; reflexivity.
Qed.

Lemma caller_lookup_failure_is_thrown_witness :
  (list_pull_requests_by_repo anonymous_env "R" 100 0 true None false "Active"
   = Thrown "not signed in" /\
   list_pull_requests_by_project anonymous_env "P" 100 0 true None false "Active"
   = Thrown "not signed in") /\
  list_pull_requests_by_repo anonymous_env "R" 100 0 false None false "Active"
  = (pullRequests <-
       getPullRequests (sample_api [] [] []) "R"
         {| status := PRActive; repositoryId := Some "R";
            creatorId := None; reviewerId := None |} 0 100 ;;
     Returned (ok (JPullRequests
                     (option_map (map (trimPullRequest false)) pullRequests)))).
Proof.
  split.
  - apply (proj1 (caller_lookup_failure_is_thrown anonymous_env (sample_api [] [] [])
                    "R" "P" 100 0 true None false "Active" PRActive "not signed in"
                    eq_refl eq_refl eq_refl eq_refl)).
    reflexivity.
  - apply (proj2 (caller_lookup_failure_is_thrown anonymous_env (sample_api [] [] [])
                    "R" "P" 100 0 false None false "Active" PRActive "not signed in"
                    eq_refl eq_refl eq_refl eq_refl)).
    reflexivity.
Defined.

(** ** Lookups of one repository and of one branch *)

Lemma same_string_true (a : option string) (b : string) :
  same_string a b = true <-> a = Some b.
Proof.
  destruct a as [a|]; simpl; [|split; discriminate].
  destruct (String.eqb_spec a b); split; congruence.
Qed.

Lemma find_first_match {A : Type} (f : A -> bool) (before after : list A) (x : A) :
  (forall b, In b before -> f b = false) -> f x = true ->
  find f (before ++ x :: after) = Some x.
Proof.
  induction before as [|b before IH]; intros Hbefore Hx; simpl.
  - now rewrite Hx.
  - rewrite (Hbefore b) by now left. apply IH; auto.
    intros c Hc. apply Hbefore. now right.
Qed.

(** X8: [get_repo_by_name_or_id] answers with the first fetched repository whose
    name or whose id is the given string; whatever it answers with is a
    fetched repository that matches in one of the two ways, and the answer is
    not flagged as an error. *)
Theorem repository_lookup_finds_first_match
        (env : Providers) (api : GitApi) (project repositoryNameOrId : string)
        (repositories : list GitRepository) :
  connect env = Returned api ->
  getRepositories api project None None None = Returned (Some repositories) ->
  (forall before found after,
      repositories = before ++ found :: after ->
      (repo_name found = Some repositoryNameOrId \/
       repo_id found = Some repositoryNameOrId) ->
      (forall r, In r before ->
                 repo_name r <> Some repositoryNameOrId /\
                 repo_id r <> Some repositoryNameOrId) ->
      get_repo_by_name_or_id env project repositoryNameOrId
      = Returned (ok (JRepository found))) /\
  (forall response,
      get_repo_by_name_or_id env project repositoryNameOrId = Returned response ->
      exists found,
        response = ok (JRepository found) /\ In found repositories /\
        (repo_name found = Some repositoryNameOrId \/
         repo_id found = Some repositoryNameOrId)).
Proof.
  intros Hconnect Hrepos. unfold get_repo_by_name_or_id.
  rewrite Hconnect. simpl. rewrite Hrepos. simpl. split.
  - intros before found after -> Hfound Hbefore.
    rewrite find_first_match; [reflexivity| |].
    + intros r Hr. destruct (Hbefore r Hr) as [H1 H2].
      now rewrite !same_string_false.
    + apply orb_true_iff. rewrite !same_string_true. assumption.
  - intros response.
    destruct (find _ repositories) as [found|] eqn:Hfind; [|discriminate].
    intros [= <-]. apply find_some in Hfind as [Hin Hmatch].
    exists found. repeat split; auto.
    apply orb_true_iff in Hmatch. now rewrite !same_string_true in Hmatch.
Qed.

Lemma repository_lookup_finds_first_match_witness :
  get_repo_by_name_or_id (sample_env (sample_api three_repositories [] [])) "P" "api"
  = Returned (ok (JRepository (sample_repository "2" (Some "api")))) /\
  exists found,
    ok (JRepository (sample_repository "2" (Some "api"))) = ok (JRepository found) /\
    In found three_repositories /\
    (repo_name found = Some "api" \/ repo_id found = Some "api").
Proof.
  pose proof (repository_lookup_finds_first_match
                (sample_env (sample_api three_repositories [] []))
                (sample_api three_repositories [] []) "P" "api" three_repositories
                eq_refl eq_refl) as [Hfirst Hany].
  split.
  - apply (Hfirst [sample_repository "1" (Some "Web")]
                  (sample_repository "2" (Some "api"))
                  [sample_repository "api" (Some "docs")]).
    + reflexivity.
    + left. reflexivity.
    + intros r [<-|[]]. split; discriminate.
  - apply Hany. reflexivity.
Defined.

(** X9: [get_branch_by_name] answers with the first fetched ref whose name is
    the branch name, given in short or already in full with its
    [refs/heads/] prefix; the answer is not flagged as an error. *)
Theorem branch_lookup_accepts_both_names
        (env : Providers) (api : GitApi) (repositoryId branchName : string)
        (branches before after : list GitRef) (found : GitRef) :
  connect env = Returned api ->
  getRefs api repositoryId
    {| refs_project := None; refs_filter := Some "heads/";
       refs_includeLinks := Some false; refs_includeStatuses := Some false;
       refs_includeMyBranches := None; refs_latestStatusesOnly := Some false;
       refs_peelTags := None; refs_filterContains := Some branchName |}
  = Returned (Some branches) ->
  branches = before ++ found :: after ->
  (ref_name found = Some (heads_prefix ++ branchName)%string \/
   ref_name found = Some branchName) ->
  (forall b, In b before ->
             ref_name b <> Some (heads_prefix ++ branchName)%string /\
             ref_name b <> Some branchName) ->
  get_branch_by_name env repositoryId branchName = Returned (ok (JBranch found)).
Proof.
  intros Hconnect Hrefs -> Hfound Hbefore. unfold get_branch_by_name.
  rewrite Hconnect. simpl. rewrite Hrefs. simpl.
  rewrite find_first_match; [reflexivity| |].
  - intros b Hb. destruct (Hbefore b Hb) as [H1 H2].
    now rewrite !same_string_false.
  - apply orb_true_iff. rewrite !same_string_true. assumption.
Qed.

Lemma branch_lookup_accepts_both_names_witness :
  get_branch_by_name main_only_env "R" "refs/heads/main"
  = Returned (ok (JBranch (sample_ref "refs/heads/main"))).
Proof.
  apply (branch_lookup_accepts_both_names main_only_env
           (sample_api [] [sample_ref "refs/heads/main"] []) "R" "refs/heads/main"
           [sample_ref "refs/heads/main"] [] [] (sample_ref "refs/heads/main"));
    try reflexivity.
  - right. reflexivity.
  - intros b [].
Defined.

(** ** Replies and new threads *)

(** X10: With a non-zero [threadId] the comment is added to that thread: the
    status, the file path and the lines play no part, and when the backend
    accepts the comment the answer carries the [threadId] and no error flag.
    A [threadId] of 0 counts as none: a new thread is opened. *)
Theorem thread_id_selects_reply
        (env : Providers) (repositoryId : string) (pullRequestId : Z)
        (content : string) (threadId : Z) (status : string) (path : option string)
        (lineStart lineEnd : option Z) (project : option string) :
  (threadId <> 0 ->
   (forall status' path' lineStart' lineEnd',
       create_pull_request_comment env repositoryId pullRequestId content
         (Some threadId) status path lineStart lineEnd project
       = create_pull_request_comment env repositoryId pullRequestId content
           (Some threadId) status' path' lineStart' lineEnd' project) /\
   (forall api result,
       connect env = Returned api ->
       createComment api (new_comment content) repositoryId pullRequestId threadId
         project = Returned result ->
       create_pull_request_comment env repositoryId pullRequestId content
         (Some threadId) status path lineStart lineEnd project
       = Returned (ok (JCreatedComment (created_comment result threadId))))) /\
  create_pull_request_comment env repositoryId pullRequestId content (Some 0) status
    path lineStart lineEnd project
  = create_pull_request_comment env repositoryId pullRequestId content None status
      path lineStart lineEnd project.
Proof.
  unfold create_pull_request_comment, create_pull_request_comment_try.
  split; [|reflexivity].
  intros Hid. simpl. destruct (Z.eqb_spec threadId 0) as [|_]; [contradiction|].
  simpl. split; [reflexivity|].
  intros api result Hconnect Hcreate. rewrite Hconnect. simpl.
  now rewrite Hcreate.
Qed.

Lemma thread_id_selects_reply_witness :
  (forall status' path' lineStart' lineEnd',
      create_pull_request_comment (sample_env (sample_api [] [] [])) "R" 1 "thanks"
        (Some 7) "closed" (Some "a.ts") (Some 10) None None
      = create_pull_request_comment (sample_env (sample_api [] [] [])) "R" 1 "thanks"
          (Some 7) status' path' lineStart' lineEnd' None) /\
  (forall api result,
      connect (sample_env (sample_api [] [] [])) = Returned api ->
      createComment api (new_comment "thanks") "R" 1 7 None = Returned result ->
      create_pull_request_comment (sample_env (sample_api [] [] [])) "R" 1 "thanks"
        (Some 7) "closed" (Some "a.ts") (Some 10) None None
      = Returned (ok (JCreatedComment (created_comment result 7)))).
Proof.
  apply (proj1 (thread_id_selects_reply (sample_env (sample_api [] [] [])) "R" 1
                  "thanks" 7 "closed" (Some "a.ts") (Some 10) None None)).
  discriminate.
Defined.

Example reply_example :
  create_pull_request_comment (sample_env (sample_api [] [] [])) "R" 1 "thanks"
    (Some 7) "closed" (Some "a.ts") (Some 10) None None
  = Returned (ok (JCreatedComment
      {| cc_id := None;
         cc_author := {| ta_displayName := None; ta_uniqueName := None |};
         cc_content := Some "thanks";
         cc_publishedDate := None;
         cc_threadId := 7 |})).
Proof. reflexivity. Qed.

(** ** Listing and filtering repositories *)

Lemma prefix_app (p b : string) : String.prefix p (p ++ b)%string = true.
Proof.
  induction p as [|c p IH]; simpl; [now destruct b|].
  destruct (ascii_dec c c); [assumption | congruence].
Qed.

Lemma includes_unfold (s p : string) :
  JS.includes s p
  = String.prefix p s || match s with
                         | EmptyString => false
                         | String _ s' => JS.includes s' p
                         end.
Proof. destruct s; reflexivity. Qed.

Lemma includes_iff (s p : string) :
  JS.includes s p = true <-> exists a b, s = (a ++ p ++ b)%string.
Proof.
  split.
  - induction s as [|c s IH]; rewrite includes_unfold; intros H;
      apply orb_true_iff in H as [H|H]; try discriminate.
    + exists EmptyString. apply prefix_split in H. simpl. eauto.
    + exists EmptyString. apply prefix_split in H. simpl. eauto.
    + destruct (IH H) as (a & b & ->). exists (String c a), b. reflexivity.
  - intros (a & b & ->). induction a as [|c a IH]; rewrite includes_unfold.
    + simpl. now rewrite prefix_app.
    + simpl. rewrite IH. apply orb_true_r.
Qed.

Lemma filter_twice {A : Type} (f : A -> bool) (l : list A) :
  filter f (filter f l) = filter f l.
Proof.
  induction l as [|x l IH]; simpl; [reflexivity|].
  destruct (f x) eqn:Hx; simpl; [rewrite Hx; now f_equal | assumption].
Qed.

Lemma name_filter_keeps (repositories : list GitRepository) (repoNameFilter : string)
      (r : GitRepository) :
  In r (JS.nullish (filterReposByName (Some repositories) repoNameFilter) []) <->
  In r repositories /\
  exists name a b,
    repo_name r = Some name /\
    JS.toLowerCase name = (a ++ JS.toLowerCase repoNameFilter ++ b)%string.
Proof.
  unfold filterReposByName. simpl. rewrite filter_In.
  split; intros [Hin H]; split; auto.
  - destruct (repo_name r) as [name|]; [|discriminate].
    apply includes_iff in H as (a & b & H). eauto.
  - destruct H as (name & a & b & -> & H). apply includes_iff. eauto.
Qed.

(** X11: [filterReposByName] keeps exactly the repositories that
    have a name which, in lower case, contains the filter in lower case;
    filters that agree in lower case select the same repositories; and
    filtering a second time changes nothing. *)
Theorem name_filter_is_case_blind_containment
        (repositories : list GitRepository) (repoNameFilter : string) :
  (forall r,
      In r (JS.nullish (filterReposByName (Some repositories) repoNameFilter) []) <->
      In r repositories /\
      exists name a b,
        repo_name r = Some name /\
        JS.toLowerCase name = (a ++ JS.toLowerCase repoNameFilter ++ b)%string) /\
  (forall other,
      JS.toLowerCase other = JS.toLowerCase repoNameFilter ->
      filterReposByName (Some repositories) other
      = filterReposByName (Some repositories) repoNameFilter) /\
  filterReposByName (filterReposByName (Some repositories) repoNameFilter)
    repoNameFilter
  = filterReposByName (Some repositories) repoNameFilter.
Proof.
  split; [|split].
  - intros r. apply name_filter_keeps.
  - unfold filterReposByName. intros other ->. reflexivity.
  - unfold filterReposByName. simpl. now rewrite filter_twice.
Qed.

Lemma name_filter_is_case_blind_containment_witness :
  filterReposByName (Some three_repositories) "WEB"
  = filterReposByName (Some three_repositories) "web".
Proof.
  apply (proj1 (proj2 (name_filter_is_case_blind_containment three_repositories
                         "web")) "WEB").
  reflexivity.
Defined.

Example name_filter_example :
  filterReposByName (Some three_repositories) "WEB"
  = Some [sample_repository "1" (Some "Web")].
Proof. reflexivity. Qed.

(** X12: [list_repos_by_project] answers with trimmed copies of fetched
    repositories, at most [top] of them for a non-negative [top]; with a
    non-empty name filter each of them has a name that contains the filter,
    case ignored; and an empty filter is no filter. *)
Theorem repository_listing_is_bounded_and_filtered
        (localeCompare : string -> string -> Z) (env : Providers) (api : GitApi)
        (project : string) (top skip : Z) (repoNameFilter : option string)
        (repositories : list GitRepository) :
  connect env = Returned api ->
  getRepositories api project (Some false) (Some false) (Some false)
  = Returned (Some repositories) ->
  (exists listed,
      list_repos_by_project localeCompare env project top skip repoNameFilter
      = Returned (ok (JRepositories (Some listed))) /\
      (forall t, In t listed ->
                 exists r,
                   In r repositories /\ t = trimRepository r /\
                   forall f, repoNameFilter = Some f -> f <> EmptyString ->
                             exists name a b,
                               repo_name r = Some name /\
                               JS.toLowerCase name
                               = (a ++ JS.toLowerCase f ++ b)%string) /\
      (0 <= top -> Z.of_nat (List.length listed) <= top)) /\
  list_repos_by_project localeCompare env project top skip (Some EmptyString)
  = list_repos_by_project localeCompare env project top skip None.
Proof.
  intros Hconnect Hrepos. unfold list_repos_by_project.
  rewrite Hconnect. simpl. rewrite Hrepos. simpl. split; [|reflexivity].
  destruct (JS.truthy_string repoNameFilter) eqn:Hfilter.
  - apply truthy_string_iff in Hfilter as (f & -> & Hf). simpl.
    eexists. split; [reflexivity|]. split.
    + intros t Ht. apply in_map_iff in Ht as (r & <- & Hr).
      apply slice_incl in Hr. apply sort_In in Hr.
      apply name_filter_keeps in Hr as [Hin Hname].
      exists r. repeat split; auto. now intros f' [= <-] _.
    + intros Htop. rewrite length_map. now apply slice_length_bound.
  - simpl. eexists. split; [reflexivity|]. split.
    + intros t Ht. apply in_map_iff in Ht as (r & <- & Hr).
      apply slice_incl in Hr. apply sort_In in Hr.
      exists r. repeat split; auto. intros f -> Hf.
      rewrite truthy_string_nonempty in Hfilter by assumption. discriminate.
    + intros Htop. rewrite length_map. now apply slice_length_bound.
Qed.

Lemma repository_listing_is_bounded_and_filtered_witness :
  (exists listed,
      list_repos_by_project JS.compare_code_units
        (sample_env (sample_api three_repositories [] [])) "P" 1 0 (Some "A")
      = Returned (ok (JRepositories (Some listed))) /\
      (forall t, In t listed ->
                 exists r,
                   In r three_repositories /\ t = trimRepository r /\
                   forall f, Some "A" = Some f -> f <> EmptyString ->
                             exists name a b,
                               repo_name r = Some name /\
                               JS.toLowerCase name
                               = (a ++ JS.toLowerCase f ++ b)%string) /\
      (0 <= 1 -> Z.of_nat (List.length listed) <= 1)) /\
  list_repos_by_project JS.compare_code_units
    (sample_env (sample_api three_repositories [] [])) "P" 1 0 (Some EmptyString)
  = list_repos_by_project JS.compare_code_units
      (sample_env (sample_api three_repositories [] [])) "P" 1 0 None.
Proof.
  apply (repository_listing_is_bounded_and_filtered JS.compare_code_units
           (sample_env (sample_api three_repositories [] []))
           (sample_api three_repositories [] []) "P" 1 0 (Some "A")
           three_repositories); reflexivity.
Defined.

Example repository_listing_example :
  list_repos_by_project JS.compare_code_units
    (sample_env (sample_api three_repositories [] [])) "P" 1 0 (Some "A")
  = Returned (ok (JRepositories
      (Some [trimRepository (sample_repository "2" (Some "api"))]))).
Proof. reflexivity. Qed.

(** ** Completeness of the branch listings *)

Lemma string_app_cancel (p a b : string) : (p ++ a)%string = (p ++ b)%string -> a = b.
Proof.
  induction p as [|c p IH]; simpl; intros H; [assumption|].
  injection H as H. now apply IH.
Qed.

Lemma remove_first_own_prefix (p n : string) : JS.remove_first p (p ++ n)%string = n.
Proof.
  apply (string_app_cancel p). apply remove_first_at_start.
  unfold JS.startsWith. apply prefix_app.
Qed.

Lemma named_refs_length (test : string -> bool) (branches : list GitRef) :
  test EmptyString = false ->
  List.length
    (filter test
       (flat_map (fun branch => if JS.truthy_string (ref_name branch)
                                then [JS.nullish (ref_name branch) EmptyString]
                                else []) branches))
  = List.length
      (filter (fun b => test (JS.nullish (ref_name b) EmptyString)) branches).
Proof.
  intros Hempty.
  induction branches as [|b branches IH]; [reflexivity|].
  simpl. rewrite filter_app, length_app, IH.
  destruct (ref_name b) as [[|c name]|]; simpl; rewrite ?Hempty; try reflexivity.
  destruct (test (String c name)); reflexivity.
Qed.

Lemma head_names_length (branches : list GitRef) :
  List.length
    (filter (fun branch => JS.startsWith branch heads_prefix)
       (flat_map (fun branch => if JS.truthy_string (ref_name branch)
                                then [JS.nullish (ref_name branch) EmptyString]
                                else []) branches))
  = List.length (head_refs branches).
Proof.
  apply (named_refs_length (fun s => JS.startsWith s heads_prefix)). reflexivity.
Qed.

(** X13: A branch listing returns as many names as there are fetched refs under
    [refs/heads/], up to [top]; when [top] allows for all of them, every
    such ref is listed by its short name; and the short name of
    [refs/heads/n] is [n], also when [n] contains [refs/heads/] again. *)
Theorem branch_listing_is_complete
        (localeCompare : string -> string -> Z) (branches : list GitRef) (top : Z) :
  0 <= top ->
  exists names,
    branchesFilterOutIrrelevantProperties localeCompare (Some branches) top
    = Some names /\
    Z.of_nat (List.length names)
    = Z.min top (Z.of_nat (List.length (head_refs branches))) /\
    (Z.of_nat (List.length (head_refs branches)) <= top ->
     forall b n, In b branches -> ref_name b = Some (heads_prefix ++ n)%string ->
                 In n names) /\
    (forall n, JS.remove_first heads_prefix (heads_prefix ++ n)%string = n).
Proof.
  intros Htop. eexists. split; [reflexivity|]. split; [|split].
  - rewrite slice_from_start, length_firstn, sort_length, length_map,
      head_names_length by assumption. lia.
  - intros Hall b n Hb Hname.
    rewrite slice_from_start by assumption.
    rewrite firstn_all2
      by (rewrite sort_length, length_map, head_names_length; lia).
    apply sort_In. apply in_map_iff. exists (heads_prefix ++ n)%string.
    split; [apply remove_first_own_prefix|].
    apply filter_In. split; [|apply prefix_app].
    apply in_flat_map. exists b. split; [assumption|].
    rewrite Hname. simpl. now left.
  - intros n. apply remove_first_own_prefix.
Qed.

Lemma branch_listing_is_complete_witness :
  exists names,
    branchesFilterOutIrrelevantProperties JS.compare_code_units (Some mixed_refs) 5
    = Some names /\
    Z.of_nat (List.length names)
    = Z.min 5 (Z.of_nat (List.length (head_refs mixed_refs))) /\
    (Z.of_nat (List.length (head_refs mixed_refs)) <= 5 ->
     forall b n, In b mixed_refs -> ref_name b = Some (heads_prefix ++ n)%string ->
                 In n names) /\
    (forall n, JS.remove_first heads_prefix (heads_prefix ++ n)%string = n).
Proof.
  apply (branch_listing_is_complete JS.compare_code_units mixed_refs 5). lia.
Defined.

(** ** Reading tools do not write *)

(** X14: Every tool but [create_pull_request_comment] answers the same whatever
    [createComment] and [createThread] would do: it calls neither. *)
Theorem reading_tools_never_create
        (localeCompare : string -> string -> Z) (env : Providers) (api : GitApi)
        (newCreateComment :
           Comment -> string -> Z -> Z -> option string -> Outcome Comment)
        (newCreateThread :
           CommentThread -> string -> Z -> option string -> Outcome CommentThread)
        (request : Request) :
  is_write request = false ->
  call_tool localeCompare
    (with_api env (with_writers api newCreateComment newCreateThread)) request
  = call_tool localeCompare (with_api env api) request.
Proof.
  destruct request; intros Hread; try discriminate Hread; reflexivity.
Qed.

Lemma reading_tools_never_create_witness :
  call_tool JS.compare_code_units
    (with_api review_env
       (with_writers (sample_api [] mixed_refs [])
          (fun _ _ _ _ _ => Thrown "read-only")
          (fun _ _ _ _ => Thrown "read-only")))
    (ListBranchesByRepo "R" 2 None)
  = call_tool JS.compare_code_units
      (with_api review_env (sample_api [] mixed_refs []))
      (ListBranchesByRepo "R" 2 None).
Proof.
  apply (reading_tools_never_create JS.compare_code_units review_env
           (sample_api [] mixed_refs [])
           (fun _ _ _ _ _ => Thrown "read-only")
           (fun _ _ _ _ => Thrown "read-only")
           (ListBranchesByRepo "R" 2 None)).
  reflexivity.
Defined.

(** ** The domains manager *)

Lemma lower_ascii_twice (c : ascii) : JS.lower_ascii (JS.lower_ascii c) = JS.lower_ascii c.
Proof. destruct c as [[] [] [] [] [] [] [] []]; reflexivity. Qed.

Lemma is_space_lower_ascii (c : ascii) :
  JSString.is_space (JS.lower_ascii c) = JSString.is_space c.
Proof. destruct c as [[] [] [] [] [] [] [] []]; reflexivity. Qed.

Lemma toLowerCase_twice (s : string) :
  JS.toLowerCase (JS.toLowerCase s) = JS.toLowerCase s.
Proof.
  induction s as [|c s IH]; simpl; [reflexivity|].
  now rewrite lower_ascii_twice, IH.
Qed.

Lemma trimStart_toLowerCase (s : string) :
  JSString.trimStart (JS.toLowerCase s) = JS.toLowerCase (JSString.trimStart s).
Proof.
  induction s as [|c s IH]; simpl; [reflexivity|].
  rewrite is_space_lower_ascii. now destruct (JSString.is_space c).
Qed.

Lemma trimEnd_toLowerCase (s : string) :
  JSString.trimEnd (JS.toLowerCase s) = JS.toLowerCase (JSString.trimEnd s).
Proof.
  induction s as [|c s IH]; simpl; [reflexivity|].
  rewrite IH, is_space_lower_ascii.
  destruct (JSString.trimEnd s) as [|d t]; simpl; [|reflexivity].
  now destruct (JSString.is_space c).
Qed.

Lemma trimEnd_twice (s : string) :
  JSString.trimEnd (JSString.trimEnd s) = JSString.trimEnd s.
Proof.
  induction s as [|c s IH]; simpl; [reflexivity|].
  destruct (JSString.trimEnd s) as [|d t] eqn:Hend.
  - destruct (JSString.is_space c) eqn:Hc; simpl; [reflexivity|].
    now rewrite Hc.
  - change (JSString.trimEnd (String c (String d t)))
      with (match JSString.trimEnd (String d t) with
            | EmptyString =>
                if JSString.is_space c then EmptyString else String c EmptyString
            | String d' t' => String c (String d' t')
            end).
    now rewrite IH.
Qed.

Lemma trimStart_fixed (s : string) :
  match s with
  | EmptyString => True
  | String c _ => JSString.is_space c = false
  end -> JSString.trimStart s = s.
Proof. destruct s as [|c s]; simpl; [reflexivity|]. now intros ->. Qed.

Lemma trimStart_head (s : string) :
  match JSString.trimStart s with
  | EmptyString => True
  | String c _ => JSString.is_space c = false
  end.
Proof.
  induction s as [|c s IH]; simpl; [exact I|].
  destruct (JSString.is_space c) eqn:Hc; [assumption | now simpl].
Qed.

Lemma trimEnd_head (s : string) :
  match s with
  | EmptyString => True
  | String c _ => JSString.is_space c = false
  end ->
  match JSString.trimEnd s with
  | EmptyString => True
  | String c _ => JSString.is_space c = false
  end.
Proof.
  destruct s as [|c s]; simpl; [trivial|]. intros Hc.
  destruct (JSString.trimEnd s); [now rewrite Hc | assumption].
Qed.

Lemma trim_twice (s : string) : JSString.trim (JSString.trim s) = JSString.trim s.
Proof.
  unfold JSString.trim.
  rewrite (trimStart_fixed (JSString.trimEnd (JSString.trimStart s)))
    by apply trimEnd_head, trimStart_head.
  apply trimEnd_twice.
Qed.

Lemma trim_toLowerCase (s : string) :
  JSString.trim (JS.toLowerCase s) = JS.toLowerCase (JSString.trim s).
Proof.
  unfold JSString.trim. now rewrite trimStart_toLowerCase, trimEnd_toLowerCase.
Qed.

Lemma normalize_twice (d : string) :
  Domains.normalize (Domains.normalize d) = Domains.normalize d.
Proof.
  unfold Domains.normalize.
  now rewrite trim_toLowerCase, trim_twice, toLowerCase_twice.
Qed.

Lemma split_length (sep : ascii) (s : string) :
  List.length (JSString.split sep s) = S (JSString.occurrences sep s).
Proof.
  induction s as [|c s IH]; simpl; [reflexivity|].
  destruct (Ascii.eqb c sep); simpl; [now rewrite IH|].
  destruct (JSString.split sep s); simpl in *; lia.
Qed.

(** X15: Whatever the manager is constructed with, the repositories domain is the
    one enabled domain: [isDomainEnabled] holds of "repositories" and of
    nothing else, and the enabled domains are the available ones. *)
Theorem repositories_is_the_enabled_domain
        (domainsInput : Domains.DomainsInput) (domain : string) :
  (Domains.isDomainEnabled (Domains.constructor domainsInput) domain = true <->
   domain = "repositories") /\
  Domains.getEnabledDomains (Domains.constructor domainsInput)
  = Domains.getAvailableDomains.
Proof.
  split; [|reflexivity].
  unfold Domains.isDomainEnabled, Domains.constructor, Domains.REPOSITORIES. simpl.
  rewrite orb_false_r. apply String.eqb_eq.
Qed.

(** X16: [parseDomainsInput] gives no domain for a missing or empty input, one
    domain per comma-separated piece of a non-empty string (one more than it
    has commas), and one per element of an array; every domain it gives is
    trimmed and in lower case, so parsing its own result changes nothing. *)
Theorem parsed_domains_are_normal (domainsInput : Domains.DomainsInput) :
  Domains.parseDomainsInput None = [] /\
  Domains.parseDomainsInput (Some (inl EmptyString)) = [] /\
  (forall domains, domainsInput = Some (inl domains) -> domains <> EmptyString ->
                   List.length (Domains.parseDomainsInput domainsInput)
                   = S (JSString.occurrences "," domains)) /\
  (forall domains, domainsInput = Some (inr domains) ->
                   List.length (Domains.parseDomainsInput domainsInput)
                   = List.length domains) /\
  (forall d, In d (Domains.parseDomainsInput domainsInput) ->
             JSString.trim d = d /\ JS.toLowerCase d = d) /\
  Domains.parseDomainsInput (Some (inr (Domains.parseDomainsInput domainsInput)))
  = Domains.parseDomainsInput domainsInput.
Proof.
  assert (Hnormal : forall d, In d (Domains.parseDomainsInput domainsInput) ->
                              exists raw, d = Domains.normalize raw).
  { intros d. destruct domainsInput as [[[|c s]|l]|]; simpl; try contradiction;
      intros H; apply in_map_iff in H as (raw & <- & _); eauto. }
  split; [reflexivity|]. split; [reflexivity|].
  split; [|split; [|split]].
  - intros domains -> Hne. destruct domains as [|c s]; [congruence|].
    unfold Domains.parseDomainsInput. now rewrite length_map, split_length.
  - intros domains ->. simpl. apply length_map.
  - intros d Hd. destruct (Hnormal d Hd) as [raw ->].
    unfold Domains.normalize. split.
    + now rewrite trim_toLowerCase, trim_twice.
    + apply toLowerCase_twice.
  - change (map Domains.normalize (Domains.parseDomainsInput domainsInput)
            = Domains.parseDomainsInput domainsInput).
    rewrite <- (map_id (Domains.parseDomainsInput domainsInput)) at 2.
    apply map_ext_in. intros d Hd. destruct (Hnormal d Hd) as [raw ->].
    apply normalize_twice.
Qed.

Lemma parsed_domains_are_normal_witness :
  List.length (Domains.parseDomainsInput (Some (inl " Repositories , Builds,")))
  = S (JSString.occurrences "," " Repositories , Builds,") /\
  List.length (Domains.parseDomainsInput (Some (inr ["repositories"; "builds"])))
  = List.length ["repositories"; "builds"] /\
  (JSString.trim "builds" = "builds" /\ JS.toLowerCase "builds" = "builds").
Proof.
  split; [|split].
  - apply (proj1 (proj2 (proj2 (parsed_domains_are_normal
                                  (Some (inl " Repositories , Builds,"))))));
      [reflexivity | discriminate].
  - apply (proj1 (proj2 (proj2 (proj2 (parsed_domains_are_normal
                                         (Some (inr ["repositories"; "builds"]))))))).
    reflexivity.
  - apply (proj1 (proj2 (proj2 (proj2 (proj2 (parsed_domains_are_normal
             (Some (inl " Repositories , Builds,")))))))).
    simpl. right. now left.
Defined.

Example parse_domains_example :
  Domains.parseDomainsInput (Some (inl " Repositories , Builds,"))
  = ["repositories"; "builds"; EmptyString].
Proof. reflexivity. Qed.

Example parse_domains_array_example :
  Domains.parseDomainsInput (Some (inr ["repositories"; "builds"]))
  = ["repositories"; "builds"].
Proof. reflexivity. Qed.

(** ** Order of the listed repositories *)

Lemma filtered_repositories_are_named
      (repositories : list GitRepository) (repoNameFilter : string) :
  Forall named (JS.nullish (filterReposByName (Some repositories) repoNameFilter) []).
Proof.
  rewrite Forall_forall. intros r Hr.
  apply name_filter_keeps in Hr as [_ (name & _ & _ & Hname & _)].
  unfold named. congruence.
Qed.

(** X17: For a consistent collation, [list_repos_by_project] lists the
    repositories in ascending order of their names whenever a non-empty name
    filter is given, since the filter leaves only repositories that have a
    name, and also without a filter when every fetched repository has a
    name. *)
Theorem repository_listing_order
        (localeCompare : string -> string -> Z) (env : Providers) (api : GitApi)
        (project : string) (top skip : Z) (repoNameFilter : option string)
        (repositories : list GitRepository) :
  consistent localeCompare ->
  connect env = Returned api ->
  getRepositories api project (Some false) (Some false) (Some false)
  = Returned (Some repositories) ->
  JS.truthy_string repoNameFilter = true \/ Forall named repositories ->
  exists listed,
    list_repos_by_project localeCompare env project top skip repoNameFilter
    = Returned (ok (JRepositories (Some listed))) /\
    StronglySorted
      (fun a b => localeCompare (JS.nullish (tr_name a) EmptyString)
                                (JS.nullish (tr_name b) EmptyString) <= 0) listed.
Proof.
  intros Hlc Hconnect Hrepos Hnamed. unfold list_repos_by_project.
  rewrite Hconnect. simpl. rewrite Hrepos. simpl.
  pose proof (compare_repo_names_consistent localeCompare Hlc) as Hcmp.
  assert (Hsorted : forall l, Forall named l ->
            StronglySorted
              (fun a b => localeCompare (JS.nullish (tr_name a) EmptyString)
                                        (JS.nullish (tr_name b) EmptyString) <= 0)
              (map trimRepository
                 (JS.slice (JS.sort (compare_repo_names localeCompare) l)
                    skip (skip + top)))).
  { intros l Hl. apply StronglySorted_map. simpl. apply slice_sorted.
    eapply StronglySorted_weaken; [|apply (sort_sorted _ named Hcmp); assumption].
    intros a b Ha _. unfold compare_repo_names.
    assert (Hna : named a).
    { rewrite Forall_forall in Hl. apply Hl. now apply sort_In in Ha. }
    unfold named in Hna. now destruct (repo_name a); [|congruence]. }
  destruct (JS.truthy_string repoNameFilter) eqn:Hfilter.
  - eexists. split; [reflexivity|]. simpl.
    apply (Hsorted _ (filtered_repositories_are_named repositories
                        (JS.nullish repoNameFilter EmptyString))).
  - destruct Hnamed as [Hcontra|Hnamed]; [discriminate|].
    eexists. split; [reflexivity|]. simpl. now apply Hsorted.
Qed.

Lemma repository_listing_order_witness :
  exists listed,
    list_repos_by_project JS.compare_code_units
      (sample_env (sample_api unordered_repositories [] [])) "P" 100 0 (Some "A")
    = Returned (ok (JRepositories (Some listed))) /\
    StronglySorted
      (fun a b => JS.compare_code_units (JS.nullish (tr_name a) EmptyString)
                                        (JS.nullish (tr_name b) EmptyString) <= 0)
      listed.
Proof.
  apply (repository_listing_order JS.compare_code_units
           (sample_env (sample_api unordered_repositories [] []))
           (sample_api unordered_repositories [] [])
           "P" 100 0 (Some "A") unordered_repositories).
  - exact compare_code_units_consistent.
  - reflexivity.
  - reflexivity.
  - left. reflexivity.
Defined.

(** The filter keeps the three named repositories, delivered as beta, gamma,
    alpha, and the listing puts them in order. *)
Example repository_listing_order_example :
  list_repos_by_project JS.compare_code_units
    (sample_env (sample_api unordered_repositories [] [])) "P" 100 0 (Some "A")
  = Returned (ok (JRepositories (Some [
      trimRepository (sample_repository "4" (Some "alpha"));
      trimRepository (sample_repository "1" (Some "beta"));
      trimRepository (sample_repository "3" (Some "gamma"))]))).
Proof. reflexivity. Qed.
